(** * Folder scan and catalog store of the document-tagging application

  A shallow embedding of [db_manager.py] (class DatabaseManager),
  [file_scanner.py] (class FileScanner), the revision parser of the
  utilities module and the extension table of [config.py], followed by
  the properties of the scan, the search, the update operations, the
  recent-folder list and the revision parser.

  Both parts go on with the rest of the code: the other functions of
  the utilities module, the scan summary, the folder and update
  handlers of the screens ([jobs_screens.py], [main.py],
  [metadata_screen.py]) and the older store kept in [logger.py].

  What belongs to the Python runtime, to SQLite and to the operating
  system is modelled only as far as the program uses it; every such
  definition says what it stands for. *)

From Stdlib Require Import ZArith String Ascii List Bool Lia Sorted Permutation.
From Stdlib Require Import DecimalString.
From stdpp Require Import gmap strings list fin_maps sets.
Import ListNotations.

Local Open Scope string_scope.
Local Open Scope list_scope.
Local Open Scope nat_scope.

(* ===================================================================== *)
(** * Part I: definitions *)
(* ===================================================================== *)

(** ** Characters and text *)

Module Text.

(** 'A'..'Z', 'a'..'z', '0'..'9' by code. *)
Definition is_upper (c : ascii) : bool :=
  let n := nat_of_ascii c in (65 <=? n) && (n <=? 90).
Definition is_lower (c : ascii) : bool :=
  let n := nat_of_ascii c in (97 <=? n) && (n <=? 122).
Definition is_digit (c : ascii) : bool :=
  let n := nat_of_ascii c in (48 <=? n) && (n <=? 57).

(** The ASCII characters Python takes as white space ([str.isspace],
    and [\s] in a str pattern): the space, tab to carriage return, and
    the four separators 28 to 31. *)
Definition is_space (c : ascii) : bool :=
  let n := nat_of_ascii c in
  (n =? 32) || ((9 <=? n) && (n <=? 13)) || ((28 <=? n) && (n <=? 31)).

Definition to_lower (c : ascii) : ascii :=
  if is_upper c then ascii_of_nat (nat_of_ascii c + 32) else c.
Definition to_upper (c : ascii) : ascii :=
  if is_lower c then ascii_of_nat (nat_of_ascii c - 32) else c.

Fixpoint map (f : ascii -> ascii) (s : string) : string :=
  match s with
  | EmptyString => EmptyString
  | String c r => String (f c) (map f r)
  end.

(** [str.lower] and [str.upper], and SQLite's [lower()]: the letters
    A-Z and a-z change case, every other character is kept.  (SQLite
    folds exactly these; Python agrees on ASCII text.) *)
Definition lower (s : string) : string := map to_lower s.
Definition upper (s : string) : string := map to_upper s.

(** Decimal spelling of a number, and the same padded with zeros on the
    left to [width] characters (the ["%0<width>d"] conversion). *)
Definition of_nat (n : nat) : string := NilEmpty.string_of_uint (Nat.to_uint n).

Fixpoint zeros (n : nat) : string :=
  match n with O => "" | S k => String "0" (zeros k) end.

Definition zfill (width n : nat) : string :=
  let d := of_nat n in zeros (width - String.length d) ++ d.

Definition of_Z (z : Z) : string :=
  match z with
  | Z0 => "0"
  | Zpos p => of_nat (Pos.to_nat p)
  | Zneg p => "-" ++ of_nat (Pos.to_nat p)
  end.

(** Index of the last occurrence of [c] in [s] ([str.rfind], with [None]
    for -1). *)
Fixpoint rfind (c : ascii) (s : string) : option nat :=
  match s with
  | EmptyString => None
  | String d r =>
      match rfind c r with
      | Some i => Some (S i)
      | None => if Ascii.eqb c d then Some 0 else None
      end
  end.

(** [s[i:]] *)
Fixpoint drop (i : nat) (s : string) : string :=
  match i, s with
  | O, _ => s
  | S k, EmptyString => EmptyString
  | S k, String _ r => drop k r
  end.

(** [s[:i]] *)
Fixpoint take (i : nat) (s : string) : string :=
  match i, s with
  | O, _ => EmptyString
  | S k, EmptyString => EmptyString
  | S k, String c r => String c (take k r)
  end.

Fixpoint all (p : ascii -> bool) (s : string) : bool :=
  match s with
  | EmptyString => true
  | String c r => p c && all p r
  end.

Fixpoint ends_with_char (c : ascii) (s : string) : bool :=
  match s with
  | EmptyString => false
  | String d EmptyString => Ascii.eqb c d
  | String _ r => ends_with_char c r
  end.

Definition starts_with_char (c : ascii) (s : string) : bool :=
  match s with
  | String d _ => Ascii.eqb c d
  | EmptyString => false
  end.

(** A number below 16 as a small hexadecimal digit, and a number below
    256 as two of them (['%02x']). *)
Definition hex_digit (n : nat) : ascii :=
  ascii_of_nat (if n <? 10 then 48 + n else 87 + n).

Definition hex2 (n : nat) : string :=
  String (hex_digit (n / 16)) (String (hex_digit (n mod 16)) EmptyString).

End Text.

(** ** The Python values the program handles *)

Module Py.

(** [datetime.datetime], a naive date and time, as its seven fields. *)
Record datetime := mk_datetime {
  year : nat; month : nat; day : nat;
  hour : nat; minute : nat; second : nat; microsecond : nat
}.

(** Comparison of two datetimes: the field tuples, lexicographically. *)
Fixpoint lex_ltb (a b : list nat) : bool :=
  match a, b with
  | x :: a', y :: b' => (x <? y) || ((x =? y) && lex_ltb a' b')
  | _, _ => false
  end.

Definition fields (d : datetime) : list nat :=
  [year d; month d; day d; hour d; minute d; second d; microsecond d].

Definition datetime_ltb (a b : datetime) : bool := lex_ltb (fields a) (fields b).

(** [d.isoformat(" ")], which is also [str(d)]: the microseconds are
    written only when they are not zero. *)
Definition isoformat (d : datetime) : string :=
  Text.zfill 4 (year d) ++ "-" ++ Text.zfill 2 (month d) ++ "-" ++ Text.zfill 2 (day d)
  ++ " " ++ Text.zfill 2 (hour d) ++ ":" ++ Text.zfill 2 (minute d) ++ ":"
  ++ Text.zfill 2 (second d)
  ++ (if microsecond d =? 0 then "" else "." ++ Text.zfill 6 (microsecond d)).

(** The values that reach the store and come back from it: [None], an
    [int], a [str], a [datetime].  (The program binds no float and no
    bytes.) *)
Inductive value :=
| None_
| Int (z : Z)
| Str (s : string)
| Datetime (d : datetime).

(** Truth value of a Python object ([if not value]). *)
Definition truthy (v : value) : bool :=
  match v with
  | None_ => false
  | Int z => negb (z =? 0)%Z
  | Str s => negb (String.eqb s "")
  | Datetime _ => true
  end.

(** [v == s] for a str [s]: only an equal str is equal to it. *)
Definition eq_str (v : value) (s : string) : bool :=
  match v with
  | Str t => String.eqb t s
  | _ => false
  end.

(** [str(v)], what an f-string writes for [{v}]. *)
Definition str (v : value) : string :=
  match v with
  | None_ => "None"
  | Int z => Text.of_Z z
  | Str s => s
  | Datetime d => isoformat d
  end.

Definition type_name (v : value) : string :=
  match v with
  | None_ => "NoneType"
  | Int _ => "int"
  | Str _ => "str"
  | Datetime _ => "datetime.datetime"
  end.

(** Exceptions, with the text [str(e)] gives. *)
Inductive exn :=
| TypeError (msg : string)
| KeyError (msg : string)
| OSError (msg : string)
| UnicodeEncodeError (msg : string).

Definition exn_str (e : exn) : string :=
  match e with
  | TypeError m => m
  | KeyError m => m
  | OSError m => m
  | UnicodeEncodeError m => m
  end.

(** A computation that returns or raises. *)
Inductive result (A : Type) :=
| Ok (a : A)
| Raise (e : exn).
Arguments Ok {A} a.
Arguments Raise {A} e.

(** [a > b].  Two ints, two strs and two datetimes are ordered; every
    other pair makes Python raise TypeError (neither operand implements
    the comparison with the other's type). *)
Definition gt (a b : value) : result bool :=
  match a, b with
  | Int x, Int y => Ok (y <? x)%Z
  | Str x, Str y => Ok (String.ltb y x)
  | Datetime x, Datetime y => Ok (datetime_ltb y x)
  | _, _ =>
      Raise (TypeError ("'>' not supported between instances of '"
                        ++ type_name a ++ "' and '" ++ type_name b ++ "'"))
  end.

End Py.

(** ** SQLite, as far as the store's statements use it *)

Module Sqlite.

(** A bound parameter or a cell: NULL, INTEGER or TEXT. *)
Inductive value :=
| Null
| Integer (z : Z)
| Text_ (s : string).

(** How the sqlite3 module binds a Python value.  A datetime goes
    through the module's default adapter, [isoformat(" ")], and is
    stored as that text. *)
Definition bind (v : Py.value) : value :=
  match v with
  | Py.None_ => Null
  | Py.Int z => Integer z
  | Py.Str s => Text_ s
  | Py.Datetime d => Text_ (Py.isoformat d)
  end.

(** How the sqlite3 module hands a cell back.  The connections are
    opened without [detect_types], so no converter runs: TEXT comes back
    as [str], also from a column declared DATETIME. *)
Definition fetch (v : value) : Py.value :=
  match v with
  | Null => Py.None_
  | Integer z => Py.Int z
  | Text_ s => Py.Str s
  end.

Definition of_text (o : option string) : value :=
  match o with Some s => Text_ s | None => Null end.

(** sqlite3 hands a str to SQLite as UTF-8.  The characters 128 to 255
    of a text stand for the lone surrogates U+DC80 to U+DCFF, which is
    what [os.fsdecode] (surrogateescape) makes of the bytes of a file name
    that are not valid UTF-8; a text that holds one has no UTF-8 form. *)
Definition surrogate (c : ascii) : bool := 128 <=? nat_of_ascii c.

Definition encodable (s : string) : bool := Text.all (fun c => negb (surrogate c)) s.

(** The length of the run of surrogates a text begins with. *)
Fixpoint surrogates (s : string) : nat :=
  match s with
  | String c r => if surrogate c then S (surrogates r) else 0
  | EmptyString => 0
  end.

(** What binding a str raises when it cannot be encoded: the
    UnicodeEncodeError of the UTF-8 codec, which names the first run of
    surrogates by its position ([i] counts the characters gone by). *)
Fixpoint encode_error (i : nat) (s : string) : option Py.exn :=
  match s with
  | EmptyString => None
  | String c r =>
      if surrogate c then
        Some (Py.UnicodeEncodeError
                (match surrogates r with
                 | O =>
                     "'utf-8' codec can't encode character '\udc"
                     ++ Text.hex2 (nat_of_ascii c) ++ "' in position " ++ Text.of_nat i
                 | S k =>
                     "'utf-8' codec can't encode characters in position "
                     ++ Text.of_nat i ++ "-" ++ Text.of_nat (i + S k)
                 end ++ ": surrogates not allowed"))
      else encode_error (S i) r
  end.

(** The LIKE operator, [like pattern text]: ['%'] matches any run of
    characters (also the empty one), ['_'] any one character, every
    other character itself, the letters A-Z and a-z without regard to
    case.  No escape character is declared by the store's queries. *)
Fixpoint like (p s : string) {struct p} : bool :=
  match p with
  | EmptyString => match s with EmptyString => true | _ => false end
  | String c p' =>
      if Ascii.eqb c "%" then
        (fix skip (t : string) : bool :=
           like p' t || match t with
                        | EmptyString => false
                        | String _ t' => skip t'
                        end) s
      else
        match s with
        | EmptyString => false
        | String d s' =>
            (Ascii.eqb c "_" || Ascii.eqb (Text.to_lower c) (Text.to_lower d))
            && like p' s'
        end
  end.

(** ORDER BY on a column holding NULL or TEXT: NULL sorts before every
    text, two texts compare byte by byte (the BINARY collation). *)
Definition leb (a b : option string) : bool :=
  match a, b with
  | None, _ => true
  | Some _, None => false
  | Some x, Some y => String.leb x y
  end.

(** The integer a text spells when it is compared with an INTEGER
    column: an optional sign and decimal digits.  (SQLite reads a few
    more spellings as numbers, such as [' 5'] and ['5.0']; they are not
    needed here and are read as no number.) *)
Fixpoint digits_value (acc : Z) (s : string) : option Z :=
  match s with
  | EmptyString => Some acc
  | String c r =>
      if Text.is_digit c
      then digits_value (10 * acc + Z.of_nat (nat_of_ascii c - 48))%Z r
      else None
  end.

Definition integer_of_text (s : string) : option Z :=
  match s with
  | EmptyString => None
  | String c r =>
      if Ascii.eqb c "-" then
        match r with
        | EmptyString => None
        | _ => option_map Z.opp (digits_value 0 r)
        end
      else if Ascii.eqb c "+" then
        match r with
        | EmptyString => None
        | _ => digits_value 0 r
        end
      else digits_value 0 s
  end.

(** [column = ?] on an INTEGER column. *)
Definition integer_eqb (cell : Z) (v : value) : bool :=
  match v with
  | Null => false
  | Integer z => (cell =? z)%Z
  | Text_ s =>
      match integer_of_text s with
      | Some z => (cell =? z)%Z
      | None => false
      end
  end.

End Sqlite.

(** ** posixpath *)

Module PosixPath.

(** [os.path.join(a, b)] for two components. *)
Definition join (a b : string) : string :=
  if Text.starts_with_char "/" b then b
  else if String.eqb a "" || Text.ends_with_char "/" a then a ++ b
  else a ++ "/" ++ b.

(** [os.path.basename(p)]: what follows the last slash. *)
Definition basename (p : string) : string :=
  match Text.rfind "/" p with
  | Some i => Text.drop (S i) p
  | None => p
  end.

(** [os.path.splitext(p)[1]]: from the last dot of the last component
    on, unless that component has only dots before it. *)
Definition splitext_ext (p : string) : string :=
  let start := match Text.rfind "/" p with Some i => S i | None => 0 end in
  match Text.rfind "." p with
  | Some dot =>
      if start <=? dot then
        if Text.all (Ascii.eqb ".") (Text.take (dot - start) (Text.drop start p))
        then ""
        else Text.drop dot p
      else ""
  | None => ""
  end.

End PosixPath.

(** ** config.py *)

Module Config.

Definition FILE_TYPES : list (string * string) :=
  [ (".pdf", "PDF"); (".dwg", "DWG"); (".doc", "DOC"); (".docx", "DOC");
    (".xls", "XLS"); (".xlsx", "XLS"); (".txt", "TXT"); (".csv", "CSV");
    (".zip", "ZIP"); (".rar", "RAR") ].

(** [table.get(key, default)] *)
Fixpoint get (table : list (string * string)) (key default : string) : string :=
  match table with
  | [] => default
  | (k, v) :: rest => if String.eqb k key then v else get rest key default
  end.

End Config.


(** ** db_manager.py: class DatabaseManager *)

(** The column names of files_metadata, the keys of the mappings the
    store receives. *)
Module Col.

(** The columns declared TEXT. *)
Inductive text :=
| file_path | file_name | source | file_type | issue_status | revision
| department | drawing_type | plant_area | equipment_included | notes | todos.

(** The columns declared DATETIME. *)
Inductive time := last_modified | created_date.

Inductive t :=
| file_id
| text_ (c : text)
| time_ (c : time).

#[global] Instance text_eq_dec : EqDecision text.
Proof. solve_decision. Defined.
#[global] Instance time_eq_dec : EqDecision time.
Proof. solve_decision. Defined.
#[global] Instance eq_dec : EqDecision t.
Proof. solve_decision. Defined.

(** The column's name, the key as the Python mappings spell it. *)
Definition text_name (c : text) : string :=
  match c with
  | file_path => "file_path" | file_name => "file_name" | source => "source"
  | file_type => "file_type" | issue_status => "issue_status" | revision => "revision"
  | department => "department" | drawing_type => "drawing_type"
  | plant_area => "plant_area" | equipment_included => "equipment_included"
  | notes => "notes" | todos => "todos"
  end.

Definition name (c : t) : string :=
  match c with
  | file_id => "file_id"
  | text_ c => text_name c
  | time_ last_modified => "last_modified"
  | time_ created_date => "created_date"
  end.

(** The two keys [search_files] treats as date fields. *)
Definition is_date_field (c : t) : bool :=
  match c with time_ _ => true | _ => false end.

End Col.

Module DatabaseManager.

(** *** The tables created by [_init_database] *)

(** One row of files_metadata.  [file_id] is the INTEGER PRIMARY KEY,
    [file_path] and [file_name] are NOT NULL; every other cell is NULL
    ([None]) or a text.  The two DATETIME cells hold the text the
    sqlite3 module stored for a datetime, or CURRENT_TIMESTAMP's text. *)
Record file_row := {
  file_id : Z;
  file_path : string;
  file_name : string;
  source : option string;
  file_type : option string;
  issue_status : option string;
  revision : option string;
  department : option string;
  drawing_type : option string;
  plant_area : option string;
  equipment_included : option string;
  notes : option string;
  todos : option string;
  last_modified : option string;
  created_date : option string
}.

(** One row of recent_folders; [folder_path] is UNIQUE. *)
Record folder_row := {
  folder_id : Z;
  folder_path : string;
  last_accessed : string
}.

(** The database file: the two tables with the AUTOINCREMENT counter
    SQLite keeps for each (the largest rowid ever handed out).  The
    user_input_history table is created but never used by the store's
    operations. *)
Record database := {
  files_metadata : list file_row;
  files_metadata_seq : Z;
  recent_folders : list folder_row;
  recent_folders_seq : Z
}.

(** The database right after [_init_database] on a new file. *)
Definition empty : database :=
  {| files_metadata := []; files_metadata_seq := 0;
     recent_folders := []; recent_folders_seq := 0 |}.

(** The rowid an AUTOINCREMENT table gives to the next row. *)
Definition next_rowid (seq : Z) (ids : list Z) : Z :=
  (1 + fold_right Z.max seq ids)%Z.

(** *** Cells *)

Definition text_cell (c : Col.text) (r : file_row) : option string :=
  match c with
  | Col.file_path => Some (file_path r)
  | Col.file_name => Some (file_name r)
  | Col.source => source r
  | Col.file_type => file_type r
  | Col.issue_status => issue_status r
  | Col.revision => revision r
  | Col.department => department r
  | Col.drawing_type => drawing_type r
  | Col.plant_area => plant_area r
  | Col.equipment_included => equipment_included r
  | Col.notes => notes r
  | Col.todos => todos r
  end.

Definition time_cell (c : Col.time) (r : file_row) : option string :=
  match c with
  | Col.last_modified => last_modified r
  | Col.created_date => created_date r
  end.

Definition cell (c : Col.t) (r : file_row) : Sqlite.value :=
  match c with
  | Col.file_id => Sqlite.Integer (file_id r)
  | Col.text_ c => Sqlite.of_text (text_cell c r)
  | Col.time_ c => Sqlite.of_text (time_cell c r)
  end.

(** [SET c = v] on one row; [None] when a NOT NULL column would become
    NULL (sqlite3.IntegrityError). *)
Definition set_text (c : Col.text) (v : option string) (r : file_row) : option file_row :=
  match c with
  | Col.file_path =>
      match v with
      | Some s => Some (Build_file_row (file_id r) s (file_name r) (source r)
                          (file_type r) (issue_status r) (revision r) (department r)
                          (drawing_type r) (plant_area r) (equipment_included r)
                          (notes r) (todos r) (last_modified r) (created_date r))
      | None => None
      end
  | Col.file_name =>
      match v with
      | Some s => Some (Build_file_row (file_id r) (file_path r) s (source r)
                          (file_type r) (issue_status r) (revision r) (department r)
                          (drawing_type r) (plant_area r) (equipment_included r)
                          (notes r) (todos r) (last_modified r) (created_date r))
      | None => None
      end
  | Col.source =>
      Some (Build_file_row (file_id r) (file_path r) (file_name r) v (file_type r)
              (issue_status r) (revision r) (department r) (drawing_type r)
              (plant_area r) (equipment_included r) (notes r) (todos r)
              (last_modified r) (created_date r))
  | Col.file_type =>
      Some (Build_file_row (file_id r) (file_path r) (file_name r) (source r) v
              (issue_status r) (revision r) (department r) (drawing_type r)
              (plant_area r) (equipment_included r) (notes r) (todos r)
              (last_modified r) (created_date r))
  | Col.issue_status =>
      Some (Build_file_row (file_id r) (file_path r) (file_name r) (source r)
              (file_type r) v (revision r) (department r) (drawing_type r)
              (plant_area r) (equipment_included r) (notes r) (todos r)
              (last_modified r) (created_date r))
  | Col.revision =>
      Some (Build_file_row (file_id r) (file_path r) (file_name r) (source r)
              (file_type r) (issue_status r) v (department r) (drawing_type r)
              (plant_area r) (equipment_included r) (notes r) (todos r)
              (last_modified r) (created_date r))
  | Col.department =>
      Some (Build_file_row (file_id r) (file_path r) (file_name r) (source r)
              (file_type r) (issue_status r) (revision r) v (drawing_type r)
              (plant_area r) (equipment_included r) (notes r) (todos r)
              (last_modified r) (created_date r))
  | Col.drawing_type =>
      Some (Build_file_row (file_id r) (file_path r) (file_name r) (source r)
              (file_type r) (issue_status r) (revision r) (department r) v
              (plant_area r) (equipment_included r) (notes r) (todos r)
              (last_modified r) (created_date r))
  | Col.plant_area =>
      Some (Build_file_row (file_id r) (file_path r) (file_name r) (source r)
              (file_type r) (issue_status r) (revision r) (department r)
              (drawing_type r) v (equipment_included r) (notes r) (todos r)
              (last_modified r) (created_date r))
  | Col.equipment_included =>
      Some (Build_file_row (file_id r) (file_path r) (file_name r) (source r)
              (file_type r) (issue_status r) (revision r) (department r)
              (drawing_type r) (plant_area r) v (notes r) (todos r) (last_modified r)
              (created_date r))
  | Col.notes =>
      Some (Build_file_row (file_id r) (file_path r) (file_name r) (source r)
              (file_type r) (issue_status r) (revision r) (department r)
              (drawing_type r) (plant_area r) (equipment_included r) v (todos r)
              (last_modified r) (created_date r))
  | Col.todos =>
      Some (Build_file_row (file_id r) (file_path r) (file_name r) (source r)
              (file_type r) (issue_status r) (revision r) (department r)
              (drawing_type r) (plant_area r) (equipment_included r) (notes r) v
              (last_modified r) (created_date r))
  end.

Definition set_time (c : Col.time) (v : option string) (r : file_row) : file_row :=
  match c with
  | Col.last_modified =>
      Build_file_row (file_id r) (file_path r) (file_name r) (source r) (file_type r)
        (issue_status r) (revision r) (department r) (drawing_type r) (plant_area r)
        (equipment_included r) (notes r) (todos r) v (created_date r)
  | Col.created_date =>
      Build_file_row (file_id r) (file_path r) (file_name r) (source r) (file_type r)
        (issue_status r) (revision r) (department r) (drawing_type r) (plant_area r)
        (equipment_included r) (notes r) (todos r) (last_modified r) v
  end.

(** *** The mappings the operations receive *)

(** One entry of a metadata mapping, at the types the callers bind: a
    str (or None) under a TEXT column's name, a datetime (or None) under
    a DATETIME column's name.  A mapping is a Python dict: no key occurs
    twice. *)
Inductive field :=
| TextField (c : Col.text) (v : option string)
| TimeField (c : Col.time) (v : option Py.datetime).

Definition metadata := list field.

Definition key (f : field) : Col.t :=
  match f with
  | TextField c _ => Col.text_ c
  | TimeField c _ => Col.time_ c
  end.

(** What [cursor.execute] raises while it binds the values of a mapping,
    in the mapping's order and before the statement runs: the error of
    the first text that cannot be encoded.  (The text of a datetime is
    digits and punctuation.)  A UnicodeEncodeError is no sqlite3.Error:
    the handlers of the store let it through to the caller. *)
Fixpoint bind_error (m : metadata) : option Py.exn :=
  match m with
  | [] => None
  | TextField _ (Some s) :: rest =>
      match Sqlite.encode_error 0 s with
      | Some e => Some e
      | None => bind_error rest
      end
  | _ :: rest => bind_error rest
  end.

Definition py_value (f : field) : Py.value :=
  match f with
  | TextField _ (Some s) => Py.Str s
  | TimeField _ (Some d) => Py.Datetime d
  | _ => Py.None_
  end.

(** [metadata[k]]; a missing key raises KeyError, whose text is the
    quoted key. *)
Fixpoint getitem (m : metadata) (k : Col.t) : Py.result Py.value :=
  match m with
  | [] => Py.Raise (Py.KeyError ("'" ++ Col.name k ++ "'"))
  | f :: rest => if decide (key f = k) then Py.Ok (py_value f) else getitem rest k
  end.

(** The cell an entry stores: a datetime is stored as the text of
    [Sqlite.bind]. *)
Definition stored_time (v : option Py.datetime) : option string :=
  option_map Py.isoformat v.

Fixpoint lookup_text (m : metadata) (c : Col.text) : option (option string) :=
  match m with
  | [] => None
  | TextField c' v :: rest => if decide (c' = c) then Some v else lookup_text rest c
  | _ :: rest => lookup_text rest c
  end.

Fixpoint lookup_time (m : metadata) (c : Col.time) : option (option string) :=
  match m with
  | [] => None
  | TimeField c' v :: rest =>
      if decide (c' = c) then Some (stored_time v) else lookup_time rest c
  | _ :: rest => lookup_time rest c
  end.

(** A column the INSERT does not name gets its default: NULL. *)
Definition or_null (o : option (option string)) : option string :=
  match o with Some v => v | None => None end.

(** *** add_file_metadata *)

(** The row [INSERT INTO files_metadata (columns) VALUES (?, ...)] makes
    of the mapping; [None] when file_path or file_name is missing or
    None (NOT NULL constraint).  created_date defaults to
    CURRENT_TIMESTAMP, here [now]. *)
Definition inserted_row (now : string) (id : Z) (m : metadata) : option file_row :=
  match lookup_text m Col.file_path, lookup_text m Col.file_name with
  | Some (Some p), Some (Some n) =>
      Some {| file_id := id;
              file_path := p;
              file_name := n;
              source := or_null (lookup_text m Col.source);
              file_type := or_null (lookup_text m Col.file_type);
              issue_status := or_null (lookup_text m Col.issue_status);
              revision := or_null (lookup_text m Col.revision);
              department := or_null (lookup_text m Col.department);
              drawing_type := or_null (lookup_text m Col.drawing_type);
              plant_area := or_null (lookup_text m Col.plant_area);
              equipment_included := or_null (lookup_text m Col.equipment_included);
              notes := or_null (lookup_text m Col.notes);
              todos := or_null (lookup_text m Col.todos);
              last_modified := or_null (lookup_time m Col.last_modified);
              created_date :=
                match lookup_time m Col.created_date with
                | Some v => v
                | None => Some now
                end |}
  | _, _ => None
  end.

(** Returns [cursor.lastrowid], or None after an sqlite3.Error: an empty
    mapping gives the statement [INSERT ... () VALUES ()], a syntax
    error; a NOT NULL violation is an IntegrityError. *)
Definition add_file_metadata (now : string) (m : metadata) (db : database)
  : option Z * database :=
  match m with
  | [] => (None, db)
  | _ :: _ =>
      let id := next_rowid (files_metadata_seq db) (map file_id (files_metadata db)) in
      match inserted_row now id m with
      | Some r =>
          (Some id,
           {| files_metadata := files_metadata db ++ [r];
              files_metadata_seq := id;
              recent_folders := recent_folders db;
              recent_folders_seq := recent_folders_seq db |})
      | None => (None, db)
      end
  end.

(** *** update_file_metadata and update_file_metadata_by_path *)

Definition assign (f : field) (r : file_row) : option file_row :=
  match f with
  | TextField c v => set_text c v r
  | TimeField c v => Some (set_time c (stored_time v) r)
  end.

(** The SET clause, one assignment per entry of the mapping. *)
Fixpoint assign_all (m : metadata) (r : file_row) : option file_row :=
  match m with
  | [] => Some r
  | f :: rest =>
      match assign f r with
      | Some r' => assign_all rest r'
      | None => None
      end
  end.

(** [UPDATE files_metadata SET ... WHERE ...]: the table afterwards and
    [cursor.rowcount], the number of rows the WHERE clause selected;
    [None] when the statement fails on a selected row. *)
Fixpoint update_rows (selected : file_row -> bool) (m : metadata) (rows : list file_row)
  : option (list file_row * nat) :=
  match rows with
  | [] => Some ([], 0)
  | r :: rest =>
      match update_rows selected m rest with
      | None => None
      | Some (rest', n) =>
          if selected r then
            match assign_all m r with
            | Some r' => Some (r' :: rest', S n)
            | None => None
            end
          else Some (r :: rest', n)
      end
  end.

Definition with_files (db : database) (rows : list file_row) : database :=
  {| files_metadata := rows;
     files_metadata_seq := files_metadata_seq db;
     recent_folders := recent_folders db;
     recent_folders_seq := recent_folders_seq db |}.

(** [WHERE file_id = ?] with [id] bound. *)
Definition has_id (id : Py.value) (r : file_row) : bool :=
  Sqlite.integer_eqb (file_id r) (Sqlite.bind id).

(** [WHERE file_path = ?] *)
Definition has_path (path : string) (r : file_row) : bool :=
  String.eqb (file_path r) path.

(** With an empty mapping the statement reads [UPDATE files_metadata
    SET  WHERE file_id = ?], a syntax error (sqlite3.OperationalError),
    caught: False.  Otherwise True once the statement has run, whatever
    [cursor.rowcount] is. *)
Definition update_file_metadata (id : Py.value) (m : metadata) (db : database)
  : bool * database :=
  match m with
  | [] => (false, db)
  | _ :: _ =>
      match update_rows (has_id id) m (files_metadata db) with
      | Some (rows, _) => (true, with_files db rows)
      | None => (false, db)
      end
  end.

(** The same statement keyed by file_path; True when
    [cursor.rowcount > 0]. *)
Definition update_file_metadata_by_path (path : string) (m : metadata) (db : database)
  : bool * database :=
  match m with
  | [] => (false, db)
  | _ :: _ =>
      match update_rows (has_path path) m (files_metadata db) with
      | Some (rows, rowcount) => (0 <? rowcount, with_files db rows)
      | None => (false, db)
      end
  end.

(** *** get_file_metadata and get_file_metadata_by_path *)

Definition get_file_metadata (id : Py.value) (db : database) : option file_row :=
  find (has_id id) (files_metadata db).

Definition get_file_metadata_by_path (path : string) (db : database) : option file_row :=
  find (has_path path) (files_metadata db).

(** *** search_files *)

(** [ORDER BY key DESC]: an insertion sort that keeps rows with equal
    keys in table order, which is what SQLite's sorter does here. *)
Section OrderBy.
Context {A K : Type} (leb : K -> K -> bool) (key : A -> K).

Fixpoint insert_desc (x : A) (l : list A) : list A :=
  match l with
  | [] => [x]
  | y :: l' => if leb (key y) (key x) then x :: l else y :: insert_desc x l'
  end.

Definition order_by_desc (l : list A) : list A := fold_right insert_desc [] l.

(** [a] may stand before [b]: the key of [b] is not above the key of
    [a]. *)
Definition descending (a b : A) : Prop := leb (key b) (key a) = true.
End OrderBy.

(** One condition of the WHERE clause. *)
Inductive clause :=
| Like (c : Col.t) (pattern : string)       (* lower(c) LIKE lower(?) *)
| DateEq (c : Col.t) (v : Sqlite.value).    (* date(c) = date(?) *)

(** The loop over [criteria.items()]: a falsy value is skipped; a date
    field is skipped when its value is the placeholder and otherwise
    compared by date; any other field is matched with LIKE against
    [f"%{value}%"]. *)
Definition clause_of (criterion : Col.t * Py.value) : list clause :=
  let (k, value) := criterion in
  if negb (Py.truthy value) then []
  else if Col.is_date_field k then
    if Py.eq_str value "YYYY-MM-DD" then []
    else [DateEq k (Sqlite.bind value)]
  else [Like k ("%" ++ Py.str value ++ "%")].

Definition where_clauses (criteria : list (Col.t * Py.value)) : list clause :=
  flat_map clause_of criteria.

(** SQLite's [lower(X)]: NULL for NULL, else the text of X with A-Z
    folded. *)
Definition sql_lower (v : Sqlite.value) : option string :=
  match v with
  | Sqlite.Null => None
  | Sqlite.Integer z => Some (Text.of_Z z)
  | Sqlite.Text_ s => Some (Text.lower s)
  end.

(** Truth of one condition on one row (NULL counts as not true).
    [date] is SQLite's [date()] function, NULL being [None]. *)
Definition holds (date : Sqlite.value -> option string) (r : file_row) (c : clause) : bool :=
  match c with
  | Like k pattern =>
      match sql_lower (cell k r) with
      | Some t => Sqlite.like (Text.lower pattern) t
      | None => false
      end
  | DateEq k v =>
      match date (cell k r), date v with
      | Some a, Some b => String.eqb a b
      | _, _ => false
      end
  end.

(** [SELECT * FROM files_metadata WHERE c1 AND c2 ... ORDER BY
    last_modified DESC]; each result is the row as a dict. *)
Definition search_files (date : Sqlite.value -> option string)
    (criteria : list (Col.t * Py.value)) (db : database) : list file_row :=
  let clauses := where_clauses criteria in
  order_by_desc Sqlite.leb last_modified
    (List.filter (fun r => forallb (holds date r) clauses) (files_metadata db)).

(** *** get_recent_folders, add_recent_folder, remove_recent_folder *)

(** [LIMIT n]: a negative [n] means no limit. *)
Definition limit {A} (n : Z) (l : list A) : list A :=
  if (n <? 0)%Z then l else firstn (Z.to_nat n) l.

(** [SELECT * FROM recent_folders ORDER BY last_accessed DESC LIMIT ?] *)
Definition get_recent_folders (n : Z) (db : database) : list folder_row :=
  limit n (order_by_desc String.leb last_accessed (recent_folders db)).

Definition with_folders (db : database) (rows : list folder_row) (seq : Z) : database :=
  {| files_metadata := files_metadata db;
     files_metadata_seq := files_metadata_seq db;
     recent_folders := rows;
     recent_folders_seq := seq |}.

(** [INSERT ... ON CONFLICT(folder_path) DO UPDATE SET last_accessed =
    CURRENT_TIMESTAMP]: a row with this path gets the new time where it
    stands; without one a new row is appended. *)
Fixpoint upsert (id : Z) (path now : string) (rows : list folder_row) : list folder_row :=
  match rows with
  | [] => [ {| folder_id := id; folder_path := path; last_accessed := now |} ]
  | r :: rest =>
      if String.eqb (folder_path r) path
      then {| folder_id := folder_id r; folder_path := folder_path r;
              last_accessed := now |} :: rest
      else r :: upsert id path now rest
  end.

(** [SELECT folder_path FROM recent_folders ORDER BY last_accessed DESC
    LIMIT 5] *)
Definition five_most_recent (rows : list folder_row) : list string :=
  map folder_path (limit 5 (order_by_desc String.leb last_accessed rows)).

Definition mem (x : string) (l : list string) : bool :=
  existsb (String.eqb x) l.

(** [DELETE FROM recent_folders WHERE folder_path NOT IN (...)] *)
Definition trim (rows : list folder_row) : list folder_row :=
  let keep := five_most_recent rows in
  List.filter (fun r => mem (folder_path r) keep) rows.

(** [now] is the text of CURRENT_TIMESTAMP when the statement runs.  The
    insert draws a rowid from the AUTOINCREMENT counter also when it
    ends in the update. *)
Definition add_recent_folder (now : string) (path : string) (db : database)
  : bool * database :=
  let id := next_rowid (recent_folders_seq db) (map folder_id (recent_folders db)) in
  (true, with_folders db (trim (upsert id path now (recent_folders db))) id).

Definition remove_recent_folder (path : string) (db : database) : bool * database :=
  (true,
   with_folders db
     (List.filter (fun r => negb (String.eqb (folder_path r) path)) (recent_folders db))
     (recent_folders_seq db)).

End DatabaseManager.

(** ** The file system, as the scanner sees it *)

Module Os.

(** What [os.stat] reports of a file.  The two times are kept as the
    datetimes [datetime.fromtimestamp] makes of [st_mtime] and
    [st_ctime]; the float seconds and the local time zone stay with the
    platform. *)
Record stat_result := {
  st_mtime : Py.datetime;
  st_ctime : Py.datetime
}.

(** A directory entry: a file, with what [os.stat] does on it (it
    raises OSError on a file it cannot reach), or a directory with its
    named entries in listing order. *)
#[local] Unset Elimination Schemes.
Inductive entry :=
| File (st : Py.result stat_result)
| Directory (children : list (string * entry)).
#[local] Set Elimination Schemes.

(** The platform under the scanner: what a path resolves to on the
    disk, and the drive [pathlib] reads off a path, [Path(p).drive]: the
    empty text for every path of a POSIX system, the drive letter or the
    share of the path on Windows. *)
Record filesystem := {
  lookup : string -> option entry;
  drive : string -> string
}.

(** [os.path.exists] *)
Definition path_exists (fs : filesystem) (path : string) : bool :=
  match lookup fs path with Some _ => true | None => false end.

Definition files_of (children : list (string * entry))
  : list (string * Py.result stat_result) :=
  flat_map (fun c => match snd c with
                     | File st => [(fst c, st)]
                     | Directory _ => []
                     end) children.

Definition dirs_of (children : list (string * entry)) : list string :=
  flat_map (fun c => match snd c with
                     | File _ => []
                     | Directory _ => [fst c]
                     end) children.

(** [os.walk(top)], top-down: the triple of a directory, then the walks
    of its subdirectories in order.  A file name comes with the outcome
    of a later [os.stat] on its path. *)
Fixpoint walk_entry (top : string) (e : entry)
  : list (string * list string * list (string * Py.result stat_result)) :=
  match e with
  | File _ => []
  | Directory children =>
      (top, dirs_of children, files_of children)
      :: (fix subdirs (l : list (string * entry)) :=
            match l with
            | [] => []
            | c :: l' => walk_entry (PosixPath.join top (fst c)) (snd c) ++ subdirs l'
            end) children
  end.

Definition walk (fs : filesystem) (top : string)
  : list (string * list string * list (string * Py.result stat_result)) :=
  match lookup fs top with
  | Some e => walk_entry top e
  | None => []
  end.

(** Entry names as a file system has them: not empty, no slash. *)
Definition valid_name (n : string) : bool :=
  negb (String.eqb n "") && Text.all (fun c => negb (Ascii.eqb c "/")) n.

Fixpoint valid_names (e : entry) : bool :=
  match e with
  | File _ => true
  | Directory children =>
      (fix all (l : list (string * entry)) :=
         match l with
         | [] => true
         | c :: l' => valid_name (fst c) && valid_names (snd c) && all l'
         end) children
  end.

(** Induction over an entry and, for a directory, all its children. *)
Fixpoint entry_induction (P : entry -> Prop)
    (HFile : forall st, P (File st))
    (HDir : forall children, Forall (fun c => P (snd c)) children -> P (Directory children))
    (e : entry) {struct e} : P e :=
  match e with
  | File st => HFile st
  | Directory children =>
      HDir children
        ((fix go (l : list (string * entry)) : Forall (fun c => P (snd c)) l :=
            match l with
            | [] => @List.Forall_nil _ _
            | c :: l' => @List.Forall_cons _ _ c l' (entry_induction P HFile HDir (snd c)) (go l')
            end) children)
  end.

End Os.

(** ** file_scanner.py: class FileScanner *)

Module FileScanner.
Import DatabaseManager.

Inductive level := DEBUG | INFO | WARNING | ERROR.

(** What the scanner owns: the store ([self.db_manager]) and the records
    written to its logger ([self.logger]), oldest first.  The store's
    own logger is not modelled. *)
Record scanner := {
  db_manager : database;
  logger : list (level * string)
}.

Definition log (l : level) (msg : string) (s : scanner) : scanner :=
  {| db_manager := db_manager s; logger := logger s ++ [(l, msg)] |}.

(** [drive] is the platform's [Path(p).drive].  The source is
    [Path(file_path).drive or 'local']: the drive where the path has one,
    ['local'] where it is empty, as on every POSIX path. *)
Definition _extract_metadata (drive : string -> string) (file_path : string)
    (st : Py.result Os.stat_result) : Py.result metadata :=
  match st with
  | Py.Raise e => Py.Raise e
  | Py.Ok file_stat =>
      let file_name := PosixPath.basename file_path in
      let extension := Text.lower (PosixPath.splitext_ext file_name) in
      Py.Ok [ TextField Col.file_path (Some file_path);
              TextField Col.file_name (Some file_name);
              TextField Col.source
                (Some (if String.eqb (drive file_path) "" then "local"
                       else drive file_path));
              TextField Col.file_type (Some (Config.get Config.FILE_TYPES extension "OTHER"));
              TimeField Col.last_modified (Some (Os.st_mtime file_stat));
              TimeField Col.created_date (Some (Os.st_ctime file_stat)) ]
  end.

(** The dict [{r['file_path']: r['last_modified'] for r in results}]
    over the search for the folder path; each value is the cell as
    sqlite3 returns it.  Every result of [SELECT *] has both keys, so the
    comprehension's filter lets every row through; a later row with the
    same path replaces the earlier value. *)
Definition _get_existing_files (date : Sqlite.value -> option string)
    (folder_path : string) (db : database) : gmap string Py.value :=
  fold_left
    (fun (d : gmap string Py.value) r =>
       <[file_path r := Sqlite.fetch (cell (Col.time_ Col.last_modified) r)]> d)
    (search_files date [(Col.text_ Col.file_path, Py.Str folder_path)] db)
    ∅.

(** The state of the walk: the scanner and [processed_files]. *)
Record progress := {
  self : scanner;
  processed_files : gset string
}.

(** The way one file leaves the [try] block: through the insert, through
    the update, past the update without a write, or through an
    exception on the way.  A store call that raises is an exception on
    the way: nothing is written and the statements after the call are
    not reached. *)
Inductive outcome :=
| Insert (metadata : DatabaseManager.metadata)
| Update (metadata : DatabaseManager.metadata)
| NoWrite
| Skip (e : Py.exn).

(** Which way the file goes.  [existing_files] is the snapshot taken
    before the walk; the comparison is Python's [>] on the extracted
    datetime and the snapshot's value.  [add_file_metadata] and
    [update_file_metadata] catch sqlite3.Error only: when sqlite3 cannot
    bind a value of the mapping, as with a file name that is not valid
    UTF-8, the UnicodeEncodeError leaves the store call before anything is
    written and is caught by the scanner's [except Exception].  (The
    update binds the path once more after the mapping, which holds it
    already.) *)
Definition branch (drive : string -> string) (existing_files : gmap string Py.value)
    (file_path : string) (st : Py.result Os.stat_result) : outcome :=
  match _extract_metadata drive file_path st with
  | Py.Raise e => Skip e
  | Py.Ok metadata =>
      match existing_files !! file_path with
      | Some stored =>
          match getitem metadata (Col.time_ Col.last_modified) with
          | Py.Raise e => Skip e
          | Py.Ok modified =>
              match Py.gt modified stored with
              | Py.Raise e => Skip e
              | Py.Ok true =>
                  match bind_error metadata with
                  | Some e => Skip e
                  | None => Update metadata
                  end
              | Py.Ok false => NoWrite
              end
          end
      | None =>
          match bind_error metadata with
          | Some e => Skip e
          | None => Insert metadata
          end
      end
  end.

Definition processed (file_path : string) (s : scanner) (p : progress) : progress :=
  {| self := s; processed_files := {[file_path]} ∪ processed_files p |}.

(** The body of the inner loop for one file name.  The store calls of
    the two writing branches, reached with a mapping sqlite3 can bind,
    are followed by their debug record and by [processed_files.add];
    [except Exception] logs the error, that of a store call included, and
    goes on to the next file, past the add. *)
Definition process_file (now : string) (drive : string -> string)
    (existing_files : gmap string Py.value) (root : string) (p : progress)
    (file : string * Py.result Os.stat_result) : progress :=
  let file_path := PosixPath.join root (fst file) in
  match branch drive existing_files file_path (snd file) with
  | Update metadata =>
      let db := snd (update_file_metadata (Py.Str file_path) metadata
                       (db_manager (self p))) in
      processed file_path
        (log DEBUG ("Updated metadata: " ++ file_path)
           {| db_manager := db; logger := logger (self p) |}) p
  | NoWrite => processed file_path (self p) p
  | Insert metadata =>
      let db := snd (add_file_metadata now metadata (db_manager (self p))) in
      processed file_path
        (log DEBUG ("Added new file: " ++ file_path)
           {| db_manager := db; logger := logger (self p) |}) p
  | Skip e =>
      {| self := log ERROR ("Error processing file " ++ file_path ++ ": " ++ Py.exn_str e)
                   (self p);
         processed_files := processed_files p |}
  end.

(** What the walk hands to the loop body, in order: the directory and
    the file name with its stat outcome. *)
Definition discovered (fs : Os.filesystem) (folder_path : string)
  : list (string * (string * Py.result Os.stat_result)) :=
  flat_map (fun triple => map (fun file => (fst (fst triple), file)) (snd triple))
    (Os.walk fs folder_path).

(** The loop body over an enumeration. *)
Definition process_files (now : string) (drive : string -> string)
    (existing_files : gmap string Py.value)
    (items : list (string * (string * Py.result Os.stat_result))) (p : progress)
  : progress :=
  fold_left (fun p item => process_file now drive existing_files (fst item) p (snd item))
    items p.

(** [for root, _, files in os.walk(folder_path): for filename in files],
    from an empty [processed_files]. *)
Definition walk_files (now : string) (existing_files : gmap string Py.value)
    (fs : Os.filesystem) (folder_path : string) (s : scanner) : progress :=
  process_files now (Os.drive fs) existing_files (discovered fs folder_path)
    {| self := s; processed_files := ∅ |}.

(** [set(existing_files.keys()) - processed_files] *)
Definition removed_files (existing_files : gmap string Py.value) (p : progress)
  : gset string :=
  dom existing_files ∖ processed_files p.

(** A warning for each path, in the set's iteration order. *)
Definition _handle_removed_files (removed : gset string) (s : scanner) : scanner :=
  fold_left (fun s file_path => log WARNING ("File no longer exists: " ++ file_path) s)
    (elements removed) s.

(** [scan_folder(folder_path)] on the disk [fs]; [now] is the clock the
    store would read for a default created_date.  The folder path is one
    sqlite3 can bind in the snapshot's query (it comes from the folder
    dialog or from the stored list), so nothing outside the inner [try]
    raises and the outer handler is not entered. *)
Definition scan_folder (date : Sqlite.value -> option string) (now : string)
    (fs : Os.filesystem) (folder_path : string) (s : scanner) : bool * scanner :=
  if negb (Os.path_exists fs folder_path) then
    (false, log ERROR ("Folder not found: " ++ folder_path) s)
  else
    let existing_files := _get_existing_files date folder_path (db_manager s) in
    let p := walk_files now existing_files fs folder_path s in
    let removed := removed_files existing_files p in
    let s1 := if decide (removed = ∅) then self p
              else _handle_removed_files removed (self p) in
    (true,
     log INFO ("Scan completed - Processed: " ++ Text.of_nat (size (processed_files p))
               ++ ", Removed: " ++ Text.of_nat (size removed)) s1).

End FileScanner.

(** ** Regular expressions, as far as [parse_revision] writes them *)

Module Re.

(** The pattern language of the three patterns: literals, character
    classes, a greedy star or plus over a class, a greedy optional part,
    sequence, and numbered capturing groups. *)
Inductive regex :=
| Eps
| Chr (c : ascii)
| Class (p : ascii -> bool)
| Star (p : ascii -> bool)
| Plus (p : ascii -> bool)
| Opt (r : regex)
| Seq (r1 r2 : regex)
| Group (n : nat) (r : regex).

(** The text of each group that took part in the match, latest first. *)
Definition captures := list (nat * string).

(** [match.group(n)] *)
Fixpoint group (n : nat) (caps : captures) : option string :=
  match caps with
  | [] => None
  | (i, s) :: rest => if i =? n then Some s else group n rest
  end.

(** What was read between [s] and its suffix [rest]. *)
Definition consumed (s rest : string) : string :=
  Text.take (String.length s - String.length rest) s.

(** A greedy run over the class [p]: as many characters as the class
    allows, then one fewer each time the continuation fails. *)
Fixpoint greedy (p : ascii -> bool) (k : string -> option captures) (t : string)
  : option captures :=
  match t with
  | String d t' =>
      if p d then
        match greedy p k t' with
        | Some c => Some c
        | None => k t
        end
      else k t
  | EmptyString => k t
  end.

(** The backtracking matcher, at the start of [s]: [k] continues with
    what is left, and a failure of [k] makes the matcher try its next
    alternative.  Greedy parts try the longer match first. *)
Fixpoint run (r : regex) (s : string) (caps : captures)
    (k : string -> captures -> option captures) {struct r} : option captures :=
  match r with
  | Eps => k s caps
  | Chr c =>
      match s with
      | String d s' => if Ascii.eqb c d then k s' caps else None
      | EmptyString => None
      end
  | Class p =>
      match s with
      | String d s' => if p d then k s' caps else None
      | EmptyString => None
      end
  | Star p => greedy p (fun t => k t caps) s
  | Plus p =>
      match s with
      | String d s' => if p d then greedy p (fun t => k t caps) s' else None
      | EmptyString => None
      end
  | Opt r' =>
      match run r' s caps k with
      | Some c => Some c
      | None => k s caps
      end
  | Seq r1 r2 => run r1 s caps (fun s' caps' => run r2 s' caps' k)
  | Group n r' => run r' s caps (fun s' caps' => k s' ((n, consumed s s') :: caps'))
  end.

(** [re.search(pattern, text)]: the match at the leftmost position
    that has one. *)
Fixpoint search (r : regex) (s : string) : option captures :=
  match run r s [] (fun _ caps => Some caps) with
  | Some caps => Some caps
  | None =>
      match s with
      | String _ s' => search r s'
      | EmptyString => None
      end
  end.

(** A literal word. *)
Fixpoint word (w : string) : regex :=
  match w with
  | EmptyString => Eps
  | String c w' => Seq (Chr c) (word w')
  end.

(** What it means for a pattern to match exactly the text [m], and
    which groups that adds to the captures: the declarative reading of
    the pattern language, without a search order. *)
Inductive derives : regex -> string -> captures -> captures -> Prop :=
| derives_eps c : derives Eps "" c c
| derives_chr a c : derives (Chr a) (String a "") c c
| derives_class p a c : p a = true -> derives (Class p) (String a "") c c
| derives_star p m c : Text.all p m = true -> derives (Star p) m c c
| derives_plus p m c : m <> "" -> Text.all p m = true -> derives (Plus p) m c c
| derives_opt_skip r c : derives (Opt r) "" c c
| derives_opt_take r m c c' : derives r m c c' -> derives (Opt r) m c c'
| derives_seq r1 r2 m1 m2 c c1 c2 :
    derives r1 m1 c c1 -> derives r2 m2 c1 c2 -> derives (Seq r1 r2) (m1 ++ m2) c c2
| derives_group n r m c c' : derives r m c c' -> derives (Group n r) m c ((n, m) :: c').

(** A pattern occurs in a text when some stretch of the text matches
    it. *)
Definition occurs (r : regex) (text : string) (caps : captures) : Prop :=
  exists before m after, text = before +:+ m +:+ after /\ derives r m [] caps.

End Re.

(** ** The utilities module: parse_revision *)

Module Utils.

Definition alnum_upper (c : ascii) : bool := Text.is_upper c || Text.is_digit c.

(** [r'REV\s*([A-Z0-9]+)'] *)
Definition pattern_rev : Re.regex :=
  Re.Seq (Re.word "REV") (Re.Seq (Re.Star Text.is_space) (Re.Group 1 (Re.Plus alnum_upper))).

(** [r'R(\d+)'] *)
Definition pattern_r : Re.regex :=
  Re.Seq (Re.Chr "R") (Re.Group 1 (Re.Plus Text.is_digit)).

(** [r'V(\d+(\.\d+)?)'] *)
Definition pattern_v : Re.regex :=
  Re.Seq (Re.Chr "V")
    (Re.Group 1 (Re.Seq (Re.Plus Text.is_digit)
                   (Re.Opt (Re.Group 2 (Re.Seq (Re.Chr ".") (Re.Plus Text.is_digit)))))).

Definition patterns : list Re.regex := [pattern_rev; pattern_r; pattern_v].

(** The loop over the patterns: the first one found in the text gives
    its group 1. *)
Fixpoint first_match (ps : list Re.regex) (text : string) : option string :=
  match ps with
  | [] => None
  | p :: rest =>
      match Re.search p text with
      | Some m => Re.group 1 m
      | None => first_match rest text
      end
  end.

(** File names are taken over ASCII, where [Text.upper] is
    [str.upper] and the classes are Python's. *)
Definition parse_revision (filename : string) : option string :=
  first_match patterns (Text.upper filename).

End Utils.

(** ** The revision patterns, read from their description *)

Module RevisionSpec.

Definition digits (g : string) : Prop := g <> "" /\ Text.all Text.is_digit g = true.

(** "REV <alnum>": the word REV, white space or none, then a run of
    capital letters and digits, which is the revision. *)
Definition rev_in (text g : string) : Prop :=
  exists before spaces after,
    text = before +:+ "REV" +:+ spaces +:+ g +:+ after
    /\ Text.all Text.is_space spaces = true
    /\ g <> "" /\ Text.all Utils.alnum_upper g = true.

(** "R<digits>" *)
Definition r_in (text g : string) : Prop :=
  exists before after, text = before +:+ "R" +:+ g +:+ after /\ digits g.

(** "V<digits[.digits]>" *)
Definition v_in (text g : string) : Prop :=
  exists before after,
    text = before +:+ "V" +:+ g +:+ after
    /\ (digits g \/ exists a b, g = a +:+ "." +:+ b /\ digits a /\ digits b).

End RevisionSpec.

(** ** The search criteria, read from their description *)

Module SearchSpec.
Import DatabaseManager.

(** Case-insensitive "begins with" and "contains". *)
Fixpoint prefix_ci (needle hay : string) : bool :=
  match needle with
  | EmptyString => true
  | String c needle' =>
      match hay with
      | String d hay' =>
          Ascii.eqb (Text.to_lower c) (Text.to_lower d) && prefix_ci needle' hay'
      | EmptyString => false
      end
  end.

Fixpoint contains_ci (needle hay : string) : bool :=
  prefix_ci needle hay
  || match hay with
     | String _ hay' => contains_ci needle hay'
     | EmptyString => false
     end.

(** The two characters LIKE reads as wildcards. *)
Definition wildcard (c : ascii) : bool := Ascii.eqb c "%" || Ascii.eqb c "_".
Definition plain (s : string) : bool := Text.all (fun c => negb (wildcard c)) s.

Definition same_date (date : Sqlite.value -> option string) (a b : Sqlite.value) : bool :=
  match date a, date b with
  | Some x, Some y => String.eqb x y
  | _, _ => false
  end.

(** One criterion on one record, with the text match taken as a plain
    case-insensitive substring test: the reading of the specification. *)
Definition satisfies_substring (date : Sqlite.value -> option string) (r : file_row)
    (criterion : Col.t * Py.value) : bool :=
  let (k, value) := criterion in
  if Py.truthy value then
    match k with
    | Col.time_ _ =>
        Py.eq_str value "YYYY-MM-DD" || same_date date (cell k r) (Sqlite.bind value)
    | _ =>
        match sql_lower (cell k r) with
        | Some t => contains_ci (Py.str value) t
        | None => false
        end
    end
  else true.

(** The same with the text match taken as LIKE against the value
    between two percent signs. *)
Definition satisfies_like (date : Sqlite.value -> option string) (r : file_row)
    (criterion : Col.t * Py.value) : bool :=
  let (k, value) := criterion in
  if Py.truthy value then
    match k with
    | Col.time_ _ =>
        Py.eq_str value "YYYY-MM-DD" || same_date date (cell k r) (Sqlite.bind value)
    | _ =>
        match sql_lower (cell k r) with
        | Some t => Sqlite.like (Text.lower ("%" ++ Py.str value ++ "%")) t
        | None => false
        end
    end
  else true.

(** Newest first, by the stored last_modified. *)
Definition newer_first : file_row -> file_row -> Prop :=
  descending Sqlite.leb last_modified.

End SearchSpec.

(** ** The recent-folder list, read from its description *)

Module RecentSpec.
Import DatabaseManager.




(** The UNIQUE constraint on folder_path. *)
Definition unique_paths (db : database) : Prop :=
  NoDup (map folder_path (recent_folders db)).



End RecentSpec.

(** ** The scan, read from its description *)

Module ScanSpec.
Import DatabaseManager FileScanner.

(** The path the loop body builds for an item of the walk. *)
Definition item_path (item : string * (string * Py.result Os.stat_result)) : string :=
  PosixPath.join (fst item) (fst (snd item)).

(** The file left the [try] block through an exception. *)
Definition raised (o : outcome) : Prop := exists e, o = Skip e.

(** [path] lies under [folder_path]: it begins with it. *)
Definition under (folder_path path : string) : Prop :=
  exists rest, path = folder_path +:+ rest.

(** The catalog has a row for [path]. *)
Definition tracked (db : database) (path : string) : Prop :=
  exists r, In r (files_metadata db) /\ file_path r = path.

(** The enumeration comes upon [path]. *)
Definition on_disk (fs : Os.filesystem) (folder_path path : string) : Prop :=
  exists item, In item (discovered fs folder_path) /\ item_path item = path.

(** The disk names its entries as a file system does. *)
Definition well_named (fs : Os.filesystem) (folder_path : string) : Prop :=
  forall e, Os.lookup fs folder_path = Some e -> Os.valid_names e = true.

(** Every store write of the scanner is followed by a DEBUG record
    ("Added new file", "Updated metadata"), and it writes no other
    DEBUG record. *)
Definition no_write_logged (records : list (level * string)) : Prop :=
  forall msg, ~ In (DEBUG, msg) records.

(** All the records are errors. *)
Definition errors_only (records : list (level * string)) : Prop :=
  forall l msg, In (l, msg) records -> l = ERROR.

End ScanSpec.

(** ** Concrete disks and catalogs *)

Module Examples.
Import DatabaseManager FileScanner.

(** A [date()] for the examples: the calendar date that opens a text of
    at least ten characters. *)
Definition date (v : Sqlite.value) : option string :=
  match v with
  | Sqlite.Text_ s => if 10 <=? String.length s then Some (Text.take 10 s) else None
  | _ => None
  end.

Definition january : Py.datetime := Py.mk_datetime 2024 1 1 0 0 0 0.
Definition june : Py.datetime := Py.mk_datetime 2024 6 1 12 30 0 0.

Definition stat_ok (d : Py.datetime) : Py.result Os.stat_result :=
  Py.Ok {| Os.st_mtime := d; Os.st_ctime := d |}.

(** /docs holds a.pdf and the directory sub with b.dwg. *)
Definition docs : Os.entry :=
  Os.Directory [ ("a.pdf", Os.File (stat_ok june));
                 ("sub", Os.Directory [ ("b.dwg", Os.File (stat_ok january)) ]) ].

(** A POSIX system: no path has a drive. *)
Definition posix (lookup : string -> option Os.entry) : Os.filesystem :=
  {| Os.lookup := lookup; Os.drive := fun _ => "" |}.

Definition disk : Os.filesystem :=
  posix (fun path => if String.eqb path "/docs" then Some docs else None).

(** /docs with a.pdf alone, modified in June. *)
Definition disk_modified : Os.filesystem :=
  posix (fun path =>
           if String.eqb path "/docs"
           then Some (Os.Directory [ ("a.pdf", Os.File (stat_ok june)) ])
           else None).

(** /docs with a.pdf unreadable: [os.stat] raises. *)
Definition docs_unreadable : Os.entry :=
  Os.Directory
    [ ("a.pdf", Os.File (Py.Raise (Py.OSError "[Errno 13] Permission denied: '/docs/a.pdf'"))) ].

Definition disk_unreadable : Os.filesystem :=
  posix (fun path => if String.eqb path "/docs" then Some docs_unreadable else None).

(** /docs after everything in it was deleted. *)
Definition disk_emptied : Os.filesystem :=
  posix (fun path => if String.eqb path "/docs" then Some (Os.Directory []) else None).

(** /docs with one file whose name ends in a byte that is not valid
    UTF-8: Python lists it as ['b\udcff']. *)
Definition misnamed : string := String "b" (String (ascii_of_nat 255) EmptyString).

Definition disk_misnamed : Os.filesystem :=
  posix (fun path =>
           if String.eqb path "/docs"
           then Some (Os.Directory [ (misnamed, Os.File (stat_ok june)) ])
           else None).

(** A catalog that tracks /docs/a.pdf as last modified in January, with
    the department tagged. *)
Definition tracked_row : file_row :=
  {| file_id := 1; file_path := "/docs/a.pdf"; file_name := "a.pdf";
     source := Some "local"; file_type := Some "PDF";
     issue_status := None; revision := None; department := Some "Electrical";
     drawing_type := None; plant_area := None; equipment_included := None;
     notes := None; todos := None;
     last_modified := Some "2024-01-01 00:00:00";
     created_date := Some "2024-01-01 00:00:00" |}.

Definition catalog : database :=
  {| files_metadata := [tracked_row]; files_metadata_seq := 1;
     recent_folders := []; recent_folders_seq := 0 |}.

Definition tracking : scanner := {| db_manager := catalog; logger := [] |}.

(** Five recent folders, touched one second apart. *)
Definition five_folders : database :=
  fold_left (fun db touch => snd (add_recent_folder (fst touch) (snd touch) db))
    [ ("2024-01-01 00:00:01", "/a"); ("2024-01-01 00:00:02", "/b");
      ("2024-01-01 00:00:03", "/c"); ("2024-01-01 00:00:04", "/d");
      ("2024-01-01 00:00:05", "/e") ]
    DatabaseManager.empty.


End Examples.

(** A property of every character, checked on the 256 of them. *)
Ltac each_ascii c :=
destruct c as [[] [] [] [] [] [] [] []]; vm_compute; try reflexivity; try discriminate;
try tauto.

(** Inversion of a derivation along the pattern. *)
Ltac invert_derives :=
  repeat match goal with
  | H : Re.derives (Re.Seq _ _) _ _ _ |- _ => inversion H; subst; clear H
  | H : Re.derives (Re.Group _ _) _ _ _ |- _ => inversion H; subst; clear H
  | H : Re.derives (Re.Chr _) _ _ _ |- _ => inversion H; subst; clear H
  | H : Re.derives (Re.Star _) _ _ _ |- _ => inversion H; subst; clear H
  | H : Re.derives (Re.Plus _) _ _ _ |- _ => inversion H; subst; clear H
  | H : Re.derives Re.Eps _ _ _ |- _ => inversion H; subst; clear H
  | H : Re.derives (Re.word _) _ _ _ |- _ => simpl in H
  end.

(* ===================================================================== *)
(** * Part I, continued: the rest of the store's, the scanner's and the
      utilities' code *)
(* ===================================================================== *)

(** ** str methods *)

Module PyStr.

(** [s.replace(a, b)] for two single characters. *)
Fixpoint replace (a b : ascii) (s : string) : string :=
  match s with
  | EmptyString => EmptyString
  | String c r => String (if Ascii.eqb c a then b else c) (replace a b r)
  end.

(** [s.lstrip()] *)
Fixpoint lstrip (s : string) : string :=
  match s with
  | String c r => if Text.is_space c then lstrip r else s
  | EmptyString => EmptyString
  end.

(** [s.rstrip()] *)
Fixpoint rstrip (s : string) : string :=
  match s with
  | EmptyString => EmptyString
  | String c r =>
      match rstrip r with
      | EmptyString => if Text.is_space c then EmptyString else String c EmptyString
      | String d r' => String c (String d r')
      end
  end.

(** [s.strip()], over ASCII. *)
Definition strip (s : string) : string := lstrip (rstrip s).

End PyStr.

(** ** The utilities module: the functions beside parse_revision *)

(** The module's import line asks config.py for JOB_FOLDER_PATTERN, which
    config.py does not define; the functions are read as they are
    written, as they behave once the module is loaded. *)

Module Utilities.
Import DatabaseManager.

(** [METADATA_FIELDS] of config.py. *)
Definition METADATA_FIELDS : list string :=
  [ "department"; "file_type"; "revision"; "drawing_type"; "plant_area";
    "issue_status"; "equipment_included" ].

(** [get_file_type(file_path)]; nothing in the [try] block raises on a
    str. *)
Definition get_file_type (file_path : string) : string :=
  let extension := Text.lower (PosixPath.splitext_ext file_path) in
  Config.get Config.FILE_TYPES extension "OTHER".

(** The characters of [invalid_chars]: the angle brackets, the colon,
    the double quote, the two slashes, the bar, the question mark and the
    star. *)
Definition invalid_chars : list ascii :=
  [ "<"; ">"; ":"; ascii_of_nat 34; "/"; "\"; "|"; "?"; "*" ]%char.

(** [sanitize_filename(filename)]: one [replace] per invalid character,
    then [strip]. *)
Definition sanitize_filename (filename : string) : string :=
  PyStr.strip
    (fold_left (fun name char => PyStr.replace char "_" name) invalid_chars filename).

(** [validate_metadata(metadata)]: [metadata.get(field)] is None for a
    missing key, and None is falsy. *)
Definition validate_metadata (metadata : gmap string Py.value) : gmap string string :=
  fold_left
    (fun (cleaned : gmap string string) field =>
       match metadata !! field with
       | Some value =>
           if Py.truthy value then <[field := PyStr.strip (Py.str value)]> cleaned
           else cleaned
       | None => cleaned
       end)
    METADATA_FIELDS ∅.

(** The dict [{'total': ..., 'by_type': {...}}]. *)
Record file_stats := {
  total : nat;
  by_type : gmap string nat
}.

(** [calculate_file_stats(file_paths)] *)
Definition calculate_file_stats (file_paths : list string) : file_stats :=
  {| total := List.length file_paths;
     by_type :=
       fold_left
         (fun (counts : gmap string nat) path =>
            let file_type := get_file_type path in
            <[file_type := default 0 (counts !! file_type) + 1]> counts)
         file_paths ∅ |}.

End Utilities.

(** ** file_scanner.py: get_scan_summary *)

Module Summary.
Import DatabaseManager.

(** The dict the summary returns.  A key of [type_counts] is the
    file_type cell as sqlite3 returns it, None for NULL. *)
Record scan_summary := {
  total_files : nat;
  type_counts : gmap (option string) nat;
  tagged_files : nat;
  untagged_files : nat
}.

(** Truth value of a fetched cell: a text that is not empty. *)
Definition cell_truthy (c : option string) : bool :=
  Py.truthy (Sqlite.fetch (Sqlite.of_text c)).

(** [r.get('department') and r.get('revision')] *)
Definition tagged (r : file_row) : bool :=
  cell_truthy (department r) && cell_truthy (revision r).

(** [get_scan_summary(folder_path)].  Every result has the key
    'file_type', so [result.get('file_type', 'OTHER')] is the cell, never
    the default. *)
Definition get_scan_summary (date : Sqlite.value -> option string)
    (folder_path : string) (db : database) : scan_summary :=
  let results := search_files date [(Col.text_ Col.file_path, Py.Str folder_path)] db in
  let counts :=
    fold_left
      (fun (type_counts : gmap (option string) nat) result =>
         let file_type := file_type result in
         <[file_type := default 0 (type_counts !! file_type) + 1]> type_counts)
      results ∅ in
  let tagged_count := List.length (List.filter tagged results) in
  {| total_files := List.length results;
     type_counts := counts;
     tagged_files := tagged_count;
     untagged_files := List.length results - tagged_count |}.

End Summary.

(** ** jobs_screens.py and main.py: JobsScreen._process_folder *)

Module JobsScreen.
Import DatabaseManager FileScanner.

(** The part of the screen the handler works on: the controller's
    scanner, whose store is the controller's database
    ([FileScanner(self.db)]), the screen's own logger, and the message
    boxes it has shown, each with its title and its text. *)
Record screen := {
  controller : scanner;
  screen_logger : list (level * string);
  dialogs : list (string * string)
}.

(** [_process_folder(folder_path)] of jobs_screens.py: the folder is put
    on the recent list, then scanned; the scan's result is not looked
    at.  The controller has its scanner, so [if self.controller.scanner]
    holds.  None of the two calls raises, so the handler's [except] is
    never entered.  [now] is the clock of both store calls; the scan
    brings its own created_date and does not read it. *)
Definition _process_folder (date : Sqlite.value -> option string) (now : string)
    (fs : Os.filesystem) (folder_path : string) (sc : screen) : bool * screen :=
  let db := snd (add_recent_folder now folder_path (db_manager (controller sc))) in
  let scanned :=
    snd (scan_folder date now fs folder_path
           {| db_manager := db; logger := logger (controller sc) |}) in
  (true,
   {| controller := scanned;
      screen_logger :=
        screen_logger sc ++ [(INFO, "Successfully processed folder: " +:+ folder_path)];
      dialogs := dialogs sc |}).

End JobsScreen.

(** The class of the same name in main.py, which is the one the
    application builds its screen from. *)
Module Main.
Import DatabaseManager FileScanner JobsScreen.

(** [_process_folder(folder_path)] of main.py: a folder that does not
    exist is answered with a warning and a message box, before anything
    is written; otherwise as in jobs_screens.py. *)
Definition _process_folder (date : Sqlite.value -> option string) (now : string)
    (fs : Os.filesystem) (folder_path : string) (sc : screen) : bool * screen :=
  if negb (Os.path_exists fs folder_path) then
    (false,
     {| controller := controller sc;
        screen_logger := screen_logger sc ++ [(WARNING, "Folder not found: " +:+ folder_path)];
        dialogs :=
          dialogs sc
          ++ [("Invalid Folder",
               "The folder does not exist:" +:+ String (ascii_of_nat 10) folder_path)] |})
  else
    let db := snd (add_recent_folder now folder_path (db_manager (controller sc))) in
    let scanned :=
      snd (scan_folder date now fs folder_path
             {| db_manager := db; logger := logger (controller sc) |}) in
    (true,
     {| controller := scanned;
        screen_logger :=
          screen_logger sc ++ [(INFO, "Successfully processed folder: " +:+ folder_path)];
        dialogs := dialogs sc |}).

End Main.

(** ** logger.py: the older DatabaseManager *)

(** logger.py keeps an earlier DatabaseManager over the same
    files_metadata table.  Its [add_file_metadata] and
    [update_file_metadata] read as those of db_manager.py; its
    [search_files] is the one below. *)
Module LoggerStore.
Import DatabaseManager.

(** The loop over [criteria.items()]: a truthy value gives the condition
    [key LIKE ?] with the value between two percent signs, whatever the
    key. *)
Definition pattern_of (criterion : Col.t * Py.value) : list (Col.t * string) :=
  let (k, value) := criterion in
  if Py.truthy value then [(k, "%" +:+ Py.str value +:+ "%")] else [].

(** Truth of [key LIKE ?] on a row: NULL is not true, an INTEGER cell is
    matched as its text. *)
Definition matches (r : file_row) (condition : Col.t * string) : bool :=
  match cell (fst condition) r with
  | Sqlite.Null => false
  | Sqlite.Integer z => Sqlite.like (snd condition) (Text.of_Z z)
  | Sqlite.Text_ s => Sqlite.like (snd condition) s
  end.

(** [SELECT * FROM files_metadata WHERE c1 AND c2 ...], or [WHERE 1]:
    there is no ORDER BY, and the rows come as the table scan gives them,
    by rowid. *)
Definition search_files (criteria : list (Col.t * Py.value)) (db : database)
  : list file_row :=
  List.filter (fun r => forallb (matches r) (flat_map pattern_of criteria))
    (files_metadata db).

End LoggerStore.

(** ** metadata_screen.py: MetadataScreen._update_selected *)

Module MetadataScreen.
Import DatabaseManager.

(** The keys of [metadata_widgets], in the order [_create_widgets] adds
    the fields. *)
Definition metadata_fields : list Col.text :=
  [ Col.department; Col.file_type; Col.revision; Col.drawing_type; Col.plant_area;
    Col.issue_status; Col.equipment_included; Col.notes; Col.todos ].

(** The loop that gathers the changes: the text of each widget, stripped,
    when it is not empty. *)
Definition updates_of (widgets : Col.text -> string) : metadata :=
  flat_map
    (fun field =>
       let value := PyStr.strip (widgets field) in
       if String.eqb value "" then [] else [TextField field (Some value)])
    metadata_fields.

(** How the handler ends: with one of the two early warnings, or with
    the two counters its closing message box shows. *)
Inductive report :=
| NoSelection
| NoChanges
| UpdateComplete (success_count error_count : nat).

(** The loop over the selection, from the counters it has reached. *)
Definition update_each (updates : metadata) (selection : list string)
    (start : database * nat * nat) : database * nat * nat :=
  fold_left
    (fun (state : database * nat * nat) file_path =>
       let '(db, success_count, error_count) := state in
       let (updated, db') := update_file_metadata_by_path file_path updates db in
       if updated then (db', S success_count, error_count)
       else (db', success_count, S error_count))
    selection start.

(** [_update_selected()]: [selection] holds the path each selected item
    of the file list carries as its tag, [widgets] the text of each
    metadata widget.  The store call raises nothing, so its [except] is
    not entered; the reload of the file list that follows the loop reads
    the store and is left out. *)
Definition _update_selected (selection : list string) (widgets : Col.text -> string)
    (db : database) : report * database :=
  match selection with
  | [] => (NoSelection, db)
  | _ :: _ =>
      match updates_of widgets with
      | [] => (NoChanges, db)
      | updates =>
          let '(db', success_count, error_count) :=
            update_each updates selection (db, 0, 0) in
          (UpdateComplete success_count error_count, db')
      end
  end.

End MetadataScreen.

(** ** The store's operations, read from their statements *)

Module StoreSpec.
Import DatabaseManager.

(** The cell an entry of a mapping stores. *)
Definition stored (f : field) : Sqlite.value :=
  match f with
  | TextField _ v => Sqlite.of_text v
  | TimeField _ v => Sqlite.of_text (stored_time v)
  end.

(** The entry does not put None into file_path or file_name. *)
Definition keeps_required (f : field) : bool :=
  match f with
  | TextField Col.file_path None => false
  | TextField Col.file_name None => false
  | _ => true
  end.

(** No entry of the mapping is keyed [c]. *)
Definition unnamed (m : metadata) (c : Col.t) : Prop :=
  forall f, In f m -> key f <> c.

(** The mapping names file_path and file_name, neither with None. *)
Definition names_required (m : metadata) : Prop :=
  exists p n,
    lookup_text m Col.file_path = Some (Some p)
    /\ lookup_text m Col.file_name = Some (Some n).

(** The primary keys of the two tables: no rowid occurs twice, and none
    is above its table's AUTOINCREMENT counter. *)
Definition keys_ok (db : database) : Prop :=
  List.NoDup (map file_id (files_metadata db))
  /\ (forall r, In r (files_metadata db) -> (file_id r <= files_metadata_seq db)%Z)
  /\ List.NoDup (map folder_id (recent_folders db))
  /\ (forall r, In r (recent_folders db) -> (folder_id r <= recent_folders_seq db)%Z).

End StoreSpec.

(** ** What a scan files, read from the walk *)

Module CatalogSpec.
Import DatabaseManager FileScanner ScanSpec.

(** The source of a path: its drive where the platform gives it one,
    'local' otherwise. *)
Definition source_of (fs : Os.filesystem) (path : string) : string :=
  if String.eqb (Os.drive fs path) "" then "local" else Os.drive fs path.

(** [os.stat] succeeds on the item, the catalog has no row with the
    item's path, and the path and its source are texts the store can
    take (they have a UTF-8 form). *)
Definition new_file (fs : Os.filesystem) (db : database)
    (item : string * (string * Py.result Os.stat_result)) : bool :=
  match snd (snd item) with
  | Py.Ok _ =>
      negb (existsb (has_path (item_path item)) (files_metadata db))
      && Sqlite.encodable (item_path item)
      && Sqlite.encodable (source_of fs (item_path item))
  | Py.Raise _ => false
  end.

(** The row of a file as the walk lists it: its path, the name it is
    listed under, its source, the type of the path's extension, the two
    times of [os.stat], and no tag. *)
Definition scanned_row (fs : Os.filesystem) (id : Z)
    (item : string * (string * Py.result Os.stat_result))
    (file_stat : Os.stat_result) : file_row :=
  {| file_id := id;
     file_path := item_path item;
     file_name := fst (snd item);
     source := Some (source_of fs (item_path item));
     file_type := Some (Utilities.get_file_type (item_path item));
     issue_status := None; revision := None; department := None;
     drawing_type := None; plant_area := None; equipment_included := None;
     notes := None; todos := None;
     last_modified := Some (Py.isoformat (Os.st_mtime file_stat));
     created_date := Some (Py.isoformat (Os.st_ctime file_stat)) |}.

Definition describes (fs : Os.filesystem)
    (item : string * (string * Py.result Os.stat_result)) (r : file_row) : Prop :=
  exists file_stat,
    snd (snd item) = Py.Ok file_stat /\ r = scanned_row fs (file_id r) item file_stat.

(** No two rows of the catalog have the same path. *)
Definition unique_files (db : database) : Prop :=
  List.NoDup (map file_path (files_metadata db)).

(** What [os.path.join] puts before a name it appends to [top]. *)
Definition dir_prefix (top : string) : string :=
  if String.eqb top "" || Text.ends_with_char "/" top then top else top +:+ "/".

(** No directory lists a name twice. *)
Fixpoint distinct_names (e : Os.entry) : Prop :=
  match e with
  | Os.File _ => True
  | Os.Directory children =>
      List.NoDup (map fst children)
      /\ (fix all (l : list (string * Os.entry)) : Prop :=
            match l with
            | [] => True
            | c :: l' => distinct_names (snd c) /\ all l'
            end) children
  end.

Definition distinctly_named (fs : Os.filesystem) (folder_path : string) : Prop :=
  forall e, Os.lookup fs folder_path = Some e -> distinct_names e.

(** The paths the walk of an entry comes upon, in order. *)
Definition walk_paths (top : string) (e : Os.entry) : list string :=
  map item_path
    (flat_map (fun triple => map (fun file => (fst (fst triple), file)) (snd triple))
       (Os.walk_entry top e)).

End CatalogSpec.

(** ** File names, read from what a sanitized name should be *)

Module NameSpec.

(** The character does not occur in the text. *)
Definition absent (c : ascii) (s : string) : Prop :=
  Text.all (fun x => negb (Ascii.eqb x c)) s = true.

(** The text neither begins nor ends with white space. *)
Definition trimmed (s : string) : Prop :=
  forall c, Text.is_space c = true ->
            Text.starts_with_char c s = false /\ Text.ends_with_char c s = false.

(** A name [sanitize_filename] has nothing to do on. *)
Definition clean (s : string) : Prop :=
  (forall c, In c Utilities.invalid_chars -> absent c s) /\ trimmed s.

End NameSpec.

(** ** The screens' handlers, read from what they leave behind *)

Module ScreenSpec.
Import DatabaseManager FileScanner.

(** The scanner over the same file table with another recent-folder
    table. *)
Definition on_recent (rows : list folder_row) (seq : Z) (s : scanner) : scanner :=
  {| db_manager := with_folders (db_manager s) rows seq; logger := logger s |}.

Definition on_recent_progress (rows : list folder_row) (seq : Z) (p : progress) : progress :=
  {| self := on_recent rows seq (self p); processed_files := processed_files p |}.

(** Some row of the catalog has the path. *)
Definition listed (db : database) (path : string) : bool :=
  existsb (has_path path) (files_metadata db).

(** The row's path is one of the selection. *)
Definition selected (selection : list string) (r : file_row) : bool :=
  mem (file_path r) selection.

(** What the update of a selection makes of a row. *)
Definition updated (updates : metadata) (selection : list string) (r r' : file_row) : Prop :=
  if selected selection r then assign_all updates r = Some r' else r' = r.

End ScreenSpec.

(* ===================================================================== *)
(** * Part II: properties *)
(* ===================================================================== *)

(** ** Text *)

Section TextFacts.

Lemma sapp_nil_l (s : string) : "" +:+ s = s.
Proof. reflexivity. Qed.

Lemma sapp_cons (a : ascii) (s t : string) : String a s +:+ t = String a (s +:+ t).
Proof. reflexivity. Qed.

Lemma sapp_nil_r (s : string) : s +:+ "" = s.
Proof. induction s as [|a s IH]; [reflexivity|]. now rewrite sapp_cons, IH. Qed.

Lemma sapp_assoc (s t u : string) : (s +:+ t) +:+ u = s +:+ (t +:+ u).
Proof. induction s as [|a s IH]; [reflexivity|]. now rewrite !sapp_cons, IH. Qed.

Lemma slength_app (s t : string) :
  String.length (s +:+ t) = String.length s + String.length t.
Proof. induction s as [|a s IH]; [reflexivity|]. rewrite sapp_cons. simpl. now rewrite IH. Qed.

Lemma stake_app (s t : string) : Text.take (String.length s) (s +:+ t) = s.
Proof. induction s as [|a s IH]; [now destruct t|]. rewrite sapp_cons. simpl. now rewrite IH. Qed.

Lemma sall_app (p : ascii -> bool) (s t : string) :
  Text.all p (s +:+ t) = Text.all p s && Text.all p t.
Proof.
  induction s as [|a s IH]; [reflexivity|].
  rewrite sapp_cons. simpl. rewrite IH. now rewrite andb_assoc.
Qed.

Lemma smap_app (f : ascii -> ascii) (s t : string) :
  Text.map f (s +:+ t) = Text.map f s +:+ Text.map f t.
Proof.
  induction s as [|a s IH]; [reflexivity|].
  rewrite !sapp_cons. simpl. now rewrite IH, sapp_cons.
Qed.

End TextFacts.


(** ** The matcher against the declarative reading of the patterns *)

Section MatcherFacts.
Import Re.

Lemma consumed_app (m rest : string) : consumed (m +:+ rest) rest = m.
Proof.
  unfold consumed. rewrite slength_app.
  replace (String.length m + String.length rest - String.length rest)
    with (String.length m) by lia.
  apply stake_app.
Qed.

Lemma greedy_sound p k t out :
  greedy p k t = Some out ->
  exists m rest, t = m +:+ rest /\ Text.all p m = true /\ k rest = Some out.
Proof.
  induction t as [|d t IH]; simpl; intros H.
  - exists "", "". auto.
  - destruct (p d) eqn:Hp.
    + destruct (greedy p k t) as [c|] eqn:Hg.
      * injection H as <-. destruct (IH eq_refl) as (m & rest & -> & Hall & Hk).
        exists (String d m), rest. rewrite sapp_cons. simpl. rewrite Hp. auto.
      * exists "", (String d t). auto.
    + exists "", (String d t). auto.
Qed.

Lemma greedy_complete p k t :
  greedy p k t = None ->
  forall m rest, t = m +:+ rest -> Text.all p m = true -> k rest = None.
Proof.
  induction t as [|d t IH]; simpl; intros H m rest Heq Hall.
  - destruct m; [|discriminate]. now rewrite sapp_nil_l in Heq; subst.
  - destruct m as [|a m].
    + rewrite sapp_nil_l in Heq. subst rest.
      destruct (p d); [destruct (greedy p k t)|]; congruence.
    + rewrite sapp_cons in Heq. injection Heq as <- ->.
      simpl in Hall. apply andb_true_iff in Hall as [Ha Hall].
      rewrite Ha in H. destruct (greedy p k (m +:+ rest)) eqn:Hg; [discriminate|].
      eapply IH; eauto.
Qed.

Lemma run_sound r : forall s caps k out,
  run r s caps k = Some out ->
  exists m rest caps', s = m +:+ rest /\ derives r m caps caps' /\ k rest caps' = Some out.
Proof.
  induction r as [|c|p|p|p|r IH|r1 IH1 r2 IH2|n r IH]; simpl; intros s caps k out H.
  - exists "", s, caps. split; [reflexivity|]. split; [constructor|assumption].
  - destruct s as [|d s]; [discriminate|].
    destruct (Ascii.eqb_spec c d) as [<-|]; [|discriminate].
    exists (String c ""), s, caps. split; [reflexivity|]. split; [constructor|assumption].
  - destruct s as [|d s]; [discriminate|].
    destruct (p d) eqn:Hp; [|discriminate].
    exists (String d ""), s, caps. split; [reflexivity|]. split; [now constructor|assumption].
  - apply greedy_sound in H as (m & rest & -> & Hall & Hk).
    exists m, rest, caps. split; [reflexivity|]. split; [now constructor|assumption].
  - destruct s as [|d s]; [discriminate|].
    destruct (p d) eqn:Hp; [|discriminate].
    apply greedy_sound in H as (m & rest & -> & Hall & Hk).
    exists (String d m), rest, caps. split; [reflexivity|]. split; [|assumption].
    constructor; [discriminate|]. simpl. now rewrite Hp.
  - destruct (run r s caps k) as [c|] eqn:Hr.
    + injection H as <-. destruct (IH _ _ _ _ Hr) as (m & rest & caps' & -> & Hd & Hk).
      exists m, rest, caps'. split; [reflexivity|]. split; [now constructor|assumption].
    + exists "", s, caps. split; [reflexivity|]. split; [constructor|assumption].
  - destruct (IH1 _ _ _ _ H) as (m1 & rest1 & c1 & -> & Hd1 & Hk1).
    destruct (IH2 _ _ _ _ Hk1) as (m2 & rest & c2 & -> & Hd2 & Hk2).
    exists (m1 +:+ m2), rest, c2. split; [now rewrite sapp_assoc|].
    split; [econstructor; eassumption|assumption].
  - destruct (IH _ _ _ _ H) as (m & rest & caps' & -> & Hd & Hk).
    rewrite consumed_app in Hk.
    exists m, rest, ((n, m) :: caps'). split; [reflexivity|].
    split; [now constructor|assumption].
Qed.

Lemma run_complete r : forall s caps k,
  run r s caps k = None ->
  forall m rest caps', s = m +:+ rest -> derives r m caps caps' -> k rest caps' = None.
Proof.
  induction r as [|c|p|p|p|r IH|r1 IH1 r2 IH2|n r IH]; simpl;
    intros s caps k H m rest caps' Heq Hd; inversion Hd; subst; clear Hd.
  - assumption.
  - rewrite sapp_cons, sapp_nil_l in H. now rewrite Ascii.eqb_refl in H.
  - rewrite sapp_cons, sapp_nil_l in H.
    match goal with Hp : p _ = true |- _ => now rewrite Hp in H end.
  - eapply (greedy_complete p (fun t => k t caps')); eauto.
  - destruct m as [|a m]; [congruence|]. rewrite sapp_cons in H.
    match goal with Ha : Text.all p _ = true |- _ =>
      simpl in Ha; apply andb_true_iff in Ha as [Ha1 Ha2] end.
    rewrite Ha1 in H. eapply (greedy_complete p (fun t => k t caps')); eauto.
  - rewrite sapp_nil_l in H. destruct (run r rest caps' k); congruence.
  - destruct (run r (m +:+ rest) caps k) eqn:Hr; [discriminate|].
    eapply IH; eauto.
  - rewrite sapp_assoc in H.
    eapply IH2; [|reflexivity|eassumption].
    eapply (IH1 _ _ _ H); [reflexivity|eassumption].
  - match goal with Hd : derives r m caps _ |- _ =>
      pose proof (IH _ _ _ H _ _ _ eq_refl Hd) as Hk end.
    simpl in Hk. now rewrite consumed_app in Hk.
Qed.

Lemma search_sound r s caps : search r s = Some caps -> occurs r s caps.
Proof.
  induction s as [|a s IH]; simpl.
  - destruct (run r "" [] _) eqn:Hr; [|discriminate]. intros [= <-].
    apply run_sound in Hr as (m & rest & caps' & Heq & Hd & [= <-]).
    exists "", m, rest. auto.
  - destruct (run r (String a s) [] _) eqn:Hr.
    + intros [= <-].
      apply run_sound in Hr as (m & rest & caps' & Heq & Hd & [= <-]).
      exists "", m, rest. auto.
    + intros H. destruct (IH H) as (before & m & after & -> & Hd).
      exists (String a before), m, after. auto.
Qed.

Lemma search_complete r s : search r s = None -> forall caps, ~ occurs r s caps.
Proof.
  induction s as [|a s IH]; simpl.
  - destruct (run r "" [] _) eqn:Hr; [discriminate|]. intros _ caps (before & m & after & Heq & Hd).
    destruct before; [|discriminate]. rewrite sapp_nil_l in Heq.
    pose proof (run_complete _ _ _ _ Hr _ _ _ Heq Hd). discriminate.
  - destruct (run r (String a s) [] _) eqn:Hr; [discriminate|].
    intros H caps (before & m & after & Heq & Hd).
    destruct before as [|b before].
    + rewrite sapp_nil_l in Heq.
      pose proof (run_complete _ _ _ _ Hr _ _ _ Heq Hd). discriminate.
    + rewrite sapp_cons in Heq. injection Heq as <- ->.
      apply (IH H caps). exists before, m, after. auto.
Qed.

End MatcherFacts.

(** ** parse_revision *)

Section RevisionFacts.
Import Re Utils RevisionSpec.

Lemma derives_rev m caps :
  derives pattern_rev m [] caps <->
  exists spaces g, m = "REV" +:+ spaces +:+ g /\ Text.all Text.is_space spaces = true
                   /\ g <> "" /\ Text.all alnum_upper g = true /\ caps = [(1, g)].
Proof.
  unfold pattern_rev. split.
  - intros H. invert_derives. eexists _, _. repeat split; eauto.
  - intros (spaces & g & -> & Hs & Hg & Ha & ->).
    change ("REV" +:+ spaces +:+ g)
      with ((String "R" "" +:+ String "E" "" +:+ String "V" "" +:+ "") +:+ spaces +:+ g).
    repeat econstructor; eauto.
Qed.

Lemma derives_r m caps :
  derives pattern_r m [] caps <->
  exists g, m = "R" +:+ g /\ digits g /\ caps = [(1, g)].
Proof.
  unfold pattern_r, digits. split.
  - intros H. invert_derives. eexists. repeat split; eauto.
  - intros (g & -> & [Hg Ha] & ->). repeat econstructor; eauto.
Qed.

Lemma derives_v m caps :
  derives pattern_v m [] caps <->
  exists g, m = "V" +:+ g
            /\ ((digits g /\ caps = [(1, g)])
                \/ exists a b, g = a +:+ "." +:+ b /\ digits a /\ digits b
                               /\ caps = [(1, g); (2, "." +:+ b)]).
Proof.
  unfold pattern_v, digits. split.
  - intros H. invert_derives.
    match goal with H : derives (Opt _) _ _ _ |- _ => inversion H; subst; clear H end.
    + eexists. split; [reflexivity|]. left. rewrite sapp_nil_r. auto.
    + invert_derives. eexists. split; [reflexivity|]. right.
      eexists _, _. repeat split; eauto.
  - intros (g & -> & [[[Hg Ha] ->] | (a & b & -> & [Ha1 Ha2] & [Hb1 Hb2] & ->)]).
    + econstructor; [constructor|]. constructor.
      rewrite <- (sapp_nil_r g). econstructor; [now constructor|constructor].
    + econstructor; [constructor|]. constructor.
      econstructor; [now constructor|].
      apply derives_opt_take. constructor.
      change ("." +:+ b) with (String "." "" +:+ b).
      econstructor; [constructor|now constructor].
Qed.

Lemma found_rev text g :
  rev_in text g <-> exists caps, occurs pattern_rev text caps /\ group 1 caps = Some g.
Proof.
  unfold rev_in, occurs. split.
  - intros (before & spaces & after & -> & Hs & Hg & Ha).
    exists [(1, g)]. split; [|reflexivity].
    exists before, ("REV" +:+ spaces +:+ g), after. split.
    + now rewrite !sapp_assoc.
    + apply derives_rev. eauto 10.
  - intros (caps & (before & m & after & -> & Hd) & Hgrp).
    apply derives_rev in Hd as (spaces & g' & -> & Hs & Hg & Ha & ->).
    injection Hgrp as ->. exists before, spaces, after.
    split; [now rewrite !sapp_assoc|auto].
Qed.

Lemma found_r text g :
  r_in text g <-> exists caps, occurs pattern_r text caps /\ group 1 caps = Some g.
Proof.
  unfold r_in, occurs. split.
  - intros (before & after & -> & Hd).
    exists [(1, g)]. split; [|reflexivity].
    exists before, ("R" +:+ g), after. split; [now rewrite !sapp_assoc|].
    apply derives_r. eauto.
  - intros (caps & (before & m & after & -> & Hd) & Hgrp).
    apply derives_r in Hd as (g' & -> & Hg & ->).
    injection Hgrp as ->. exists before, after. split; [now rewrite !sapp_assoc|auto].
Qed.

Lemma found_v text g :
  v_in text g <-> exists caps, occurs pattern_v text caps /\ group 1 caps = Some g.
Proof.
  unfold v_in, occurs. split.
  - intros (before & after & -> & Hd).
    destruct Hd as [Hd | (a & b & -> & Ha & Hb)].
    + exists [(1, g)]. split; [|reflexivity].
      exists before, ("V" +:+ g), after. split; [now rewrite !sapp_assoc|].
      apply derives_v. eauto.
    + exists [(1, a +:+ "." +:+ b); (2, "." +:+ b)]. split; [|reflexivity].
      exists before, ("V" +:+ a +:+ "." +:+ b), after. split; [now rewrite !sapp_assoc|].
      apply derives_v. eexists. split; [reflexivity|]. right. eauto 10.
  - intros (caps & (before & m & after & -> & Hd) & Hgrp).
    apply derives_v in Hd as (g' & -> & [[Hg ->] | (a & b & -> & Ha & Hb & ->)]);
      injection Hgrp as <-; exists before, after; (split; [now rewrite !sapp_assoc|]); eauto 10.
Qed.

(** Each pattern's match has a first group. *)
Lemma occurs_group r text caps :
  In r patterns -> occurs r text caps -> exists g, group 1 caps = Some g.
Proof.
  intros Hin (before & m & after & _ & Hd).
  simpl in Hin. destruct Hin as [<- | [<- | [<- | []]]].
  - apply derives_rev in Hd as (? & g & _ & _ & _ & _ & ->). now exists g.
  - apply derives_r in Hd as (g & _ & _ & ->). now exists g.
  - apply derives_v in Hd as (g & _ & [[_ ->] | (? & ? & _ & _ & _ & ->)]); now exists g.
Qed.

Lemma search_none r text : search r text = None <-> forall caps, ~ occurs r text caps.
Proof.
  split; [apply search_complete|].
  intros H. destruct (search r text) as [caps|] eqn:Hs; [|reflexivity].
  exfalso. exact (H caps (search_sound _ _ _ Hs)).
Qed.

(** C9.  On every file name [parse_revision] looks, in the uppercased
    name, for REV followed by a run of capitals and digits, then for R
    followed by digits, then for V followed by digits with an optional
    dotted part, and returns the run of the first of the three that is
    found; it returns nothing exactly when none of the three is found.
    The four names of the specification give B, 3, 2.1 and nothing. *)
Theorem C9_parse_revision :
  (forall filename g,
      parse_revision filename = Some g ->
      rev_in (Text.upper filename) g
      \/ ((forall g', ~ rev_in (Text.upper filename) g') /\ r_in (Text.upper filename) g)
      \/ ((forall g', ~ rev_in (Text.upper filename) g')
          /\ (forall g', ~ r_in (Text.upper filename) g')
          /\ v_in (Text.upper filename) g))
  /\ (forall filename,
      parse_revision filename = None <->
      forall g, ~ rev_in (Text.upper filename) g
                /\ ~ r_in (Text.upper filename) g
                /\ ~ v_in (Text.upper filename) g)
  /\ parse_revision "Drawing REV B.pdf" = Some "B"
  /\ parse_revision "Drawing R3.pdf" = Some "3"
  /\ parse_revision "Drawing V2.1.pdf" = Some "2.1"
  /\ parse_revision "Drawing.pdf" = None.
Proof.
  assert (Hnone : forall r text, search r text = None ->
            forall spec : string -> string -> Prop,
              (forall g, spec text g
                         <-> exists caps, occurs r text caps /\ group 1 caps = Some g) ->
              forall g, ~ spec text g).
  { intros r text Hs spec Hspec g Hg. apply Hspec in Hg as (caps & Ho & _).
    exact (search_complete _ _ Hs caps Ho). }
  split; [|split; [|repeat split; vm_compute; reflexivity]].
  - intros filename g. unfold parse_revision, patterns. simpl.
    set (text := Text.upper filename). intros H.
    destruct (search pattern_rev text) as [c1|] eqn:H1.
    { left. apply found_rev. exists c1. split; [now apply search_sound|assumption]. }
    right.
    pose proof (Hnone _ _ H1 rev_in (found_rev text)) as N1.
    destruct (search pattern_r text) as [c2|] eqn:H2.
    { left. split; [assumption|]. apply found_r. exists c2.
      split; [now apply search_sound|assumption]. }
    right.
    pose proof (Hnone _ _ H2 r_in (found_r text)) as N2.
    destruct (search pattern_v text) as [c3|] eqn:H3; [|discriminate].
    repeat split; try assumption. apply found_v. exists c3.
    split; [now apply search_sound|assumption].
  - intros filename. unfold parse_revision, patterns. simpl.
    set (text := Text.upper filename). split.
    + intros H g.
      destruct (search pattern_rev text) as [c1|] eqn:H1.
      { destruct (occurs_group pattern_rev text c1) as [g1 Hg1];
          [simpl; auto|now apply search_sound|congruence]. }
      destruct (search pattern_r text) as [c2|] eqn:H2.
      { destruct (occurs_group pattern_r text c2) as [g2 Hg2];
          [simpl; auto|now apply search_sound|congruence]. }
      destruct (search pattern_v text) as [c3|] eqn:H3.
      { destruct (occurs_group pattern_v text c3) as [g3 Hg3];
          [simpl; auto|now apply search_sound|congruence]. }
      repeat split.
      * exact (Hnone _ _ H1 rev_in (found_rev text) g).
      * exact (Hnone _ _ H2 r_in (found_r text) g).
      * exact (Hnone _ _ H3 v_in (found_v text) g).
    + intros H.
      assert (Habs : forall r (spec : string -> string -> Prop),
                In r patterns ->
                (forall g, spec text g
                         <-> exists caps, occurs r text caps /\ group 1 caps = Some g) ->
                (forall g, ~ spec text g) -> search r text = None).
      { intros r spec Hin Hspec Hno. apply search_none. intros caps Ho.
        destruct (occurs_group r text caps Hin Ho) as [g Hg].
        apply (Hno g). apply Hspec. eauto. }
      rewrite (Habs pattern_rev rev_in), (Habs pattern_r r_in), (Habs pattern_v v_in);
        try reflexivity; simpl; auto using found_rev, found_r, found_v;
        intros g; apply H.
Qed.

End RevisionFacts.

(** ** The update operations *)

Section UpdateFacts.
Import DatabaseManager.

(** C10.  With an empty mapping both update operations return False and
    leave the database as it was, whatever the identity: the statement
    they build has an empty SET clause, and the error is caught in the
    store. *)
Theorem C10_empty_update_fails (id : Py.value) (path : string) (db : database) :
  update_file_metadata id [] db = (false, db)
  /\ update_file_metadata_by_path path [] db = (false, db).
Proof. split; reflexivity. Qed.

(** C7, as the code has it.  [update_file_metadata] answers True for an
    identity no row has: on the empty catalog for every identity and
    every mapping that is not empty, and on the example catalog for the
    file_id 999; [update_file_metadata_by_path] answers False when no
    row has the path. *)
Theorem C7_update_by_id_true_without_match :
  (forall id f m,
      update_file_metadata id (f :: m) DatabaseManager.empty = (true, DatabaseManager.empty))
  /\ existsb (has_id (Py.Int 999)) (files_metadata Examples.catalog) = false
  /\ update_file_metadata (Py.Int 999) [TextField Col.notes (Some "checked")] Examples.catalog
     = (true, Examples.catalog)
  /\ update_file_metadata_by_path "/docs/zzz.pdf" [TextField Col.notes (Some "checked")]
       Examples.catalog
     = (false, Examples.catalog).
Proof. repeat split; reflexivity. Qed.

End UpdateFacts.

(** ** ORDER BY *)

Section OrderByFacts.
Import DatabaseManager.
Context {A K : Type} (leb : K -> K -> bool) (key : A -> K).
Hypothesis leb_total : forall a b, leb a b = true \/ leb b a = true.

Lemma insert_desc_perm x l : Permutation (insert_desc leb key x l) (x :: l).
Proof.
  induction l as [|y l IH]; simpl; [reflexivity|].
  destruct (leb (key y) (key x)); [reflexivity|].
  rewrite IH. apply perm_swap.
Qed.

Lemma order_by_desc_perm l : Permutation (order_by_desc leb key l) l.
Proof.
  induction l as [|x l IH]; simpl; [reflexivity|].
  rewrite insert_desc_perm. now constructor.
Qed.

Lemma insert_desc_hd x y l :
  descending leb key y x -> HdRel (descending leb key) y l ->
  HdRel (descending leb key) y (insert_desc leb key x l).
Proof.
  intros Hyx Hl. destruct l as [|z l]; simpl; [now constructor|].
  destruct (leb (key z) (key x)); constructor; [assumption|].
  now inversion Hl.
Qed.

Lemma insert_desc_sorted x l :
  Sorted (descending leb key) l -> Sorted (descending leb key) (insert_desc leb key x l).
Proof.
  induction 1 as [|y l Hs IH Hhd]; simpl; [repeat constructor|].
  destruct (leb (key y) (key x)) eqn:Hyx.
  - constructor; [now constructor|]. now constructor.
  - constructor; [assumption|]. apply insert_desc_hd; [|assumption].
    unfold descending. destruct (leb_total (key x) (key y)); congruence.
Qed.

Lemma order_by_desc_sorted l : Sorted (descending leb key) (order_by_desc leb key l).
Proof.
  induction l as [|x l IH]; simpl; [constructor|]. now apply insert_desc_sorted.
Qed.

End OrderByFacts.

Section SqliteOrder.

Lemma string_leb_total (a b : string) : String.leb a b = true \/ String.leb b a = true.
Proof. apply String.leb_total. Qed.

Lemma string_leb_trans (a b c : string) :
  String.leb a b = true -> String.leb b c = true -> String.leb a c = true.
Proof.
  intros H1 H2. apply Is_true_true.
  apply (@transitivity _ String.le _ a b c); now apply Is_true_true.
Qed.

Lemma sqlite_leb_total (a b : option string) : Sqlite.leb a b = true \/ Sqlite.leb b a = true.
Proof. destruct a, b; simpl; auto using String.leb_total. Qed.

End SqliteOrder.

(** ** LIKE *)

Section LikeFacts.
Import SearchSpec.

Lemma like_percent_nil q : Sqlite.like (String "%" q) "" = Sqlite.like q "" || false.
Proof. reflexivity. Qed.

Lemma like_percent_cons q d t :
  Sqlite.like (String "%" q) (String d t)
  = Sqlite.like q (String d t) || Sqlite.like (String "%" q) t.
Proof. reflexivity. Qed.

Lemma like_cons c q t :
  Ascii.eqb c "%" = false ->
  Sqlite.like (String c q) t
  = match t with
    | EmptyString => false
    | String d t' =>
        (Ascii.eqb c "_" || Ascii.eqb (Text.to_lower c) (Text.to_lower d))
        && Sqlite.like q t'
    end.
Proof. intros H. simpl. now rewrite H. Qed.

Lemma like_percent_all t : Sqlite.like "%" t = true.
Proof.
  induction t as [|d t IH]; [reflexivity|].
  rewrite like_percent_cons, IH. apply orb_true_r.
Qed.

(** A percent sign in front lets the rest of the pattern start
    anywhere. *)
Lemma like_percent_skip q before t :
  Sqlite.like q t = true -> Sqlite.like (String "%" q) (before +:+ t) = true.
Proof.
  intros H. induction before as [|d before IH].
  - rewrite sapp_nil_l. destruct t; [rewrite like_percent_nil|rewrite like_percent_cons];
      now rewrite H.
  - rewrite sapp_cons, like_percent_cons, IH. apply orb_true_r.
Qed.

Lemma to_lower_idem c : Text.to_lower (Text.to_lower c) = Text.to_lower c.
Proof. each_ascii c. Qed.

Lemma to_lower_percent c : Ascii.eqb (Text.to_lower c) "%" = Ascii.eqb c "%".
Proof. each_ascii c. Qed.

Lemma to_lower_underscore c : Ascii.eqb (Text.to_lower c) "_" = Ascii.eqb c "_".
Proof. each_ascii c. Qed.

(** Every text matches itself read as a pattern, followed by whatever
    the rest of the pattern matches: a wildcard matches the wildcard
    character too. *)
Lemma like_self p q t :
  Sqlite.like q t = true -> Sqlite.like (p +:+ q) (p +:+ t) = true.
Proof.
  intros H. induction p as [|c p IH]; [assumption|].
  rewrite !sapp_cons. destruct (Ascii.eqb c "%") eqn:Hc.
  - apply Ascii.eqb_eq in Hc as ->. rewrite like_percent_cons.
    pose proof (like_percent_skip (p +:+ q) "" (p +:+ t) IH) as Hs.
    rewrite sapp_nil_l in Hs. rewrite Hs. apply orb_true_r.
  - rewrite like_cons by assumption. rewrite Ascii.eqb_refl, orb_true_r. exact IH.
Qed.

(** The scanner's query finds every path that contains the folder path
    as it is written. *)
Lemma like_contains folder before after :
  Sqlite.like (Text.lower ("%" +:+ folder +:+ "%"))
    (Text.lower (before +:+ folder +:+ after)) = true.
Proof.
  unfold Text.lower. rewrite !smap_app.
  change (Text.map Text.to_lower "%") with "%".
  change ("%" +:+ Text.map Text.to_lower folder +:+ "%")
    with (String "%" (Text.map Text.to_lower folder +:+ "%")).
  apply like_percent_skip. apply like_self. apply like_percent_all.
Qed.

Lemma like_plain_prefix p t :
  plain p = true -> Sqlite.like (p +:+ "%") t = prefix_ci p t.
Proof.
  revert t. induction p as [|c p IH]; intros t Hp.
  - rewrite sapp_nil_l. apply like_percent_all.
  - simpl in Hp. apply andb_true_iff in Hp as [Hc Hp].
    unfold wildcard in Hc. apply negb_true_iff, orb_false_iff in Hc as [Hc1 Hc2].
    rewrite sapp_cons, like_cons by assumption. rewrite Hc2. simpl.
    destruct t as [|d t]; [reflexivity|]. now rewrite IH.
Qed.

Lemma like_plain_contains p t :
  plain p = true -> Sqlite.like (String "%" (p +:+ "%")) t = contains_ci p t.
Proof.
  intros Hp. induction t as [|d t IH].
  - rewrite like_percent_nil, like_plain_prefix by assumption. reflexivity.
  - rewrite like_percent_cons, like_plain_prefix, IH by assumption. reflexivity.
Qed.

Lemma plain_lower p : plain (Text.lower p) = plain p.
Proof.
  unfold plain, Text.lower. induction p as [|c p IH]; [reflexivity|]. simpl. rewrite IH.
  f_equal. unfold wildcard. now rewrite to_lower_percent, to_lower_underscore.
Qed.

Lemma prefix_ci_lower p t : prefix_ci (Text.lower p) t = prefix_ci p t.
Proof.
  unfold Text.lower. revert t. induction p as [|c p IH]; intros t; [reflexivity|]. simpl.
  destruct t as [|d t]; [reflexivity|]. now rewrite to_lower_idem, IH.
Qed.

Lemma contains_ci_lower p t : contains_ci (Text.lower p) t = contains_ci p t.
Proof.
  induction t as [|d t IH]; simpl; rewrite prefix_ci_lower; [reflexivity|]. now rewrite IH.
Qed.

(** Without wildcards in the value, LIKE between percent signs is the
    case-insensitive substring test. *)
Lemma like_is_substring v t :
  plain v = true ->
  Sqlite.like (Text.lower ("%" +:+ v +:+ "%")) t = contains_ci v t.
Proof.
  intros Hp. unfold Text.lower. rewrite !smap_app.
  change (Text.map Text.to_lower "%") with "%".
  change ("%" +:+ Text.map Text.to_lower v +:+ "%")
    with (String "%" (Text.lower v +:+ "%")).
  rewrite like_plain_contains by now rewrite plain_lower.
  apply contains_ci_lower.
Qed.

End LikeFacts.

(** ** search_files *)

Section SearchFacts.
Import DatabaseManager SearchSpec.

Lemma holds_clause_of date r criterion :
  forallb (holds date r) (clause_of criterion) = satisfies_like date r criterion.
Proof.
  destruct criterion as [k value]. unfold clause_of, satisfies_like.
  destruct (Py.truthy value); [|reflexivity]. simpl.
  destruct k as [|c|c]; simpl.
  - now rewrite andb_true_r.
  - now rewrite andb_true_r.
  - destruct (Py.eq_str value "YYYY-MM-DD"); [reflexivity|]. simpl.
    unfold same_date. now rewrite andb_true_r.
Qed.

Lemma holds_where_clauses date r criteria :
  forallb (holds date r) (where_clauses criteria)
  = forallb (satisfies_like date r) criteria.
Proof.
  unfold where_clauses. induction criteria as [|c cs IH]; [reflexivity|].
  simpl. now rewrite forallb_app, holds_clause_of, IH.
Qed.

Lemma satisfies_plain date r k value :
  plain (Py.str value) = true ->
  satisfies_like date r (k, value) = satisfies_substring date r (k, value).
Proof.
  intros Hp. unfold satisfies_like, satisfies_substring.
  destruct (Py.truthy value); [|reflexivity].
  destruct k as [|c|c]; try reflexivity;
    destruct (sql_lower _); try reflexivity; now apply like_is_substring.
Qed.

(** C5, as the code has it.  [search_files] returns exactly the records
    that satisfy every criterion, a criterion with an empty value
    counting as satisfied, and one on last_modified or created_date with
    the value "YYYY-MM-DD" as well; the two temporal fields are compared
    through [date()], every other field with LIKE between percent signs,
    which is the case-insensitive substring test when the value has no
    percent sign and no underscore; the records come newest
    last_modified first. *)
Theorem C5_search_by_like (date : Sqlite.value -> option string)
    (criteria : list (Col.t * Py.value)) (db : database) :
  Permutation (search_files date criteria db)
    (List.filter (fun r => forallb (satisfies_like date r) criteria) (files_metadata db))
  /\ Sorted newer_first (search_files date criteria db)
  /\ (forall r k value,
         plain (Py.str value) = true ->
         satisfies_like date r (k, value) = satisfies_substring date r (k, value))
  /\ (forall r k, satisfies_like date r (k, Py.Str "") = true)
  /\ (forall r c, satisfies_like date r (Col.time_ c, Py.Str "YYYY-MM-DD") = true).
Proof.
  split; [|split; [|split; [|split]]].
  - unfold search_files. rewrite order_by_desc_perm.
    erewrite filter_ext; [reflexivity|]. intros r. apply holds_where_clauses.
  - apply order_by_desc_sorted. apply sqlite_leb_total.
  - intros r k value. apply satisfies_plain.
  - reflexivity.
  - reflexivity.
Qed.

(** C5 as stated fails: the criterion department = "E_e" returns the
    record whose department is Electrical, which does not contain
    "E_e". *)
Lemma C5_substring_counterexample :
  ~ (forall r,
        In r (search_files Examples.date [(Col.text_ Col.department, Py.Str "E_e")]
                Examples.catalog) ->
        forallb (satisfies_substring Examples.date r)
          [(Col.text_ Col.department, Py.Str "E_e")] = true).
Proof.
  intros H. specialize (H Examples.tracked_row). vm_compute in H.
  assert (Hf : false = true) by (apply H; left; reflexivity). discriminate.
Qed.

End SearchFacts.

(** ** The recent-folder list *)

Section RecentFacts.
Import DatabaseManager RecentSpec.

Lemma mem_In x l : mem x l = true <-> In x l.
Proof.
  unfold mem. rewrite existsb_exists. split.
  - intros (y & Hy & Heq). apply String.eqb_eq in Heq. now subst.
  - intros H. exists x. split; [assumption|apply String.eqb_refl].
Qed.






Lemma In_firstn {A} n (l : list A) x : In x (firstn n l) -> In x l.
Proof. revert l. induction n; intros [|y l]; simpl; intuition. Qed.


Lemma limit_In {A} n (l : list A) x : In x (limit n l) -> In x l.
Proof. unfold limit. destruct (n <? 0)%Z; [tauto|apply In_firstn]. Qed.












End RecentFacts.

(** ** The scan *)

Section SnapshotFacts.
Import DatabaseManager FileScanner ScanSpec.

(** The dict comprehension over a list of rows. *)
Lemma snapshot_fold_lookup (rows : list file_row) (d : gmap string Py.value) p v :
  fold_left (fun (d : gmap string Py.value) r =>
               <[file_path r := Sqlite.fetch (cell (Col.time_ Col.last_modified) r)]> d)
    rows d !! p = Some v ->
  d !! p = Some v
  \/ exists r, In r rows /\ file_path r = p
               /\ v = Sqlite.fetch (cell (Col.time_ Col.last_modified) r).
Proof.
  revert d. induction rows as [|r rows IH]; simpl; intros d H; [now left|].
  apply IH in H as [H|(r' & Hr' & Hp & Hv)].
  - destruct (decide (file_path r = p)) as [E|E].
    + subst p. rewrite lookup_insert_eq in H. injection H as <-. right. exists r. auto.
    + rewrite lookup_insert_ne in H by assumption. now left.
  - right. exists r'. auto.
Qed.

Lemma snapshot_fold_dom (rows : list file_row) (d : gmap string Py.value) p :
  p ∈ dom (fold_left (fun (d : gmap string Py.value) r =>
               <[file_path r := Sqlite.fetch (cell (Col.time_ Col.last_modified) r)]> d)
             rows d)
  <-> p ∈ dom d \/ exists r, In r rows /\ file_path r = p.
Proof.
  revert d. induction rows as [|r rows IH]; simpl; intros d.
  - split; [now left|]. intros [H|(r & [] & _)]. exact H.
  - rewrite IH, dom_insert, elem_of_union, elem_of_singleton. split.
    + intros [[->|H]|(r' & Hr' & Hp)]; eauto.
    + intros [H|(r' & [->|Hr'] & Hp)]; eauto.
Qed.

(** What the snapshot holds was fetched from a cell: None or a str,
    never a datetime. *)
Lemma snapshot_value date folder_path db p v :
  _get_existing_files date folder_path db !! p = Some v ->
  v = Py.None_ \/ exists s, v = Py.Str s.
Proof.
  unfold _get_existing_files. intros H.
  apply snapshot_fold_lookup in H as [H|(r & _ & _ & ->)].
  - rewrite lookup_empty in H. discriminate.
  - simpl. destruct (last_modified r); simpl; eauto.
Qed.

Lemma search_files_In date criteria db r :
  In r (search_files date criteria db)
  <-> In r (files_metadata db)
      /\ forallb (holds date r) (where_clauses criteria) = true.
Proof.
  unfold search_files.
  rewrite (Permutation_in' (eq_refl r)
             (order_by_desc_perm Sqlite.leb last_modified _)).
  apply filter_In.
Qed.

Lemma snapshot_dom date folder_path db p :
  p ∈ dom (_get_existing_files date folder_path db)
  <-> exists r, In r (files_metadata db) /\ file_path r = p
                /\ forallb (holds date r)
                     (where_clauses [(Col.text_ Col.file_path, Py.Str folder_path)]) = true.
Proof.
  unfold _get_existing_files. rewrite snapshot_fold_dom, dom_empty, elem_of_empty.
  split.
  - intros [[]|(r & Hr & Hp)]. apply search_files_In in Hr as [Hr Hc]. eauto.
  - intros (r & Hr & Hp & Hc). right. exists r. split; [|assumption].
    apply search_files_In. auto.
Qed.

(** A tracked path under the folder is in the snapshot. *)
Lemma snapshot_covers date folder_path db p :
  tracked db p -> under folder_path p ->
  p ∈ dom (_get_existing_files date folder_path db).
Proof.
  intros (r & Hr & Hp) (rest & Hu). apply snapshot_dom. exists r.
  split; [assumption|]. split; [assumption|].
  unfold where_clauses. simpl. unfold clause_of. simpl.
  destruct (String.eqb folder_path "") eqn:E; simpl; [reflexivity|].
  rewrite Hp, Hu, andb_true_r.
  pose proof (like_contains folder_path "" rest) as H. now rewrite sapp_nil_l in H.
Qed.

Lemma snapshot_tracked date folder_path db p :
  p ∈ dom (_get_existing_files date folder_path db) -> tracked db p.
Proof. intros H. apply snapshot_dom in H as (r & Hr & Hp & _). now exists r. Qed.

End SnapshotFacts.

Section BranchFacts.
Import DatabaseManager FileScanner ScanSpec.

Lemma extract_ok drive file_path file_stat :
  exists metadata,
    _extract_metadata drive file_path (Py.Ok file_stat) = Py.Ok metadata
    /\ getitem metadata (Col.time_ Col.last_modified)
       = Py.Ok (Py.Datetime (Os.st_mtime file_stat))
    /\ lookup_text metadata Col.file_path = Some (Some file_path)
    /\ exists n, lookup_text metadata Col.file_name = Some (Some n).
Proof. eexists. split; [reflexivity|]. repeat split. eexists. reflexivity. Qed.

Lemma gt_datetime_raises d v :
  v = Py.None_ \/ (exists s, v = Py.Str s) -> exists e, Py.gt (Py.Datetime d) v = Py.Raise e.
Proof. intros [->|[s ->]]; simpl; eauto. Qed.

(** A file found in a snapshot of the store leaves the [try] block
    through an exception: when [os.stat] does not raise, the comparison
    of the datetime with the fetched value does. *)
Lemma branch_in_snapshot drive date folder_path db p st :
  p ∈ dom (_get_existing_files date folder_path db) ->
  raised (branch drive (_get_existing_files date folder_path db) p st).
Proof.
  intros Hdom. apply elem_of_dom in Hdom as [v Hv].
  unfold branch, raised. destruct st as [file_stat|e]; [|cbn; eauto].
  destruct (extract_ok drive p file_stat) as (metadata & -> & -> & _).
  rewrite Hv.
  destruct (gt_datetime_raises (Os.st_mtime file_stat) v
              (snapshot_value _ _ _ _ _ Hv)) as [e ->].
  eauto.
Qed.

(** With a snapshot of the store the scanner never reaches the update
    and never passes it without a write: a file leaves through an
    exception or through the insert, with a mapping the store can
    bind. *)
Lemma branch_of_snapshot drive date folder_path db p st :
  raised (branch drive (_get_existing_files date folder_path db) p st)
  \/ (exists file_stat metadata,
         st = Py.Ok file_stat
         /\ _extract_metadata drive p st = Py.Ok metadata
         /\ _get_existing_files date folder_path db !! p = None
         /\ bind_error metadata = None
         /\ branch drive (_get_existing_files date folder_path db) p st = Insert metadata).
Proof.
  destruct (_get_existing_files date folder_path db !! p) as [v|] eqn:Hv.
  - left. apply branch_in_snapshot. apply elem_of_dom. eauto.
  - destruct st as [file_stat|e].
    + unfold branch.
      destruct (extract_ok drive p file_stat) as (metadata & Hm & _).
      rewrite Hm, Hv. destruct (bind_error metadata) as [e|] eqn:Hb.
      * left. unfold raised. eauto.
      * right. eauto 10.
    + left. unfold branch, raised. cbn. eauto.
Qed.

End BranchFacts.

Section WalkFacts.
Import ScanSpec.

Lemma under_refl a : under a a.
Proof. exists "". now rewrite sapp_nil_r. Qed.

Lemma under_trans a b c : under a b -> under b c -> under a c.
Proof. intros [x ->] [y ->]. exists (x +:+ y). now rewrite sapp_assoc. Qed.

Lemma join_under a n : Os.valid_name n = true -> under a (PosixPath.join a n).
Proof.
  unfold Os.valid_name, PosixPath.join. intros H. apply andb_true_iff in H as [Hne Hall].
  destruct n as [|c n]; [discriminate|].
  change (negb (Ascii.eqb c "/") && Text.all (fun c => negb (Ascii.eqb c "/")) n = true)
    in Hall.
  apply andb_true_iff in Hall as [Hc _]. apply negb_true_iff in Hc.
  change (Text.starts_with_char "/" (String c n)) with (Ascii.eqb "/" c).
  rewrite Ascii.eqb_sym, Hc.
  destruct (_ || _); [now eexists|]. exists ("/" +:+ String c n). reflexivity.
Qed.

Lemma valid_names_children children c :
  Os.valid_names (Os.Directory children) = true -> In c children ->
  Os.valid_name (fst c) = true /\ Os.valid_names (snd c) = true.
Proof.
  simpl. induction children as [|x children IH]; intros H []; subst.
  - apply andb_true_iff in H as [H _]. now apply andb_true_iff in H.
  - apply andb_true_iff in H as [_ H]. now apply IH.
Qed.

Lemma files_of_In children name st :
  In (name, st) (Os.files_of children) -> exists c, In c children /\ fst c = name.
Proof.
  unfold Os.files_of. rewrite in_flat_map. intros (c & Hc & Hin).
  exists c. split; [assumption|]. destruct (snd c); simpl in Hin; [|tauto].
  destruct Hin as [[= <- _]|[]]. reflexivity.
Qed.

Lemma walk_entry_In top children triple :
  In triple (Os.walk_entry top (Os.Directory children)) ->
  triple = (top, Os.dirs_of children, Os.files_of children)
  \/ exists c, In c children
               /\ In triple (Os.walk_entry (PosixPath.join top (fst c)) (snd c)).
Proof.
  simpl. intros [<-|H]; [now left|]. right.
  induction children as [|x children IH]; [destruct H|].
  apply in_app_or in H as [H|H].
  - exists x. split; [now left|assumption].
  - destruct (IH H) as (c & Hc & Hin). exists c. split; [now right|assumption].
Qed.

(** Every directory of the walk lies under the top, and the file names
    it lists are entry names. *)
Lemma walk_entry_under e : forall top triple,
  Os.valid_names e = true -> In triple (Os.walk_entry top e) ->
  under top (fst (fst triple))
  /\ forall file, In file (snd triple) -> Os.valid_name (fst file) = true.
Proof.
  induction e as [st|children IH] using Os.entry_induction; intros top triple Hv Hin.
  - destruct Hin.
  - apply walk_entry_In in Hin as [->|(c & Hc & Hin)].
    + split; [apply under_refl|]. intros [name st] Hf.
      apply files_of_In in Hf as (c & Hc & <-).
      now apply (valid_names_children children c Hv).
    + destruct (valid_names_children children c Hv Hc) as [Hn Hvc].
      rewrite List.Forall_forall in IH.
      destruct (IH c Hc _ _ Hvc Hin) as [Hu Hf]. split; [|assumption].
      eapply under_trans; [|eassumption]. now apply join_under.
Qed.

(** Every path the walk builds begins with the folder path. *)
Lemma discovered_under fs folder_path item :
  well_named fs folder_path -> In item (FileScanner.discovered fs folder_path) ->
  under folder_path (item_path item).
Proof.
  unfold FileScanner.discovered, Os.walk, well_named. intros Hw Hin.
  apply in_flat_map in Hin as (triple & Ht & Hin).
  apply in_map_iff in Hin as (file & <- & Hf).
  destruct (Os.lookup fs folder_path) as [e|]; [|destruct Ht].
  destruct (walk_entry_under e folder_path triple (Hw e eq_refl) Ht) as [Hu Hn].
  unfold item_path. simpl. eapply under_trans; [eassumption|].
  apply join_under. now apply Hn.
Qed.

End WalkFacts.

Section ProcessFacts.
Import DatabaseManager FileScanner ScanSpec.

Lemma add_file_metadata_appends now metadata db p n :
  lookup_text metadata Col.file_path = Some (Some p) ->
  lookup_text metadata Col.file_name = Some (Some n) ->
  exists r,
    file_path r = p
    /\ files_metadata (snd (add_file_metadata now metadata db)) = files_metadata db ++ [r].
Proof.
  intros Hp Hn. unfold add_file_metadata.
  destruct metadata as [|f metadata]; [discriminate|].
  unfold inserted_row. rewrite Hp, Hn. eexists. split; [|reflexivity]. reflexivity.
Qed.

Lemma process_file_processed now drive existing_files root p file :
  processed_files (process_file now drive existing_files root p file)
  = match branch drive existing_files (PosixPath.join root (fst file)) (snd file) with
    | Skip _ => processed_files p
    | _ => {[PosixPath.join root (fst file)]} ∪ processed_files p
    end.
Proof. unfold process_file. now destruct (branch _ _ _). Qed.

Lemma process_file_raised now drive existing_files root p file e :
  branch drive existing_files (PosixPath.join root (fst file)) (snd file) = Skip e ->
  process_file now drive existing_files root p file
  = {| self := log ERROR ("Error processing file " +:+ PosixPath.join root (fst file)
                           +:+ ": " +:+ Py.exn_str e) (self p);
       processed_files := processed_files p |}.
Proof. unfold process_file. now intros ->. Qed.

Lemma process_file_insert now drive existing_files root p file metadata :
  branch drive existing_files (PosixPath.join root (fst file)) (snd file) = Insert metadata ->
  process_file now drive existing_files root p file
  = processed (PosixPath.join root (fst file))
      (log DEBUG ("Added new file: " +:+ PosixPath.join root (fst file))
         {| db_manager := snd (add_file_metadata now metadata (db_manager (self p)));
            logger := logger (self p) |}) p.
Proof. unfold process_file. now intros ->. Qed.

Lemma process_files_cons now drive existing_files item items p :
  process_files now drive existing_files (item :: items) p
  = process_files now drive existing_files items
      (process_file now drive existing_files (fst item) p (snd item)).
Proof. reflexivity. Qed.

(** What ends up in [processed_files], for any snapshot. *)
Lemma process_files_processed now drive existing_files items : forall p q,
  q ∈ processed_files (process_files now drive existing_files items p)
  <-> q ∈ processed_files p
      \/ exists item, In item items /\ item_path item = q
                      /\ ~ raised (branch drive existing_files q (snd (snd item))).
Proof.
  induction items as [|item items IH]; intros p q.
  - simpl. split; [now left|]. intros [H|(item & [] & _)]. exact H.
  - rewrite process_files_cons, IH, process_file_processed.
    fold (item_path item). split.
    + intros [H|(i & Hi & Hp & Hr)].
      * destruct (branch drive existing_files (item_path item) (snd (snd item))) eqn:Hb;
          try (apply elem_of_union in H as [H|H];
               [apply elem_of_singleton in H; subst q; right; exists item;
                split; [now left|]; split; [reflexivity|];
                rewrite Hb; intros [e He]; discriminate
               |now left]).
        now left.
      * right. exists i. split; [now right|]. auto.
    + intros [H|(i & [<-|Hi] & Hp & Hr)].
      * left. destruct (branch _ _ _); try (apply elem_of_union; now right). assumption.
      * left. subst q.
        destruct (branch drive existing_files (item_path item) (snd (snd item))) eqn:Hb;
          try (apply elem_of_union; left; now apply elem_of_singleton).
        exfalso. apply Hr. now exists e.
      * right. exists i. auto.
Qed.

(** When every file raises, the store is not touched. *)
Lemma process_files_all_raised now drive existing_files items : forall p,
  (forall item, In item items ->
                raised (branch drive existing_files (item_path item) (snd (snd item)))) ->
  db_manager (self (process_files now drive existing_files items p)) = db_manager (self p)
  /\ processed_files (process_files now drive existing_files items p) = processed_files p
  /\ exists records,
       logger (self (process_files now drive existing_files items p))
       = logger (self p) ++ records
       /\ errors_only records.
Proof.
  induction items as [|item items IH]; intros p H.
  - simpl. repeat split. exists []. split; [now rewrite List.app_nil_r|]. intros ? ? [].
  - rewrite process_files_cons.
    destruct (H item (or_introl eq_refl)) as [e He]. unfold item_path in He.
    rewrite (process_file_raised _ _ _ _ _ _ _ He).
    destruct (IH {| self := log ERROR
                      ("Error processing file " +:+ PosixPath.join (fst item) (fst (snd item))
                       +:+ ": " +:+ Py.exn_str e) (self p);
                    processed_files := processed_files p |}) as (Hdb & Hpr & records & Hlog & Herr).
    { intros i Hi. apply H. now right. }
    split; [exact Hdb|]. split; [exact Hpr|].
    eexists (_ :: records). split.
    + rewrite Hlog. simpl. rewrite <- List.app_assoc. reflexivity.
    + intros l msg [[= <- _]|Hin]; [reflexivity|]. eapply Herr; eauto.
Qed.

Lemma tracked_grows db db' added p :
  files_metadata db' = files_metadata db ++ added -> tracked db p -> tracked db' p.
Proof.
  intros Heq (r & Hr & Hp). exists r. split; [|assumption].
  rewrite Heq. apply in_or_app. now left.
Qed.

(** A mapping the store cannot bind never gets past the [try] block,
    whatever the snapshot holds. *)
Lemma branch_unbindable drive date folder_path db p st metadata e :
  _extract_metadata drive p st = Py.Ok metadata -> bind_error metadata = Some e ->
  raised (branch drive (_get_existing_files date folder_path db) p st).
Proof.
  intros Hm He.
  destruct (branch_of_snapshot drive date folder_path db p st)
    as [H|(file_stat & m & _ & Hm' & _ & Hb & _)]; [exact H|].
  rewrite Hm in Hm'. injection Hm' as <-. rewrite He in Hb. discriminate.
Qed.

(** The walk with a snapshot of the store [db0]: rows are only appended,
    and every file that [os.stat] reaches is tracked afterwards, unless
    its mapping is one the store cannot bind. *)
Lemma process_files_snapshot date now drive folder_path db0 items : forall p,
  (exists added, files_metadata (db_manager (self p)) = files_metadata db0 ++ added) ->
  (exists added,
      files_metadata (db_manager (self (process_files now drive
                        (_get_existing_files date folder_path db0) items p)))
      = files_metadata (db_manager (self p)) ++ added)
  /\ (forall item file_stat,
        In item items -> snd (snd item) = Py.Ok file_stat ->
        tracked (db_manager (self (process_files now drive
                    (_get_existing_files date folder_path db0) items p)))
          (item_path item)
        \/ exists metadata e,
             _extract_metadata drive (item_path item) (snd (snd item)) = Py.Ok metadata
             /\ bind_error metadata = Some e).
Proof.
  induction items as [|item items IH]; intros p [added0 H0].
  - simpl. split; [exists []; now rewrite List.app_nil_r|]. intros ? ? [].
  - rewrite process_files_cons.
    set (p' := process_file now drive (_get_existing_files date folder_path db0)
                 (fst item) p (snd item)).
    assert (Hstep : exists added,
               files_metadata (db_manager (self p'))
               = files_metadata (db_manager (self p)) ++ added
               /\ forall file_stat,
                    snd (snd item) = Py.Ok file_stat ->
                    tracked (db_manager (self p')) (item_path item)
                    \/ exists metadata e,
                         _extract_metadata drive (item_path item) (snd (snd item))
                         = Py.Ok metadata
                         /\ bind_error metadata = Some e).
    { destruct (branch_of_snapshot drive date folder_path db0 (item_path item)
                  (snd (snd item)))
        as [[e He]|(file_stat & metadata & Hst & Hex & Hnone & Hbind & Hb)].
      - exists []. unfold p'. unfold item_path in He.
        rewrite (process_file_raised _ _ _ _ _ _ _ He). simpl.
        split; [now rewrite List.app_nil_r|].
        intros file_stat Hst.
        destruct (_get_existing_files date folder_path db0 !! item_path item) as [v|] eqn:Hv.
        + left. apply (tracked_grows db0 _ added0 _ H0).
          apply (snapshot_tracked date folder_path).
          apply elem_of_dom. rewrite Hv. eauto.
        + right. unfold branch in He. fold (item_path item) in He.
          rewrite Hst in He. rewrite Hst.
          destruct (extract_ok drive (item_path item) file_stat) as (m & Hm & _).
          unfold item_path in *. rewrite Hm, Hv in He.
          destruct (bind_error m) as [e'|] eqn:Hbe; [|discriminate].
          exists m, e'. split; [exact Hm|exact Hbe].
      - unfold p'. unfold item_path in Hb.
        rewrite (process_file_insert _ _ _ _ _ _ _ Hb). simpl.
        destruct (extract_ok drive (item_path item) file_stat) as (m & Hm & _ & Hp & n & Hn).
        rewrite Hst in Hex. rewrite Hm in Hex. injection Hex as <-.
        destruct (add_file_metadata_appends now m (db_manager (self p)) _ _ Hp Hn)
          as (r & Hr & Happ).
        exists [r]. split; [exact Happ|].
        intros _ _. left. exists r. split; [|exact Hr].
        unfold item_path in *. rewrite Happ. apply in_or_app. right. now left. }
    destruct Hstep as (added1 & H1 & Hcov).
    destruct (IH p') as [(added2 & H2) Hrest].
    { exists (added0 ++ added1). now rewrite H1, H0, List.app_assoc. }
    split.
    + exists (added1 ++ added2). now rewrite H2, H1, List.app_assoc.
    + intros i file_stat [<-|Hi] Hst.
      * destruct (Hcov file_stat Hst) as [Ht|Hu]; [left|right; exact Hu].
        eapply tracked_grows; [exact H2|]. exact Ht.
      * eapply Hrest; eauto.
Qed.

End ProcessFacts.

Section ScanFacts.
Import DatabaseManager FileScanner ScanSpec.

Lemma handle_removed_db removed s :
  db_manager (_handle_removed_files removed s) = db_manager s.
Proof.
  unfold _handle_removed_files. generalize (elements removed). intros l. revert s.
  induction l as [|x l IH]; intros s; [reflexivity|]. simpl. now rewrite IH.
Qed.

Lemma handle_removed_logger removed s :
  logger (_handle_removed_files removed s)
  = logger s ++ map (fun p => (WARNING, "File no longer exists: " +:+ p)) (elements removed).
Proof.
  unfold _handle_removed_files. generalize (elements removed). intros l. revert s.
  induction l as [|x l IH]; intros s; simpl; [now rewrite List.app_nil_r|].
  rewrite IH. simpl. now rewrite <- List.app_assoc.
Qed.

(** The scan of a folder that exists, laid out. *)
Lemma scan_folder_exists date now fs folder_path s :
  Os.path_exists fs folder_path = true ->
  exists tail,
    scan_folder date now fs folder_path s
    = (true,
       {| db_manager :=
            db_manager (self (walk_files now
                                (_get_existing_files date folder_path (db_manager s))
                                fs folder_path s));
          logger :=
            logger (self (walk_files now
                            (_get_existing_files date folder_path (db_manager s))
                            fs folder_path s))
            ++ map (fun p => (WARNING, "File no longer exists: " +:+ p))
                 (elements (removed_files
                              (_get_existing_files date folder_path (db_manager s))
                              (walk_files now
                                 (_get_existing_files date folder_path (db_manager s))
                                 fs folder_path s)))
            ++ [(INFO, tail)] |}).
Proof.
  intros H. unfold scan_folder. rewrite H. cbn [negb].
  set (existing_files := _get_existing_files date folder_path (db_manager s)).
  set (p := walk_files now existing_files fs folder_path s).
  exists ("Scan completed - Processed: " +:+ Text.of_nat (size (processed_files p))
          +:+ ", Removed: " +:+ Text.of_nat (size (removed_files existing_files p))).
  f_equal. unfold log. cbn [db_manager logger].
  destruct (decide (removed_files existing_files p = ∅)) as [E|E].
  - rewrite E at 2. rewrite elements_empty. cbn [map]. rewrite List.app_nil_l.
    reflexivity.
  - rewrite handle_removed_db, handle_removed_logger, <- List.app_assoc. reflexivity.
Qed.

Lemma scan_folder_missing date now fs folder_path s :
  Os.path_exists fs folder_path = false ->
  scan_folder date now fs folder_path s
  = (false, {| db_manager := db_manager s;
               logger := logger s ++ [(ERROR, "Folder not found: " +:+ folder_path)] |}).
Proof. intros H. unfold scan_folder. now rewrite H. Qed.

(** Every scan only appends rows to files_metadata. *)
Lemma scan_folder_appends date now fs folder_path s :
  exists added,
    files_metadata (db_manager (snd (scan_folder date now fs folder_path s)))
    = files_metadata (db_manager s) ++ added.
Proof.
  destruct (Os.path_exists fs folder_path) eqn:H.
  - destruct (scan_folder_exists date now fs folder_path s H) as [tail ->].
    cbn [snd db_manager]. unfold walk_files.
    apply (process_files_snapshot date now (Os.drive fs) folder_path (db_manager s)).
    exists []. cbn. now rewrite List.app_nil_r.
  - rewrite scan_folder_missing by assumption. exists []. cbn. now rewrite List.app_nil_r.
Qed.

(** C6.  When the root does not exist the scan returns False; the store
    it hands back is the one it was given and the only trace is the
    error record, whatever the catalog holds. *)
Theorem C6_missing_root_fails_fast (date : Sqlite.value -> option string) (now : string)
    (fs : Os.filesystem) (folder_path : string) (s : scanner) :
  Os.path_exists fs folder_path = false ->
  fst (scan_folder date now fs folder_path s) = false
  /\ db_manager (snd (scan_folder date now fs folder_path s)) = db_manager s
  /\ logger (snd (scan_folder date now fs folder_path s))
     = logger s ++ [(ERROR, "Folder not found: " +:+ folder_path)].
Proof. intros H. rewrite scan_folder_missing by assumption. auto. Qed.

Lemma C6_missing_root_fails_fast_witness :
  fst (scan_folder Examples.date "2024-07-01 00:00:00" Examples.disk "/archive"
         Examples.tracking) = false
  /\ db_manager (snd (scan_folder Examples.date "2024-07-01 00:00:00" Examples.disk
                        "/archive" Examples.tracking)) = Examples.catalog
  /\ logger (snd (scan_folder Examples.date "2024-07-01 00:00:00" Examples.disk
                    "/archive" Examples.tracking))
     = [(ERROR, "Folder not found: /archive")].
Proof.
  exact (C6_missing_root_fails_fast Examples.date "2024-07-01 00:00:00" Examples.disk
           "/archive" Examples.tracking eq_refl).
Defined.

Lemma walk_files_processed now (existing_files : gmap string Py.value) fs folder_path s p :
  p ∈ processed_files (walk_files now existing_files fs folder_path s)
  <-> exists item, In item (discovered fs folder_path) /\ item_path item = p
                   /\ ~ raised (branch (Os.drive fs) existing_files p (snd (snd item))).
Proof.
  unfold walk_files. rewrite process_files_processed. cbn [processed_files].
  rewrite elem_of_empty. tauto.
Qed.

Lemma walk_files_removed now (existing_files : gmap string Py.value) fs folder_path s p :
  p ∈ removed_files existing_files (walk_files now existing_files fs folder_path s)
  <-> p ∈ dom existing_files
      /\ forall item, In item (discovered fs folder_path) -> item_path item = p ->
                      raised (branch (Os.drive fs) existing_files p (snd (snd item))).
Proof.
  unfold removed_files. rewrite elem_of_difference, walk_files_processed. split.
  - intros [Hd Hno]. split; [assumption|]. intros item Hi Hp.
    destruct (branch (Os.drive fs) existing_files p (snd (snd item))) eqn:Hb;
      try (exfalso; apply Hno; exists item; rewrite Hb;
           repeat split; try assumption; intros [e He]; discriminate).
    now exists e.
  - intros [Hd Hall]. split; [assumption|]. intros (item & Hi & Hp & Hr).
    apply Hr. now apply Hall.
Qed.

(** C3.  The catalog tracks /docs/a.pdf and the enumeration comes upon
    it, but [os.stat] raises on it: the [except] branch logs the error
    and goes on to the next file, past [processed_files.add].  The path
    is not recorded as processed, lands in the removed set and is
    warned about as no longer existing while it is on the disk.  A file
    whose name sqlite3 cannot bind goes the same way: it is come upon,
    the insert raises, and the path is not recorded. *)
Theorem C3_discovered_file_reported_removed :
  on_disk Examples.disk_unreadable "/docs" "/docs/a.pdf"
  /\ ("/docs/a.pdf" ∉ processed_files
                        (walk_files "2024-07-01 00:00:00"
                           (_get_existing_files Examples.date "/docs" Examples.catalog)
                           Examples.disk_unreadable "/docs" Examples.tracking))
  /\ ("/docs/a.pdf" ∈ removed_files
                        (_get_existing_files Examples.date "/docs" Examples.catalog)
                        (walk_files "2024-07-01 00:00:00"
                           (_get_existing_files Examples.date "/docs" Examples.catalog)
                           Examples.disk_unreadable "/docs" Examples.tracking))
  /\ scan_folder Examples.date "2024-07-01 00:00:00" Examples.disk_unreadable "/docs"
       Examples.tracking
     = (true,
        {| db_manager := Examples.catalog;
           logger :=
             [ (ERROR, "Error processing file /docs/a.pdf: [Errno 13] Permission denied: '/docs/a.pdf'");
               (WARNING, "File no longer exists: /docs/a.pdf");
               (INFO, "Scan completed - Processed: 0, Removed: 1") ] |})
  /\ on_disk Examples.disk_misnamed "/docs" (PosixPath.join "/docs" Examples.misnamed)
  /\ processed_files
       (walk_files "2024-07-01 00:00:00"
          (_get_existing_files Examples.date "/docs" Examples.catalog)
          Examples.disk_misnamed "/docs" Examples.tracking) = ∅.
Proof.
  split; [eexists; split; [left; reflexivity|reflexivity]|].
  split; [apply (bool_decide_eq_false_1 _); vm_compute; reflexivity|].
  split; [apply (bool_decide_eq_true_1 _); vm_compute; reflexivity|].
  split; [vm_compute; reflexivity|].
  split; [eexists; split; [left; reflexivity|reflexivity]|].
  vm_compute. reflexivity.
Qed.

(** C4.  A file the catalog tracks under the folder and the enumeration
    does not come upon: the scan returns True, a warning names the path
    as no longer existing, and the table afterwards is the table before
    with rows appended, so the file's row is still there as it was.  No
    scan ever does anything else to the rows it found. *)
Theorem C4_removed_file_kept (date : Sqlite.value -> option string) (now : string)
    (fs : Os.filesystem) (folder_path : string) (s : scanner) (p : string) :
  Os.path_exists fs folder_path = true ->
  tracked (db_manager s) p ->
  under folder_path p ->
  ~ on_disk fs folder_path p ->
  fst (scan_folder date now fs folder_path s) = true
  /\ In (WARNING, "File no longer exists: " +:+ p)
       (logger (snd (scan_folder date now fs folder_path s)))
  /\ exists added,
       files_metadata (db_manager (snd (scan_folder date now fs folder_path s)))
       = files_metadata (db_manager s) ++ added.
Proof.
  intros Hex Htr Hun Hno.
  split; [|split; [|apply scan_folder_appends]].
  - destruct (scan_folder_exists date now fs folder_path s Hex) as [tail ->]. reflexivity.
  - destruct (scan_folder_exists date now fs folder_path s Hex) as [tail ->].
    cbn [snd logger]. apply in_or_app. right. apply in_or_app. left.
    apply in_map_iff. exists p. split; [reflexivity|].
    apply list_elem_of_In, elem_of_elements, walk_files_removed.
    split; [now apply snapshot_covers|].
    intros item Hi Hp. exfalso. apply Hno. now exists item.
Qed.

Lemma C4_removed_file_kept_witness :
  fst (scan_folder Examples.date "2024-07-01 00:00:00" Examples.disk_emptied "/docs"
         Examples.tracking) = true
  /\ In (WARNING, "File no longer exists: /docs/a.pdf")
       (logger (snd (scan_folder Examples.date "2024-07-01 00:00:00" Examples.disk_emptied
                       "/docs" Examples.tracking)))
  /\ exists added,
       files_metadata (db_manager (snd (scan_folder Examples.date "2024-07-01 00:00:00"
                                         Examples.disk_emptied "/docs" Examples.tracking)))
       = [Examples.tracked_row] ++ added.
Proof.
  apply (C4_removed_file_kept Examples.date "2024-07-01 00:00:00" Examples.disk_emptied
           "/docs" Examples.tracking "/docs/a.pdf").
  - reflexivity.
  - exists Examples.tracked_row. split; [left; reflexivity|reflexivity].
  - exists "/a.pdf". reflexivity.
  - intros (item & Hi & _). destruct Hi.
Defined.

(** C2, as the code has it.  With a snapshot read from the store no file
    reaches the update, and none passes it without a write: a file of
    the snapshot leaves the [try] block through an exception.  On the
    example, where /docs/a.pdf is tracked as of January and was modified
    in June, the scan logs the TypeError of the comparison and the
    missing-file warning, issues no update and leaves the catalog as it
    was. *)
Theorem C2_update_never_reached :
  (forall drive date folder_path db p st metadata,
      branch drive (_get_existing_files date folder_path db) p st <> Update metadata
      /\ branch drive (_get_existing_files date folder_path db) p st <> NoWrite)
  /\ Py.datetime_ltb Examples.january Examples.june = true
  /\ scan_folder Examples.date "2024-07-01 00:00:00" Examples.disk_modified "/docs"
       Examples.tracking
     = (true,
        {| db_manager := Examples.catalog;
           logger :=
             [ (ERROR, "Error processing file /docs/a.pdf: '>' not supported between instances of 'datetime.datetime' and 'str'");
               (WARNING, "File no longer exists: /docs/a.pdf");
               (INFO, "Scan completed - Processed: 0, Removed: 1") ] |}).
Proof.
  split; [|split; [reflexivity|vm_compute; reflexivity]].
  intros drive date folder_path db p st metadata.
  destruct (branch_of_snapshot drive date folder_path db p st)
    as [[e ->]|(? & ? & _ & _ & _ & _ & ->)]; split; discriminate.
Qed.

(** C1.  Scanning the same disk a second time leaves the store as the
    first scan left it: in the second scan no file gets through the
    insert or the update, and no store write is logged. *)
Theorem C1_rescan_idempotent (date : Sqlite.value -> option string) (now now' : string)
    (fs : Os.filesystem) (folder_path : string) (s : scanner) :
  well_named fs folder_path ->
  db_manager (snd (scan_folder date now' fs folder_path
                     (snd (scan_folder date now fs folder_path s))))
  = db_manager (snd (scan_folder date now fs folder_path s))
  /\ (forall item metadata,
         In item (discovered fs folder_path) ->
         branch (Os.drive fs)
           (_get_existing_files date folder_path
              (db_manager (snd (scan_folder date now fs folder_path s))))
           (item_path item) (snd (snd item)) <> Insert metadata
         /\ branch (Os.drive fs)
              (_get_existing_files date folder_path
                 (db_manager (snd (scan_folder date now fs folder_path s))))
              (item_path item) (snd (snd item)) <> Update metadata)
  /\ exists records,
       logger (snd (scan_folder date now' fs folder_path
                      (snd (scan_folder date now fs folder_path s))))
       = logger (snd (scan_folder date now fs folder_path s)) ++ records
       /\ no_write_logged records.
Proof.
  intros Hw. destruct (Os.path_exists fs folder_path) eqn:Hex.
  - set (s1 := snd (scan_folder date now fs folder_path s)).
    assert (Hcov : forall item file_stat,
               In item (discovered fs folder_path) ->
               snd (snd item) = Py.Ok file_stat ->
               tracked (db_manager s1) (item_path item)
               \/ exists metadata e,
                    _extract_metadata (Os.drive fs) (item_path item) (snd (snd item))
                    = Py.Ok metadata
                    /\ bind_error metadata = Some e).
    { unfold s1. destruct (scan_folder_exists date now fs folder_path s Hex) as [tail ->].
      cbn [snd db_manager]. unfold walk_files.
      apply (process_files_snapshot date now (Os.drive fs) folder_path (db_manager s)).
      exists []. cbn. now rewrite List.app_nil_r. }
    assert (Hall : forall item,
               In item (discovered fs folder_path) ->
               raised (branch (Os.drive fs)
                         (_get_existing_files date folder_path (db_manager s1))
                         (item_path item) (snd (snd item)))).
    { intros item Hi. destruct (snd (snd item)) as [file_stat|e] eqn:Hst.
      - rewrite <- Hst.
        destruct (Hcov item file_stat Hi Hst) as [Ht|(m & e & Hm & He)].
        + apply branch_in_snapshot. apply snapshot_covers; [exact Ht|].
          now apply (discovered_under fs).
        + eapply branch_unbindable; eassumption.
      - unfold branch, raised. cbn. eauto. }
    destruct (process_files_all_raised now' (Os.drive fs)
                (_get_existing_files date folder_path (db_manager s1))
                (discovered fs folder_path)
                {| self := s1; processed_files := ∅ |} Hall)
      as (Hdb & _ & records & Hlog & Herr).
    destruct (scan_folder_exists date now' fs folder_path s1 Hex) as [tail ->].
    cbn [snd db_manager logger]. unfold walk_files. split; [exact Hdb|]. split.
    { intros item metadata Hi. destruct (Hall item Hi) as [e ->]. split; discriminate. }
    rewrite Hlog. cbn [self logger]. rewrite <- List.app_assoc.
    eexists. split; [reflexivity|].
    intros msg Hin. apply in_app_or in Hin as [Hin|Hin].
    + apply Herr in Hin. discriminate.
    + apply in_app_or in Hin as [Hin|[Hin|[]]]; [|discriminate].
      apply in_map_iff in Hin as (? & ? & _). discriminate.
  - rewrite !scan_folder_missing by assumption. cbn [snd db_manager logger].
    split; [reflexivity|]. split.
    { intros item metadata Hi. exfalso. revert Hi.
      unfold discovered, Os.walk. unfold Os.path_exists in Hex.
      destruct (Os.lookup fs folder_path); [discriminate|]. intros []. }
    eexists. split; [reflexivity|].
    intros msg [Hin|[]]. discriminate.
Qed.

Lemma C1_rescan_idempotent_witness :
  well_named Examples.disk "/docs"
  /\ db_manager (snd (scan_folder Examples.date "2024-07-02 00:00:00" Examples.disk "/docs"
                        (snd (scan_folder Examples.date "2024-07-01 00:00:00"
                                Examples.disk "/docs" Examples.tracking))))
     = db_manager (snd (scan_folder Examples.date "2024-07-01 00:00:00" Examples.disk
                          "/docs" Examples.tracking))
  /\ length (files_metadata
               (db_manager (snd (scan_folder Examples.date "2024-07-01 00:00:00"
                                   Examples.disk "/docs" Examples.tracking)))) = 2.
Proof.
  assert (Hw : well_named Examples.disk "/docs").
  { intros e He. vm_compute in He. injection He as <-. reflexivity. }
  split; [exact Hw|]. split; [|reflexivity].
  exact (proj1 (C1_rescan_idempotent Examples.date "2024-07-01 00:00:00"
                  "2024-07-02 00:00:00" Examples.disk "/docs" Examples.tracking Hw)).
Defined.

End ScanFacts.

(* ===================================================================== *)
(** * Part II, continued *)
(* ===================================================================== *)

(** ** The store: insert, update, lookup *)

Section StoreFacts.
Import DatabaseManager StoreSpec ScanSpec.

Lemma next_rowid_above_seq seq ids : (seq < next_rowid seq ids)%Z.
Proof.
  unfold next_rowid. induction ids as [|i ids IH]; simpl; lia.
Qed.

Lemma next_rowid_above seq ids i : In i ids -> (i < next_rowid seq ids)%Z.
Proof.
  unfold next_rowid. induction ids as [|j ids IH]; simpl; [tauto|].
  intros [->|H]; [lia|]. specialize (IH H). lia.
Qed.

Lemma set_text_file_id c v r r' : set_text c v r = Some r' -> file_id r' = file_id r.
Proof. destruct c, v; simpl; intros H; try discriminate; injection H as <-; reflexivity. Qed.

Lemma assign_file_id f r r' : assign f r = Some r' -> file_id r' = file_id r.
Proof.
  destruct f as [c v|c v]; simpl.
  - apply set_text_file_id.
  - intros [= <-]. now destruct c.
Qed.

(** One assignment changes the cell it names and no other. *)
Lemma assign_cell f r r' c :
  assign f r = Some r' ->
  cell c r' = if decide (key f = c) then stored f else cell c r.
Proof.
  destruct f as [tc v|tc v]; simpl; intros H.
  - destruct c as [|c|c].
    + destruct (decide _) as [E|_]; [discriminate|]. simpl.
      now rewrite (set_text_file_id _ _ _ _ H).
    + destruct (decide (Col.text_ tc = Col.text_ c)) as [[= ->]|E].
      * destruct c, v; simpl in *; try discriminate; injection H as <-; reflexivity.
      * destruct tc, c; try (exfalso; apply E; reflexivity);
          destruct v; simpl in *; try discriminate; injection H as <-; reflexivity.
    + destruct (decide _) as [E|_]; [discriminate|].
      destruct tc, c, v; simpl in *; try discriminate; injection H as <-; reflexivity.
  - injection H as <-. destruct c as [|c|c].
    + destruct (decide _) as [E|_]; [discriminate|]. now destruct tc.
    + destruct (decide _) as [E|_]; [discriminate|]. now destruct tc, c.
    + destruct (decide (Col.time_ tc = Col.time_ c)) as [[= ->]|E].
      * now destruct c.
      * destruct tc, c; try (exfalso; apply E; reflexivity); reflexivity.
Qed.

Lemma assign_all_file_id m : forall r r', assign_all m r = Some r' -> file_id r' = file_id r.
Proof.
  induction m as [|f m IH]; simpl; intros r r' H; [now injection H as <-|].
  destruct (assign f r) as [r1|] eqn:E; [|discriminate].
  rewrite (IH _ _ H). now apply assign_file_id in E.
Qed.

(** The SET clause leaves the columns it does not name. *)
Lemma assign_all_unnamed m : forall r r' c,
  assign_all m r = Some r' -> unnamed m c -> cell c r' = cell c r.
Proof.
  induction m as [|f m IH]; simpl; intros r r' c H Hun; [now injection H as <-|].
  destruct (assign f r) as [r1|] eqn:E; [|discriminate].
  rewrite (IH r1 r' c H); [|intros g Hg; apply Hun; now right].
  rewrite (assign_cell _ _ _ c E).
  destruct (decide _) as [Hk|_]; [|reflexivity].
  exfalso. apply (Hun f); [now left|assumption].
Qed.

(** Each column named once gets the value bound to it. *)
Lemma assign_all_named m : forall r r' f,
  assign_all m r = Some r' -> List.NoDup (map key m) -> In f m ->
  cell (key f) r' = stored f.
Proof.
  induction m as [|g m IH]; simpl; intros r r' f H Hnd Hin; [destruct Hin|].
  destruct (assign g r) as [r1|] eqn:E; [|discriminate].
  inversion Hnd as [|? ? Hg Hnd']; subst.
  destruct Hin as [->|Hin].
  - rewrite (assign_all_unnamed m r1 r' (key f) H).
    + rewrite (assign_cell _ _ _ _ E). now destruct (decide _).
    + intros h Hh Heq. apply Hg. rewrite <- Heq. now apply in_map.
  - now apply (IH r1).
Qed.

Lemma assign_all_succeeds m : forall r,
  forallb keeps_required m = true -> exists r', assign_all m r = Some r'.
Proof.
  induction m as [|f m IH]; simpl; intros r H; [eauto|].
  apply andb_true_iff in H as [Hf Hm].
  assert (exists r1, assign f r = Some r1) as [r1 ->].
  { destruct f as [c v|c v]; simpl; [|eauto].
    destruct c, v; simpl in *; eauto; discriminate. }
  now apply IH.
Qed.

(** The rows an UPDATE leaves: the selected ones assigned, the others as
    they were, all in place; the row count is the number selected. *)
Lemma update_rows_spec selected m rows : forall rows' n,
  update_rows selected m rows = Some (rows', n) ->
  n = List.length (List.filter selected rows)
  /\ List.Forall2
       (fun r r' => if selected r then assign_all m r = Some r' else r' = r)
       rows rows'.
Proof.
  induction rows as [|r rows IH]; simpl; intros rows' n H.
  - injection H as <- <-. split; [reflexivity|constructor].
  - destruct (update_rows selected m rows) as [[rest k]|] eqn:E; [|discriminate].
    destruct (IH _ _ eq_refl) as [-> Hall].
    destruct (selected r) eqn:Hs.
    + destruct (assign_all m r) as [r1|] eqn:Ha; [|discriminate].
      injection H as <- <-. split; [reflexivity|]. constructor; [|assumption].
      now rewrite Hs.
    + injection H as <- <-. split; [reflexivity|]. constructor; [|assumption].
      now rewrite Hs.
Qed.

Lemma update_rows_succeeds selected m rows :
  forallb keeps_required m = true ->
  exists rows' n, update_rows selected m rows = Some (rows', n).
Proof.
  intros Hm. induction rows as [|r rows IH]; simpl; [eauto|].
  destruct IH as (rest & k & ->).
  destruct (selected r); [|eauto].
  destruct (assign_all_succeeds m r Hm) as [r' ->]. eauto.
Qed.

Lemma update_rows_none_selected selected m rows rows' :
  update_rows selected m rows = Some (rows', 0) -> rows' = rows.
Proof.
  revert rows'. induction rows as [|r rows IH]; simpl; intros rows' H.
  - now injection H as <-.
  - destruct (update_rows selected m rows) as [[rest k]|] eqn:E; [|discriminate].
    destruct (selected r).
    + destruct (assign_all m r); [|discriminate]. injection H as _ ?. discriminate.
    + injection H as <- ->. f_equal. now apply IH.
Qed.

Lemma with_files_same db : with_files db (files_metadata db) = db.
Proof. now destruct db. Qed.

Lemma filter_length_pos {A} (p : A -> bool) (l : list A) :
  0 < List.length (List.filter p l) <-> exists x, In x l /\ p x = true.
Proof.
  induction l as [|y l IH]; simpl.
  - split; [lia|]. now intros (x & [] & _).
  - destruct (p y) eqn:E; simpl.
    + split; [|lia]. intros _. exists y. auto.
    + rewrite IH. split; intros (x & Hx & Hp); [eauto|].
      destruct Hx as [->|Hx]; [congruence|eauto].
Qed.

End StoreFacts.

Section StoreTheorems.
Import DatabaseManager StoreSpec ScanSpec.

Lemma find_appended (rows : list file_row) r id :
  (forall x, In x rows -> (file_id x < id)%Z) -> file_id r = id ->
  find (has_id (Py.Int id)) (rows ++ [r]) = Some r.
Proof.
  intros Hlt Hr. induction rows as [|x rows IH]; simpl.
  - unfold has_id. simpl. rewrite Hr, Z.eqb_refl. reflexivity.
  - unfold has_id at 1. simpl.
    destruct (Z.eqb_spec (file_id x) id) as [E|_].
    + specialize (Hlt x (or_introl eq_refl)). lia.
    + apply IH. intros y Hy. apply Hlt. now right.
Qed.

(** X1.  When [add_file_metadata] returns an id, that id is above every
    file_id of the table, the table has one more row at its end, the row
    holds the id, the values of the mapping and NULL for every column the
    mapping does not name (created_date: the current time), and
    [get_file_metadata] with that id returns the row. *)
Theorem X1_add_then_get (now : string) (m : metadata) (db : database) (id : Z) :
  fst (add_file_metadata now m db) = Some id ->
  (forall r, In r (files_metadata db) -> (file_id r < id)%Z)
  /\ exists r,
       files_metadata (snd (add_file_metadata now m db)) = files_metadata db ++ [r]
       /\ file_id r = id
       /\ (forall c, text_cell c r = or_null (lookup_text m c))
       /\ last_modified r = or_null (lookup_time m Col.last_modified)
       /\ created_date r = match lookup_time m Col.created_date with
                           | Some v => v
                           | None => Some now
                           end
       /\ get_file_metadata (Py.Int id) (snd (add_file_metadata now m db)) = Some r.
Proof.
  unfold add_file_metadata. destruct m as [|f m]; [discriminate|].
  set (i := next_rowid (files_metadata_seq db) (map file_id (files_metadata db))).
  unfold inserted_row.
  destruct (lookup_text (f :: m) Col.file_path) as [[p|]|] eqn:Hp; try discriminate.
  destruct (lookup_text (f :: m) Col.file_name) as [[n|]|] eqn:Hn; try discriminate.
  cbn [fst snd]. intros [= <-].
  assert (Hlt : forall r, In r (files_metadata db) -> (file_id r < i)%Z).
  { intros r Hr. apply next_rowid_above. now apply in_map. }
  split; [exact Hlt|].
  eexists. split; [reflexivity|]. split; [reflexivity|].
  split; [|split; [reflexivity|split; [reflexivity|]]].
  - intros c. destruct c; cbn [text_cell file_path file_name source file_type issue_status
                               revision department drawing_type plant_area
                               equipment_included notes todos];
      rewrite ?Hp, ?Hn; reflexivity.
  - unfold get_file_metadata. cbn [files_metadata]. now apply find_appended.
Qed.

Lemma X1_add_then_get_witness :
  exists r,
    get_file_metadata (Py.Int 2)
      (snd (add_file_metadata "2024-07-01 00:00:00"
              [ TextField Col.file_path (Some "/docs/new.dwg");
                TextField Col.file_name (Some "new.dwg") ] Examples.catalog)) = Some r
    /\ file_path r = "/docs/new.dwg"
    /\ created_date r = Some "2024-07-01 00:00:00".
Proof.
  destruct (X1_add_then_get "2024-07-01 00:00:00"
              [ TextField Col.file_path (Some "/docs/new.dwg");
                TextField Col.file_name (Some "new.dwg") ] Examples.catalog 2 eq_refl)
    as (_ & r & _ & _ & Ht & _ & Hc & Hg).
  exists r. split; [exact Hg|]. split; [|exact Hc].
  specialize (Ht Col.file_path). cbn in Ht. now injection Ht.
Defined.

(** X2.  [add_file_metadata] returns None exactly when the mapping
    lacks file_path or file_name or gives one of them as None (an empty
    mapping among them), and then the database is as it was. *)
Theorem X2_add_fails_without_required (now : string) (m : metadata) (db : database) :
  (fst (add_file_metadata now m db) = None <-> ~ names_required m)
  /\ (fst (add_file_metadata now m db) = None ->
      snd (add_file_metadata now m db) = db).
Proof.
  unfold add_file_metadata, names_required. destruct m as [|f m].
  - split; [|reflexivity]. split; [|reflexivity].
    intros _ (p & n & H & _). discriminate.
  - unfold inserted_row.
    destruct (lookup_text (f :: m) Col.file_path) as [[p|]|] eqn:Hp;
      destruct (lookup_text (f :: m) Col.file_name) as [[n|]|] eqn:Hn; cbn [fst snd];
      (split; [split|]); try reflexivity; try discriminate;
      try (intros _ (p' & n' & H1 & H2); discriminate).
    intros H. exfalso. apply H. eauto.
Qed.

(** X3.  For a mapping that is not empty and puts no None into
    file_path or file_name, [update_file_metadata_by_path] returns True
    exactly when some row has the path. *)
Theorem X3_update_by_path_reports_match (path : string) (m : metadata) (db : database) :
  m <> [] ->
  forallb keeps_required m = true ->
  fst (update_file_metadata_by_path path m db) = true <-> tracked db path.
Proof.
  intros Hne Hm. unfold update_file_metadata_by_path, tracked.
  destruct m as [|f m]; [congruence|].
  destruct (update_rows_succeeds (has_path path) (f :: m) (files_metadata db) Hm)
    as (rows' & n & Hu).
  rewrite Hu. cbn [fst].
  destruct (update_rows_spec _ _ _ _ _ Hu) as [-> _].
  rewrite Nat.ltb_lt, filter_length_pos. unfold has_path.
  split; intros (r & Hr & Hp); exists r; (split; [assumption|]);
    now apply String.eqb_eq.
Qed.

Lemma X3_update_by_path_reports_match_witness :
  fst (update_file_metadata_by_path "/docs/a.pdf"
         [TextField Col.notes (Some "checked")] Examples.catalog) = true
  /\ fst (update_file_metadata_by_path "/docs/zzz.pdf"
            [TextField Col.notes (Some "checked")] Examples.catalog) = false.
Proof.
  split.
  - apply (X3_update_by_path_reports_match "/docs/a.pdf"
             [TextField Col.notes (Some "checked")] Examples.catalog);
      [discriminate|reflexivity|].
    exists Examples.tracked_row. split; [now left|reflexivity].
  - apply not_true_is_false. intros H.
    apply (X3_update_by_path_reports_match "/docs/zzz.pdf"
             [TextField Col.notes (Some "checked")] Examples.catalog) in H;
      [|discriminate|reflexivity].
    destruct H as (r & [<-|[]] & Hp). discriminate.
Defined.

(** X4.  A successful [update_file_metadata_by_path] keeps the rows
    in place with their file_ids; a row with another path is left as it
    was, and in a row with the path every column the mapping does not name
    keeps its cell.  The recent-folder table is not touched. *)
Theorem X4_update_by_path_frame (path : string) (m : metadata) (db : database) :
  fst (update_file_metadata_by_path path m db) = true ->
  List.Forall2
    (fun r r' =>
       file_id r' = file_id r
       /\ (file_path r <> path -> r' = r)
       /\ (file_path r = path -> forall c, unnamed m c -> cell c r' = cell c r))
    (files_metadata db)
    (files_metadata (snd (update_file_metadata_by_path path m db)))
  /\ recent_folders (snd (update_file_metadata_by_path path m db)) = recent_folders db.
Proof.
  unfold update_file_metadata_by_path. destruct m as [|f m]; [discriminate|].
  destruct (update_rows (has_path path) (f :: m) (files_metadata db))
    as [[rows' n]|] eqn:Hu; [|discriminate].
  cbn [fst snd with_files files_metadata recent_folders]. intros _.
  split; [|reflexivity].
  destruct (update_rows_spec _ _ _ _ _ Hu) as [_ Hall].
  eapply List.Forall2_impl; [|exact Hall].
  intros r r' H. unfold has_path in H.
  destruct (String.eqb_spec (file_path r) path) as [E|E].
  - split; [now apply assign_all_file_id in H|]. split; [tauto|].
    intros _ c Hc. now apply (assign_all_unnamed (f :: m)).
  - subst r'. split; [reflexivity|]. split; [reflexivity|tauto].
Qed.

Lemma X4_update_by_path_frame_witness :
  recent_folders (snd (update_file_metadata_by_path "/docs/a.pdf"
                         [TextField Col.notes (Some "checked")] Examples.catalog))
  = recent_folders Examples.catalog.
Proof.
  exact (proj2 (X4_update_by_path_frame "/docs/a.pdf"
                  [TextField Col.notes (Some "checked")] Examples.catalog eq_refl)).
Defined.

Lemma find_updated selected m (rows : list file_row) : forall rows' n,
  update_rows selected m rows = Some (rows', n) ->
  (forall r r', selected r = true -> assign_all m r = Some r' -> selected r' = true) ->
  find selected rows'
  = match find selected rows with
    | Some r => assign_all m r
    | None => None
    end.
Proof.
  induction rows as [|r rows IH]; simpl; intros rows' n H Hkeep.
  - now injection H as <- <-.
  - destruct (update_rows selected m rows) as [[rest k]|] eqn:E; [|discriminate].
    destruct (selected r) eqn:Hs.
    + destruct (assign_all m r) as [r1|] eqn:Ha; [|discriminate].
      injection H as <- <-. simpl. now rewrite (Hkeep r r1 Hs Ha).
    + injection H as <- <-. simpl. rewrite Hs. now apply (IH rest k).
Qed.

(** X5.  After a successful [update_file_metadata_by_path] whose
    mapping names each column once and does not name file_path,
    [get_file_metadata_by_path] returns the row it returned before, with
    the same file_id, the named columns holding the bound values and every
    other column as it was. *)
Theorem X5_update_then_get_by_path (path : string) (m : metadata) (db : database) :
  List.NoDup (map key m) ->
  unnamed m (Col.text_ Col.file_path) ->
  fst (update_file_metadata_by_path path m db) = true ->
  exists r r',
    get_file_metadata_by_path path db = Some r
    /\ get_file_metadata_by_path path (snd (update_file_metadata_by_path path m db))
       = Some r'
    /\ file_id r' = file_id r
    /\ (forall f, In f m -> cell (key f) r' = stored f)
    /\ (forall c, unnamed m c -> cell c r' = cell c r).
Proof.
  intros Hnd Hun. unfold update_file_metadata_by_path, get_file_metadata_by_path.
  destruct m as [|f m]; [discriminate|].
  destruct (update_rows (has_path path) (f :: m) (files_metadata db))
    as [[rows' n]|] eqn:Hu; [|discriminate].
  cbn [fst snd with_files files_metadata]. intros Hn.
  destruct (update_rows_spec _ _ _ _ _ Hu) as [-> _].
  apply Nat.ltb_lt, filter_length_pos in Hn as (x & Hx & Hp).
  assert (Hkeep : forall r r', has_path path r = true ->
                               assign_all (f :: m) r = Some r' ->
                               has_path path r' = true).
  { intros r r' Hr Ha. unfold has_path in *.
    pose proof (assign_all_unnamed _ _ _ _ Ha Hun) as Hc. cbn in Hc.
    injection Hc as ->. exact Hr. }
  rewrite (find_updated _ _ _ _ _ Hu Hkeep).
  destruct (find (has_path path) (files_metadata db)) as [r|] eqn:Hf.
  - apply find_some in Hf as [Hr Hrp].
    destruct (update_rows_spec _ _ _ _ _ Hu) as [_ Hall].
    assert (exists r', assign_all (f :: m) r = Some r') as [r' Ha].
    { clear -Hall Hr Hrp. induction Hall as [|a b l l' Hab Hl IH]; [destruct Hr|].
      destruct Hr as [->|Hr]; [|now apply IH]. rewrite Hrp in Hab. eauto. }
    exists r, r'. split; [reflexivity|]. split; [exact Ha|].
    split; [now apply assign_all_file_id in Ha|]. split.
    + intros g Hg. now apply (assign_all_named (f :: m) r).
    + intros c Hc. now apply (assign_all_unnamed (f :: m) r).
  - exfalso. apply (find_none _ _ Hf) in Hx. congruence.
Qed.

Lemma X5_update_then_get_by_path_witness :
  exists r',
    get_file_metadata_by_path "/docs/a.pdf"
      (snd (update_file_metadata_by_path "/docs/a.pdf"
              [TextField Col.revision (Some "B"); TextField Col.notes None]
              Examples.catalog)) = Some r'
    /\ cell (Col.text_ Col.revision) r' = Sqlite.Text_ "B"
    /\ cell (Col.text_ Col.notes) r' = Sqlite.Null.
Proof.
  destruct (X5_update_then_get_by_path "/docs/a.pdf"
              [TextField Col.revision (Some "B"); TextField Col.notes None]
              Examples.catalog) as (r & r' & _ & Hg & _ & Hnamed & _).
  - repeat constructor; simpl; intuition discriminate.
  - intros f [<-|[<-|[]]]; discriminate.
  - reflexivity.
  - exists r'. split; [exact Hg|]. split.
    + apply (Hnamed (TextField Col.revision (Some "B"))). now left.
    + apply (Hnamed (TextField Col.notes None)). right. now left.
Defined.

(** X6.  After [update_file_metadata] has returned True for a
    mapping that names each column once, [get_file_metadata] with the
    same id returns the row it returned before with the named columns
    holding the bound values and every other column, the file_id among
    them, as it was. *)
Theorem X6_update_then_get (id : Py.value) (m : metadata) (db : database) (r : file_row) :
  List.NoDup (map key m) ->
  get_file_metadata id db = Some r ->
  fst (update_file_metadata id m db) = true ->
  exists r',
    get_file_metadata id (snd (update_file_metadata id m db)) = Some r'
    /\ file_id r' = file_id r
    /\ (forall f, In f m -> cell (key f) r' = stored f)
    /\ (forall c, unnamed m c -> cell c r' = cell c r).
Proof.
  intros Hnd Hget. unfold update_file_metadata, get_file_metadata in *.
  destruct m as [|f m]; [discriminate|].
  destruct (update_rows (has_id id) (f :: m) (files_metadata db))
    as [[rows' n]|] eqn:Hu; [|discriminate].
  cbn [fst snd with_files files_metadata]. intros _.
  assert (Hkeep : forall x x', has_id id x = true ->
                               assign_all (f :: m) x = Some x' ->
                               has_id id x' = true).
  { intros x x' Hx Ha. unfold has_id in *. now rewrite (assign_all_file_id _ _ _ Ha). }
  rewrite (find_updated _ _ _ _ _ Hu Hkeep), Hget.
  apply find_some in Hget as [Hr Hsel].
  destruct (update_rows_spec _ _ _ _ _ Hu) as [_ Hall].
  assert (exists r', assign_all (f :: m) r = Some r') as [r' Ha].
  { clear -Hall Hr Hsel. induction Hall as [|a b l l' Hab Hl IH]; [destruct Hr|].
    destruct Hr as [->|Hr]; [|now apply IH]. rewrite Hsel in Hab. eauto. }
  exists r'. split; [exact Ha|].
  split; [now apply assign_all_file_id in Ha|]. split.
  - intros g Hg. now apply (assign_all_named (f :: m) r).
  - intros c Hc. now apply (assign_all_unnamed (f :: m) r).
Qed.

Lemma X6_update_then_get_witness :
  exists r',
    get_file_metadata (Py.Str "1")
      (snd (update_file_metadata (Py.Str "1") [TextField Col.revision (Some "C")]
              Examples.catalog)) = Some r'
    /\ cell (Col.text_ Col.revision) r' = Sqlite.Text_ "C"
    /\ cell (Col.text_ Col.department) r' = Sqlite.Text_ "Electrical".
Proof.
  destruct (X6_update_then_get (Py.Str "1") [TextField Col.revision (Some "C")]
              Examples.catalog Examples.tracked_row) as (r' & Hg & _ & Hnamed & Hrest).
  - repeat constructor. simpl. tauto.
  - reflexivity.
  - reflexivity.
  - exists r'. split; [exact Hg|]. split.
    + apply (Hnamed (TextField Col.revision (Some "C"))). now left.
    + rewrite (Hrest (Col.text_ Col.department)); [reflexivity|].
      intros f [<-|[]]. discriminate.
Defined.

(** X7.  Whenever one of the two update operations returns False,
    the database is as it was: nothing is half written. *)
Theorem X7_update_false_writes_nothing (id : Py.value) (path : string) (m : metadata)
    (db : database) :
  (fst (update_file_metadata id m db) = false -> snd (update_file_metadata id m db) = db)
  /\ (fst (update_file_metadata_by_path path m db) = false ->
      snd (update_file_metadata_by_path path m db) = db).
Proof.
  unfold update_file_metadata, update_file_metadata_by_path.
  destruct m as [|f m]; [split; reflexivity|]. split.
  - destruct (update_rows _ _ _) as [[rows' n]|]; [discriminate|reflexivity].
  - destruct (update_rows _ _ _) as [[rows' n]|] eqn:Hu; [|reflexivity].
    cbn [fst snd]. intros Hn. apply Nat.ltb_ge in Hn.
    assert (n = 0) as -> by lia.
    rewrite (update_rows_none_selected _ _ _ _ Hu). apply with_files_same.
Qed.

End StoreTheorems.

(** ** Ordering and selection *)

Section OrderByFilter.
Import DatabaseManager.
Context {A K : Type} (leb : K -> K -> bool) (key : A -> K).
Hypothesis leb_total : forall a b, leb a b = true \/ leb b a = true.
Hypothesis leb_trans : forall a b c, leb a b = true -> leb b c = true -> leb a c = true.

Lemma insert_desc_top x l :
  (forall z, In z l -> leb (key z) (key x) = true) -> insert_desc leb key x l = x :: l.
Proof.
  destruct l as [|y l]; simpl; [reflexivity|]. intros H.
  now rewrite (H y (or_introl eq_refl)).
Qed.

Lemma order_by_desc_strongly l : StronglySorted (descending leb key) (order_by_desc leb key l).
Proof.
  apply Sorted_StronglySorted; [|now apply order_by_desc_sorted].
  intros a b c Hab Hbc. unfold descending in *. eauto.
Qed.

Lemma filter_insert_desc (p : A -> bool) x l :
  StronglySorted (descending leb key) l ->
  List.filter p (insert_desc leb key x l)
  = if p x then insert_desc leb key x (List.filter p l) else List.filter p l.
Proof.
  induction 1 as [|y l Hs IH Hall]; simpl.
  - now destruct (p x).
  - destruct (leb (key y) (key x)) eqn:Hyx.
    + cbn [List.filter]. destruct (p x); [|reflexivity].
      symmetry. apply insert_desc_top. intros z Hz.
      assert (Hz' : In z (y :: l)).
      { destruct (p y); [destruct Hz as [->|Hz]|];
          [now left|right|right]; now apply filter_In in Hz. }
      destruct Hz' as [->|Hz']; [assumption|].
      rewrite List.Forall_forall in Hall. specialize (Hall z Hz').
      unfold descending in Hall. eauto.
    + cbn [List.filter]. rewrite IH. destruct (p y), (p x); try reflexivity.
      simpl. now rewrite Hyx.
Qed.

(** Selecting rows and ordering them can be done in either order. *)
Lemma order_by_desc_filter (p : A -> bool) l :
  order_by_desc leb key (List.filter p l) = List.filter p (order_by_desc leb key l).
Proof.
  induction l as [|x l IH]; simpl; [reflexivity|].
  rewrite filter_insert_desc by apply order_by_desc_strongly.
  destruct (p x); simpl; now rewrite IH.
Qed.

(** A row whose key is strictly above every other key comes first. *)
Lemma order_by_desc_head x l :
  In x l -> (forall y, In y l -> y = x \/ leb (key x) (key y) = false) ->
  exists rest, order_by_desc leb key l = x :: rest.
Proof.
  assert (Hle : forall y, y = x \/ leb (key x) (key y) = false -> leb (key y) (key x) = true).
  { intros y [->|Hy]; [|destruct (leb_total (key x) (key y)); congruence].
    now destruct (leb_total (key x) (key x)). }
  induction l as [|a l IH]; simpl; [tauto|]. intros Hx Hall.
  destruct (Hall a (or_introl eq_refl)) as [->|Ha].
  - eexists. apply insert_desc_top. intros z Hz. apply Hle, Hall. right.
    now apply (Permutation_in _ (order_by_desc_perm leb key l)).
  - destruct Hx as [->|Hx].
    + eexists. apply insert_desc_top. intros z Hz. apply Hle, Hall. right.
      now apply (Permutation_in _ (order_by_desc_perm leb key l)).
    + destruct (IH Hx) as [rest ->]; [intros y Hy; apply Hall; now right|].
      simpl. rewrite Ha. eauto.
Qed.

End OrderByFilter.

Lemma sqlite_leb_trans (a b c : option string) :
  Sqlite.leb a b = true -> Sqlite.leb b c = true -> Sqlite.leb a c = true.
Proof.
  destruct a, b, c; simpl; try congruence. apply string_leb_trans.
Qed.

(** ** search_files: the criteria as a conjunction *)

Section SearchTheorems.
Import DatabaseManager.

Lemma forallb_perm {A} (f : A -> bool) l l' :
  Permutation l l' -> forallb f l = forallb f l'.
Proof.
  induction 1; simpl; try congruence.
  now destruct (f x), (f y).
Qed.

Lemma where_clauses_app c1 c2 : where_clauses (c1 ++ c2) = where_clauses c1 ++ where_clauses c2.
Proof. apply flat_map_app. Qed.

Lemma where_clauses_perm c1 c2 :
  Permutation c1 c2 -> Permutation (where_clauses c1) (where_clauses c2).
Proof.
  unfold where_clauses. induction 1; simpl.
  - reflexivity.
  - now apply Permutation_app_head.
  - rewrite !app_assoc. apply Permutation_app_tail, Permutation_app_comm.
  - etransitivity; eassumption.
Qed.

(** X8.  The result of [search_files], order included, does not
    depend on the order in which the criteria are given. *)
Theorem X8_search_criteria_order (date : Sqlite.value -> option string)
    (criteria criteria' : list (Col.t * Py.value)) (db : database) :
  Permutation criteria criteria' ->
  search_files date criteria db = search_files date criteria' db.
Proof.
  intros Hp. unfold search_files. f_equal. apply filter_ext. intros r.
  apply forallb_perm. now apply where_clauses_perm.
Qed.

Lemma X8_search_criteria_order_witness :
  search_files Examples.date
    [(Col.text_ Col.file_type, Py.Str "pdf"); (Col.text_ Col.department, Py.Str "elec")]
    Examples.catalog
  = search_files Examples.date
      [(Col.text_ Col.department, Py.Str "elec"); (Col.text_ Col.file_type, Py.Str "pdf")]
      Examples.catalog.
Proof. apply X8_search_criteria_order. apply perm_swap. Defined.

(** X9.  Searching with more criteria gives the rows of the search
    with the first criteria that also meet the further ones, in the same
    order: criteria are joined by AND and never widen a result. *)
Theorem X9_search_more_criteria (date : Sqlite.value -> option string)
    (criteria more : list (Col.t * Py.value)) (db : database) :
  search_files date (criteria ++ more) db
  = List.filter (fun r => forallb (holds date r) (where_clauses more))
      (search_files date criteria db).
Proof.
  unfold search_files.
  rewrite <- (order_by_desc_filter Sqlite.leb last_modified sqlite_leb_total sqlite_leb_trans).
  f_equal. rewrite where_clauses_app.
  induction (files_metadata db) as [|r rows IH]; simpl; [reflexivity|].
  rewrite forallb_app.
  destruct (forallb (holds date r) (where_clauses criteria)); simpl;
    destruct (forallb (holds date r) (where_clauses more)); simpl; now rewrite IH.
Qed.

(** X10.  A criterion with a falsy value (None, the empty string,
    0), and a date criterion holding the placeholder text, has no effect
    on the result, wherever it stands among the criteria. *)
Theorem X10_search_blank_criterion (date : Sqlite.value -> option string)
    (before after : list (Col.t * Py.value)) (k : Col.t) (v : Py.value) (db : database) :
  Py.truthy v = false \/ (Col.is_date_field k = true /\ v = Py.Str "YYYY-MM-DD") ->
  search_files date (before ++ (k, v) :: after) db = search_files date (before ++ after) db.
Proof.
  intros H. unfold search_files.
  assert (E : clause_of (k, v) = []).
  { unfold clause_of. destruct H as [->|[-> ->]]; [reflexivity|].
    destruct (negb _); reflexivity. }
  rewrite !where_clauses_app.
  change (where_clauses ((k, v) :: after)) with (clause_of (k, v) ++ where_clauses after).
  now rewrite E.
Qed.

Lemma X10_search_blank_criterion_witness :
  search_files Examples.date
    [(Col.text_ Col.file_type, Py.Str "pdf"); (Col.time_ Col.created_date, Py.Str "YYYY-MM-DD")]
    Examples.catalog
  = search_files Examples.date [(Col.text_ Col.file_type, Py.Str "pdf")] Examples.catalog.
Proof.
  apply (X10_search_blank_criterion Examples.date [(Col.text_ Col.file_type, Py.Str "pdf")] []).
  right. split; reflexivity.
Defined.

End SearchTheorems.

(** ** The recent-folder list *)

Section RecentTheorems.
Import DatabaseManager RecentSpec.

(** X11.  [remove_recent_folder] returns True whether or not the
    folder was listed; afterwards the listing is the previous full
    listing without the rows of that path, cut to the limit, and the
    file table is untouched. *)
Theorem X11_remove_then_list (path : string) (n : Z) (db : database) :
  fst (remove_recent_folder path db) = true
  /\ get_recent_folders n (snd (remove_recent_folder path db))
     = limit n (List.filter (fun r => negb (String.eqb (folder_path r) path))
                  (get_recent_folders (-1) db))
  /\ (forall r, In r (get_recent_folders n (snd (remove_recent_folder path db))) ->
                folder_path r <> path)
  /\ files_metadata (snd (remove_recent_folder path db)) = files_metadata db.
Proof.
  assert (E : get_recent_folders n (snd (remove_recent_folder path db))
              = limit n (List.filter (fun r => negb (String.eqb (folder_path r) path))
                           (get_recent_folders (-1) db))).
  { unfold get_recent_folders, remove_recent_folder. cbn [snd with_folders recent_folders].
    rewrite (order_by_desc_filter String.leb last_accessed string_leb_total string_leb_trans).
    reflexivity. }
  split; [reflexivity|]. split; [exact E|]. split; [|reflexivity].
  intros r Hr. rewrite E in Hr. apply limit_In, filter_In in Hr as [_ Hr].
  intros Heq. apply String.eqb_eq in Heq. rewrite Heq in Hr. discriminate.
Qed.

Lemma upsert_split id path now (rows : list folder_row) :
  NoDup (map folder_path rows) ->
  exists r0,
    folder_path r0 = path /\ last_accessed r0 = now
    /\ In r0 (upsert id path now rows)
    /\ forall x, In x (upsert id path now rows) ->
                 x = r0 \/ (In x rows /\ folder_path x <> path).
Proof.
  induction rows as [|r rows IH]; simpl; intros Hnd.
  - exists {| folder_id := id; folder_path := path; last_accessed := now |}.
    split; [reflexivity|]. split; [reflexivity|]. split; [now left|].
    intros x [<-|[]]. now left.
  - apply NoDup_cons in Hnd as [Hr Hnd]. rewrite list_elem_of_In in Hr.
    destruct (String.eqb_spec (folder_path r) path) as [E|E].
    + exists {| folder_id := folder_id r; folder_path := folder_path r;
                last_accessed := now |}.
      split; [exact E|]. split; [reflexivity|]. split; [now left|].
      intros x [<-|Hx]; [now left|]. right. split; [now right|].
      intros Hp. apply Hr. rewrite E, <- Hp. now apply in_map.
    + destruct (IH Hnd) as (r0 & Hp & Hn & Hin & Hall).
      exists r0. split; [exact Hp|]. split; [exact Hn|]. split; [now right|].
      intros x [<-|Hx]; [right; split; [now left|assumption]|].
      destruct (Hall x Hx) as [->|[? ?]]; [now left|right; split; [now right|assumption]].
Qed.

Lemma limit_head {A} (n : Z) (x : A) (l : list A) :
  n <> 0%Z -> exists rest, limit n (x :: l) = x :: rest.
Proof.
  intros Hn. unfold limit. destruct (n <? 0)%Z eqn:E; [eauto|].
  apply Z.ltb_ge in E. destruct (Z.to_nat n) as [|k] eqn:Ek; [lia|]. simpl. eauto.
Qed.

(** X12.  When the clock reads later than the access time of every
    other listed folder, the folder given to [add_recent_folder] is the
    first of the listing afterwards, with the clock's time. *)
Theorem X12_touched_folder_first (now path : string) (n : Z) (db : database) :
  unique_paths db ->
  (forall r, In r (recent_folders db) -> folder_path r <> path ->
             String.leb now (last_accessed r) = false) ->
  n <> 0%Z ->
  exists r rest,
    get_recent_folders n (snd (add_recent_folder now path db)) = r :: rest
    /\ folder_path r = path /\ last_accessed r = now.
Proof.
  intros Hu Hlate Hn. unfold get_recent_folders, add_recent_folder.
  cbn [snd with_folders recent_folders].
  set (id := next_rowid _ _).
  destruct (upsert_split id path now (recent_folders db) Hu) as (r0 & Hp & Ht & Hin & Hall).
  set (U := upsert id path now (recent_folders db)) in *.
  assert (Hstrict : forall y, In y U ->
                              y = r0 \/ String.leb (last_accessed r0) (last_accessed y) = false).
  { intros y Hy. destruct (Hall y Hy) as [->|[Hy1 Hy2]]; [now left|right].
    rewrite Ht. now apply Hlate. }
  destruct (order_by_desc_head String.leb last_accessed string_leb_total r0 U Hin Hstrict)
    as [t Ho].
  assert (Hkeep : In r0 (trim U)).
  { unfold trim, five_most_recent. rewrite Ho. apply filter_In. split; [exact Hin|].
    apply mem_In. destruct (limit_head 5 r0 t) as [t' ->]; [lia|]. now left. }
  destruct (order_by_desc_head String.leb last_accessed string_leb_total r0 (trim U) Hkeep)
    as [t' Ho'].
  { intros y Hy. apply Hstrict. unfold trim in Hy. now apply filter_In in Hy. }
  rewrite Ho'. destruct (limit_head n r0 t' Hn) as [rest ->]. eauto.
Qed.

Lemma X12_touched_folder_first_witness :
  exists r rest,
    get_recent_folders 3 (snd (add_recent_folder "2024-01-01 00:00:06" "/c"
                                 Examples.five_folders)) = r :: rest
    /\ folder_path r = "/c" /\ last_accessed r = "2024-01-01 00:00:06".
Proof.
  apply X12_touched_folder_first.
  - unfold unique_paths. apply NoDup_ListNoDup. vm_compute.
    repeat constructor; simpl; intuition discriminate.
  - intros r Hr _. vm_compute in Hr.
    repeat (destruct Hr as [<-|Hr]; [reflexivity|]). destruct Hr.
  - discriminate.
Defined.

End RecentTheorems.

(** ** The cap on the recent-folder table *)

Section RecentCap.
Import DatabaseManager RecentSpec.









End RecentCap.

(** ** Paths *)

Section PathFacts.

Lemma rfind_app (c : ascii) (a b : string) :
  Text.rfind c (a +:+ b)
  = match Text.rfind c b with
    | Some i => Some (String.length a + i)
    | None => Text.rfind c a
    end.
Proof.
  induction a as [|d a IH]; [rewrite sapp_nil_l; now destruct (Text.rfind c b)|].
  rewrite sapp_cons. cbn [Text.rfind]. rewrite IH.
  now destruct (Text.rfind c b).
Qed.

Lemma rfind_absent (c : ascii) (s : string) :
  Text.all (fun x => negb (Ascii.eqb x c)) s = true -> Text.rfind c s = None.
Proof.
  induction s as [|d s IH]; [reflexivity|]. cbn [Text.all Text.rfind].
  intros H. apply andb_true_iff in H as [Hd Hs]. rewrite (IH Hs).
  apply negb_true_iff in Hd. now rewrite Ascii.eqb_sym, Hd.
Qed.

Lemma rfind_split (c : ascii) (s : string) : forall i,
  Text.rfind c s = Some i ->
  s = Text.take i s +:+ String c (Text.drop (S i) s)
  /\ Text.rfind c (Text.drop (S i) s) = None
  /\ String.length (Text.take i s) = i.
Proof.
  induction s as [|d s IH]; intros i; [discriminate|]. cbn [Text.rfind].
  destruct (Text.rfind c s) as [j|] eqn:E.
  - intros [= <-]. destruct (IH j eq_refl) as (H1 & H2 & H3).
    change (Text.drop (S (S j)) (String d s)) with (Text.drop (S j) s).
    change (Text.take (S j) (String d s)) with (String d (Text.take j s)).
    rewrite sapp_cons, <- H1.
    repeat split; [assumption|]. simpl. now rewrite H3.
  - destruct (Ascii.eqb_spec c d) as [->|_]; [|discriminate].
    intros [= <-]. change (Text.drop 1 (String d s)) with s.
    change (Text.take 0 (String d s)) with EmptyString. now rewrite sapp_nil_l.
Qed.

Lemma sdrop_app (a b : string) (k : nat) :
  Text.drop (String.length a + k) (a +:+ b) = Text.drop k b.
Proof. induction a as [|d a IH]; [reflexivity|]. rewrite sapp_cons. exact IH. Qed.

Lemma rfind_last (c : ascii) (s : string) :
  Text.ends_with_char c s = true -> Text.rfind c s = Some (String.length s - 1).
Proof.
  induction s as [|d s IH]; [discriminate|]. destruct s as [|e s].
  - cbn [Text.ends_with_char Text.rfind]. now intros ->.
  - intros H. change (Text.ends_with_char c (String e s) = true) in H.
    cbn [Text.rfind] in *. rewrite (IH H). f_equal. simpl. lia.
Qed.

Lemma valid_name_slashless (n : string) :
  Os.valid_name n = true ->
  Text.rfind "/" n = None /\ Text.starts_with_char "/" n = false /\ n <> "".
Proof.
  unfold Os.valid_name. intros H. apply andb_true_iff in H as [Hne Hall].
  split; [now apply rfind_absent|].
  destruct n as [|c n]; [discriminate|]. split; [|discriminate].
  change (negb (Ascii.eqb c "/") && Text.all (fun c => negb (Ascii.eqb c "/")) n = true)
    in Hall.
  apply andb_true_iff in Hall as [Hc _]. apply negb_true_iff in Hc.
  change (Text.starts_with_char "/" (String c n)) with (Ascii.eqb "/" c).
  now rewrite Ascii.eqb_sym.
Qed.

(** The path of an entry, by the directory's ending. *)
Lemma join_valid (root n : string) :
  Os.valid_name n = true ->
  PosixPath.join root n
  = if String.eqb root "" || Text.ends_with_char "/" root then root +:+ n
    else root +:+ "/" +:+ n.
Proof.
  intros H. destruct (valid_name_slashless n H) as (_ & Hs & _).
  unfold PosixPath.join. now rewrite Hs.
Qed.

(** [os.path.basename] gives back the name [os.path.join] has put
    behind a directory. *)
Lemma basename_join (root n : string) :
  Os.valid_name n = true -> PosixPath.basename (PosixPath.join root n) = n.
Proof.
  intros H. rewrite (join_valid root n H).
  destruct (valid_name_slashless n H) as (Hr & _ & _).
  unfold PosixPath.basename.
  destruct (String.eqb_spec root "") as [->|Hroot]; cbn [orb].
  - rewrite sapp_nil_l, Hr. reflexivity.
  - destruct (Text.ends_with_char "/" root) eqn:He.
    + rewrite rfind_app, Hr, (rfind_last _ _ He).
      assert (Hl : 0 < String.length root) by (destruct root; [congruence|simpl; lia]).
      replace (S (String.length root - 1)) with (String.length root + 0) by lia.
      apply sdrop_app.
    + rewrite rfind_app.
      change (Text.rfind "/" ("/" +:+ n))
        with (match Text.rfind "/" n with
              | Some i => Some (S i)
              | None => Some 0
              end).
      rewrite Hr.
      replace (S (String.length root + 0)) with (String.length root + 1) by lia.
      apply (sdrop_app root ("/" +:+ n) 1).
Qed.

(** The extension of a path is the extension of its last component. *)
Lemma splitext_basename (p : string) :
  PosixPath.splitext_ext (PosixPath.basename p) = PosixPath.splitext_ext p.
Proof.
  unfold PosixPath.basename.
  destruct (Text.rfind "/" p) as [i|] eqn:E; [|reflexivity].
  destruct (rfind_split _ _ _ E) as (Hp & Hb & Hl).
  set (pre := Text.take i p) in *. set (b := Text.drop (S i) p) in *.
  assert (Hdot : Text.rfind "." p
                 = match Text.rfind "." b with
                   | Some j => Some (i + S j)
                   | None => Text.rfind "." pre
                   end).
  { rewrite Hp at 1. rewrite rfind_app, Hl.
    change (Text.rfind "." (String "/" b))
      with (match Text.rfind "." b with
            | Some j => Some (S j)
            | None => None
            end).
    now destruct (Text.rfind "." b). }
  unfold PosixPath.splitext_ext. rewrite E, Hb, Hdot. fold b.
  destruct (Text.rfind "." b) as [j|] eqn:Ej.
  - replace (S i <=? i + S j) with true by (symmetry; apply Nat.leb_le; lia).
    cbn [Nat.leb]. replace (i + S j - S i) with j by lia. rewrite Nat.sub_0_r.
    change (Text.drop 0 b) with b.
    replace (Text.drop (i + S j) p) with (Text.drop j b); [reflexivity|].
    rewrite Hp at 1. rewrite <- Hl. rewrite sdrop_app. reflexivity.
  - destruct (Text.rfind "." pre) as [d|] eqn:Ed; [|reflexivity].
    destruct (rfind_split _ _ _ Ed) as (Hpre & _ & Hd).
    assert (d < i).
    { rewrite <- Hl. rewrite Hpre, slength_app, Hd. simpl. lia. }
    replace (S i <=? d) with false by (symmetry; apply Nat.leb_gt; lia). reflexivity.
Qed.

End PathFacts.

(** ** The rows a scan files *)

Section ScanRows.
Import DatabaseManager FileScanner ScanSpec StoreSpec CatalogSpec.

Lemma tracked_existsb db p :
  existsb (has_path p) (files_metadata db) = true <-> tracked db p.
Proof.
  unfold tracked, has_path. rewrite existsb_exists.
  split; intros (r & Hr & Hp); exists r; (split; [assumption|]); now apply String.eqb_eq.
Qed.

(** *** What sqlite3 can bind *)

Lemma encode_error_cases (s : string) : forall i,
  (Sqlite.encodable s = true /\ Sqlite.encode_error i s = None)
  \/ (Sqlite.encodable s = false /\ exists e, Sqlite.encode_error i s = Some e).
Proof.
  unfold Sqlite.encodable.
  induction s as [|c s IH]; intros i; [left; split; reflexivity|].
  cbn [Text.all Sqlite.encode_error]. destruct (Sqlite.surrogate c).
  - right. split; [reflexivity|]. eauto.
  - cbn [negb andb]. apply IH.
Qed.

Lemma encodable_join (root name : string) :
  Os.valid_name name = true ->
  Sqlite.encodable (PosixPath.join root name)
  = Sqlite.encodable root && Sqlite.encodable name.
Proof.
  intros Hn. rewrite (join_valid root name Hn). unfold Sqlite.encodable.
  destruct (_ || _); rewrite !sall_app; [reflexivity|].
  cbn [Text.all]. now rewrite andb_true_r.
Qed.

Lemma get_encodable (table : list (string * string)) (key default : string) :
  forallb (fun kv => Sqlite.encodable (snd kv)) table = true ->
  Sqlite.encodable default = true ->
  Sqlite.encodable (Config.get table key default) = true.
Proof.
  intros Ht Hd. induction table as [|[k v] table IH]; [exact Hd|].
  cbn [forallb snd] in Ht. apply andb_true_iff in Ht as [Hv Ht].
  cbn [Config.get]. destruct (String.eqb k key); [exact Hv|now apply IH].
Qed.

Lemma file_type_encodable (extension : string) :
  Sqlite.encodable (Config.get Config.FILE_TYPES extension "OTHER") = true.
Proof. apply get_encodable; vm_compute; reflexivity. Qed.

(** The mapping read of a listed file binds exactly when the path and
    the source do: the name is part of the path, and the file types
    are plain. *)
Lemma bind_extracted (fs : Os.filesystem) root name file_stat m :
  Os.valid_name name = true ->
  _extract_metadata (Os.drive fs) (PosixPath.join root name) (Py.Ok file_stat) = Py.Ok m ->
  bind_error m = None
  <-> Sqlite.encodable (PosixPath.join root name)
      && Sqlite.encodable (source_of fs (PosixPath.join root name)) = true.
Proof.
  intros Hn Hm. unfold _extract_metadata in Hm. cbv zeta in Hm.
  apply (f_equal (fun r => match r with Py.Ok x => x | Py.Raise _ => [] end)) in Hm.
  cbv beta iota in Hm. subst m.
  rewrite (basename_join root name Hn). cbn [bind_error].
  fold (source_of fs (PosixPath.join root name)).
  pose proof (encodable_join root name Hn) as Hj.
  destruct (encode_error_cases (PosixPath.join root name) 0) as [[E1 ->]|[E1 [e1 ->]]];
    rewrite E1 in *; [|split; discriminate].
  symmetry in Hj. apply andb_true_iff in Hj as [_ Hname].
  destruct (encode_error_cases name 0) as [[_ ->]|[E2 _]]; [|congruence].
  destruct (encode_error_cases (source_of fs (PosixPath.join root name)) 0)
    as [[E3 ->]|[E3 [e3 ->]]]; rewrite E3; [|split; discriminate].
  destruct (encode_error_cases
              (Config.get Config.FILE_TYPES (Text.lower (PosixPath.splitext_ext name))
                 "OTHER") 0) as [[_ ->]|[E4 _]]; [split; reflexivity|].
  rewrite file_type_encodable in E4. discriminate.
Qed.

(** The insert of what [_extract_metadata] reads of a listed file. *)
Lemma add_extracted (fs : Os.filesystem) now db root name file_stat :
  Os.valid_name name = true ->
  exists m,
    _extract_metadata (Os.drive fs) (PosixPath.join root name) (Py.Ok file_stat) = Py.Ok m
    /\ add_file_metadata now m db
       = (Some (next_rowid (files_metadata_seq db) (map file_id (files_metadata db))),
          {| files_metadata :=
               files_metadata db
               ++ [scanned_row fs
                     (next_rowid (files_metadata_seq db) (map file_id (files_metadata db)))
                     (root, (name, Py.Ok file_stat)) file_stat];
             files_metadata_seq :=
               next_rowid (files_metadata_seq db) (map file_id (files_metadata db));
             recent_folders := recent_folders db;
             recent_folders_seq := recent_folders_seq db |}).
Proof.
  intros Hn. eexists. split; [reflexivity|].
  unfold scanned_row, source_of, Utilities.get_file_type, item_path. cbn [fst snd].
  rewrite <- (splitext_basename (PosixPath.join root name)).
  rewrite (basename_join root name Hn). reflexivity.
Qed.

Section Walk.
Variables (date : Sqlite.value -> option string) (now folder_path : string) (db0 : database).
Variable fs : Os.filesystem.

Lemma process_file_row (p : progress) (item : string * (string * Py.result Os.stat_result)) :
  under folder_path (item_path item) ->
  Os.valid_name (fst (snd item)) = true ->
  db_manager (self (process_file now (Os.drive fs) (_get_existing_files date folder_path db0)
                      (fst item) p (snd item)))
  = if new_file fs db0 item
    then snd (add_file_metadata now
                match _extract_metadata (Os.drive fs) (item_path item) (snd (snd item)) with
                | Py.Ok m => m
                | Py.Raise _ => []
                end (db_manager (self p)))
    else db_manager (self p).
Proof.
  intros Hu Hn. destruct item as [root [name st]]. cbn [fst snd] in *.
  unfold new_file. cbn [fst snd].
  destruct (branch_of_snapshot (Os.drive fs) date folder_path db0
              (item_path (root, (name, st))) st)
    as [[e He]|(file_stat & metadata & Hst & Hex & Hnone & Hbind & Hb)].
  - unfold item_path in He. cbn [fst snd] in He.
    rewrite (process_file_raised now _ _ root p (name, st) e He). cbn [self db_manager log].
    destruct st as [file_stat|e']; [|reflexivity].
    destruct (existsb _ _) eqn:Ht; [reflexivity|]. cbn [negb andb].
    destruct (Sqlite.encodable _ && Sqlite.encodable _) eqn:Henc; [|reflexivity].
    exfalso.
    unfold branch in He. unfold item_path in *. cbn [fst snd] in *.
    destruct (extract_ok (Os.drive fs) (PosixPath.join root name) file_stat)
      as (m & Hm & Hg & _).
    rewrite Hm in He.
    destruct (_get_existing_files date folder_path db0 !! PosixPath.join root name)
      as [v|] eqn:Hv.
    + assert (Htr : tracked db0 (PosixPath.join root name)).
      { apply (snapshot_tracked date folder_path). apply elem_of_dom. eauto. }
      apply tracked_existsb in Htr. unfold item_path in Htr. cbn [fst snd] in Htr.
      congruence.
    + apply (bind_extracted fs root name file_stat m Hn Hm) in Henc.
      rewrite Henc in He. discriminate.
  - subst st. unfold item_path in *. cbn [fst snd] in *.
    rewrite (process_file_insert now _ _ root p (name, Py.Ok file_stat) metadata Hb).
    cbn [self db_manager log processed]. rewrite Hex.
    apply (bind_extracted fs root name file_stat metadata Hn Hex) in Hbind.
    rewrite <- andb_assoc, Hbind, andb_true_r.
    destruct (existsb _ _) eqn:Ht; [|reflexivity]. exfalso.
    apply tracked_existsb in Ht.
    apply (snapshot_covers date folder_path) in Ht; [|exact Hu].
    apply elem_of_dom in Ht as [v Hv]. congruence.
Qed.

Lemma process_files_rows items : forall p,
  (forall item, In item items ->
                under folder_path (item_path item)
                /\ Os.valid_name (fst (snd item)) = true) ->
  exists added,
    files_metadata (db_manager (self (process_files now (Os.drive fs)
                      (_get_existing_files date folder_path db0) items p)))
    = files_metadata (db_manager (self p)) ++ added
    /\ List.Forall2 (describes fs) (List.filter (new_file fs db0) items) added
    /\ recent_folders (db_manager (self (process_files now (Os.drive fs)
                         (_get_existing_files date folder_path db0) items p)))
       = recent_folders (db_manager (self p))
    /\ recent_folders_seq (db_manager (self (process_files now (Os.drive fs)
                             (_get_existing_files date folder_path db0) items p)))
       = recent_folders_seq (db_manager (self p)).
Proof.
  induction items as [|item items IH]; intros p Hitems.
  - exists []. cbn. rewrite List.app_nil_r. repeat split. constructor.
  - rewrite process_files_cons.
    destruct (Hitems item (or_introl eq_refl)) as [Hu Hn].
    pose proof (process_file_row p item Hu Hn) as Hstep.
    set (p' := process_file _ _ _ _ _ _) in *.
    destruct (IH p') as (added & Hfiles & Hrows & Hrf & Hseq).
    { intros i Hi. apply Hitems. now right. }
    cbn [List.filter]. destruct (new_file fs db0 item) eqn:Hnew.
    + destruct item as [root [name st]]. unfold new_file in Hnew. cbn [fst snd] in *.
      destruct st as [file_stat|e]; [|discriminate].
      destruct (add_extracted fs now (db_manager (self p)) root name file_stat Hn)
        as (m & Hm & Hadd).
      unfold item_path in Hstep. cbn [fst snd] in Hstep. rewrite Hm, Hadd in Hstep.
      cbn [snd] in Hstep. rewrite Hstep in *. cbn [files_metadata recent_folders
                                                    recent_folders_seq] in *.
      eexists (_ :: added). rewrite Hfiles, <- List.app_assoc. cbn [List.app].
      split; [reflexivity|]. split; [|split; assumption].
      constructor; [|exact Hrows]. exists file_stat. split; reflexivity.
    + rewrite Hstep in *. exists added. auto.
Qed.

End Walk.

Lemma discovered_valid fs folder_path item :
  well_named fs folder_path -> In item (discovered fs folder_path) ->
  Os.valid_name (fst (snd item)) = true.
Proof.
  unfold discovered, Os.walk, well_named. intros Hw Hin.
  apply in_flat_map in Hin as (triple & Ht & Hin).
  apply in_map_iff in Hin as (file & <- & Hf).
  destruct (Os.lookup fs folder_path) as [e|]; [|destruct Ht].
  destruct (walk_entry_under e folder_path triple (Hw e eq_refl) Ht) as [_ Hn].
  now apply Hn.
Qed.

Lemma scan_folder_store date now fs folder_path s :
  db_manager (snd (scan_folder date now fs folder_path s))
  = db_manager (self (walk_files now (_get_existing_files date folder_path (db_manager s))
                        fs folder_path s)).
Proof.
  destruct (Os.path_exists fs folder_path) eqn:H.
  - destruct (scan_folder_exists date now fs folder_path s H) as [tail ->]. reflexivity.
  - rewrite scan_folder_missing by assumption. cbn [snd db_manager].
    unfold walk_files, discovered, Os.walk. unfold Os.path_exists in H.
    destruct (Os.lookup fs folder_path); [discriminate|]. reflexivity.
Qed.

Lemma scan_folder_rows date now fs folder_path s :
  well_named fs folder_path ->
  exists added,
    files_metadata (db_manager (snd (scan_folder date now fs folder_path s)))
    = files_metadata (db_manager s) ++ added
    /\ List.Forall2 (describes fs)
         (List.filter (new_file fs (db_manager s)) (discovered fs folder_path)) added
    /\ recent_folders (db_manager (snd (scan_folder date now fs folder_path s)))
       = recent_folders (db_manager s)
    /\ recent_folders_seq (db_manager (snd (scan_folder date now fs folder_path s)))
       = recent_folders_seq (db_manager s).
Proof.
  intros Hw. rewrite scan_folder_store. unfold walk_files.
  apply (process_files_rows date now folder_path (db_manager s) fs).
  intros item Hi. split; [now apply (discovered_under fs)|].
  now apply (discovered_valid fs folder_path).
Qed.



(** The scan of /docs where the one listed file has a name sqlite3
    cannot encode: the insert raises UnicodeEncodeError, which is logged
    as any other error of the file, and no row is filed. *)
Example scan_misnamed_file :
  scan_folder Examples.date "2024-07-01 00:00:00" Examples.disk_misnamed "/docs"
    {| db_manager := DatabaseManager.empty; logger := [] |}
  = (true,
     {| db_manager := DatabaseManager.empty;
        logger :=
          [ (ERROR, "Error processing file /docs/" +:+ Examples.misnamed
                    +:+ ": 'utf-8' codec can't encode character '\udcff' in position 7: surrogates not allowed");
            (INFO, "Scan completed - Processed: 0, Removed: 0") ] |}).
Proof. vm_compute. reflexivity. Qed.

(** On a platform with drives the source column holds the drive. *)
Example source_is_the_drive :
  _extract_metadata (fun _ => "C:") "C:/docs/a.pdf" (Examples.stat_ok Examples.june)
  = Py.Ok [ TextField Col.file_path (Some "C:/docs/a.pdf");
            TextField Col.file_name (Some "a.pdf");
            TextField Col.source (Some "C:");
            TextField Col.file_type (Some "PDF");
            TimeField Col.last_modified (Some Examples.june);
            TimeField Col.created_date (Some Examples.june) ].
Proof. vm_compute. reflexivity. Qed.

End ScanRows.

(** ** What a scan reports, and what it keeps *)

Section ScanReports.
Import DatabaseManager FileScanner ScanSpec StoreSpec CatalogSpec.

Lemma removed_is_snapshot date now fs folder_path s :
  removed_files (_get_existing_files date folder_path (db_manager s))
    (walk_files now (_get_existing_files date folder_path (db_manager s)) fs folder_path s)
  = dom (_get_existing_files date folder_path (db_manager s)).
Proof.
  apply set_eq. intros p. rewrite walk_files_removed. split; [tauto|].
  intros Hp. split; [exact Hp|]. intros item _ _. now apply branch_in_snapshot.
Qed.

(** X14.  The set of removed files a scan arrives at is the whole
    snapshot: a scan of an existing folder logs the warning that the file
    no longer exists for every tracked path under the folder, whether the
    walk comes upon the file or not. *)
Theorem X14_scan_warns_of_every_tracked_file (date : Sqlite.value -> option string)
    (now : string) (fs : Os.filesystem) (folder_path : string) (s : scanner) (p : string) :
  Os.path_exists fs folder_path = true ->
  tracked (db_manager s) p ->
  under folder_path p ->
  removed_files (_get_existing_files date folder_path (db_manager s))
    (walk_files now (_get_existing_files date folder_path (db_manager s)) fs folder_path s)
  = dom (_get_existing_files date folder_path (db_manager s))
  /\ In (WARNING, "File no longer exists: " +:+ p)
       (logger (snd (scan_folder date now fs folder_path s))).
Proof.
  intros He Ht Hu. split; [apply removed_is_snapshot|].
  destruct (scan_folder_exists date now fs folder_path s He) as [tail ->].
  cbn [snd logger]. rewrite removed_is_snapshot.
  apply in_or_app. right. apply in_or_app. left.
  apply in_map_iff. exists p. split; [reflexivity|].
  apply list_elem_of_In, elem_of_elements. now apply snapshot_covers.
Qed.

Lemma X14_scan_warns_of_every_tracked_file_witness :
  on_disk Examples.disk "/docs" "/docs/a.pdf"
  /\ In (WARNING, "File no longer exists: /docs/a.pdf")
       (logger (snd (scan_folder Examples.date "2024-07-01 00:00:00" Examples.disk "/docs"
                       Examples.tracking))).
Proof.
  split.
  - exists ("/docs", ("a.pdf", Examples.stat_ok Examples.june)). split; [now left|reflexivity].
  - apply (X14_scan_warns_of_every_tracked_file Examples.date "2024-07-01 00:00:00"
             Examples.disk "/docs" Examples.tracking "/docs/a.pdf").
    + reflexivity.
    + exists Examples.tracked_row. split; [now left|reflexivity].
    + exists "/a.pdf". reflexivity.
Defined.

End ScanReports.

(** ** Primary keys *)

Section KeyFacts.
Import DatabaseManager FileScanner ScanSpec StoreSpec.

Lemma NoDup_map_filter {A B} (f : A -> B) (p : A -> bool) (l : list A) :
  List.NoDup (map f l) -> List.NoDup (map f (List.filter p l)).
Proof.
  induction l as [|x l IH]; simpl; intros H; [constructor|].
  inversion H as [|? ? Hx Hl]; subst. destruct (p x); simpl; [|now apply IH].
  constructor; [|now apply IH]. intros Hin. apply Hx.
  apply in_map_iff in Hin as (y & Hy & Hin). apply filter_In in Hin as [Hin _].
  rewrite <- Hy. now apply in_map.
Qed.

Lemma update_rows_ids selected m rows : forall rows' n,
  update_rows selected m rows = Some (rows', n) -> map file_id rows' = map file_id rows.
Proof.
  intros rows' n H. destruct (update_rows_spec _ _ _ _ _ H) as [_ Hall]. clear H.
  induction Hall as [|r r' l l' Hr _ IH]; [reflexivity|]. simpl. f_equal; [|exact IH].
  destruct (selected r); [now apply assign_all_file_id in Hr|now subst].
Qed.

Lemma keys_ok_files db rows seq :
  keys_ok db -> List.NoDup (map file_id rows) ->
  (forall i, In i (map file_id rows) -> (i <= seq)%Z) ->
  keys_ok {| files_metadata := rows; files_metadata_seq := seq;
             recent_folders := recent_folders db;
             recent_folders_seq := recent_folders_seq db |}.
Proof.
  intros (_ & _ & H3 & H4) Hnd Hle. repeat split; try assumption.
  intros r Hr. apply Hle. now apply in_map.
Qed.

Lemma keys_ok_folders db rows seq :
  keys_ok db -> List.NoDup (map folder_id rows) ->
  (forall i, In i (map folder_id rows) -> (i <= seq)%Z) ->
  keys_ok (with_folders db rows seq).
Proof.
  intros (H1 & H2 & _ & _) Hnd Hle. repeat split; try assumption.
  intros r Hr. apply Hle. now apply in_map.
Qed.

Lemma keys_ok_add now m db : keys_ok db -> keys_ok (snd (add_file_metadata now m db)).
Proof.
  intros Hk. unfold add_file_metadata. destruct m as [|f m]; [exact Hk|].
  set (id := next_rowid _ _).
  destruct (inserted_row now id (f :: m)) as [r|] eqn:Hr; [|exact Hk]. cbn [snd].
  assert (Hid : file_id r = id).
  { unfold inserted_row in Hr.
    destruct (lookup_text _ Col.file_path) as [[p|]|]; try discriminate.
    destruct (lookup_text _ Col.file_name) as [[n|]|]; try discriminate.
    now injection Hr as <-. }
  pose proof Hk as (H1 & H2 & _ & _).
  apply keys_ok_files; [assumption| |].
  - rewrite map_app. simpl. rewrite Hid.
    apply List.NoDup_app; repeat split; [assumption|repeat constructor; simpl; tauto|].
    intros i Hi [<-|[]]. pose proof (next_rowid_above (files_metadata_seq db) _ _ Hi).
    fold id in H. lia.
  - intros i Hi. rewrite map_app in Hi. apply in_app_or in Hi as [Hi|[<-|[]]].
    + pose proof (next_rowid_above (files_metadata_seq db) _ _ Hi). fold id in H. lia.
    + rewrite Hid. lia.
Qed.

Lemma keys_ok_with_files db rows :
  keys_ok db -> map file_id rows = map file_id (files_metadata db) ->
  keys_ok (with_files db rows).
Proof.
  intros (H1 & H2 & H3 & H4) E. unfold with_files.
  repeat split; cbn [files_metadata files_metadata_seq recent_folders recent_folders_seq];
    try assumption.
  - now rewrite E.
  - intros r Hr. apply (in_map file_id) in Hr. rewrite E in Hr.
    apply in_map_iff in Hr as (r0 & <- & Hr0). now apply H2.
Qed.

Lemma keys_ok_update id m db : keys_ok db -> keys_ok (snd (update_file_metadata id m db)).
Proof.
  intros Hk. unfold update_file_metadata. destruct m as [|f m]; [exact Hk|].
  destruct (update_rows _ _ _) as [[rows n]|] eqn:E; [|exact Hk]. cbn [snd].
  apply keys_ok_with_files; [exact Hk|]. eapply update_rows_ids; eassumption.
Qed.

Lemma keys_ok_update_by_path path m db :
  keys_ok db -> keys_ok (snd (update_file_metadata_by_path path m db)).
Proof.
  intros Hk. unfold update_file_metadata_by_path. destruct m as [|f m]; [exact Hk|].
  destruct (update_rows _ _ _) as [[rows n]|] eqn:E; [|exact Hk]. cbn [snd].
  apply keys_ok_with_files; [exact Hk|]. eapply update_rows_ids; eassumption.
Qed.

Lemma upsert_ids id path now rows :
  map folder_id (upsert id path now rows) = map folder_id rows
  \/ map folder_id (upsert id path now rows) = map folder_id rows ++ [id].
Proof.
  induction rows as [|r rows IH]; simpl; [now right|].
  destruct (String.eqb (folder_path r) path); simpl; [now left|].
  destruct IH as [->| ->]; [now left|now right].
Qed.

Lemma keys_ok_add_recent now path db :
  keys_ok db -> keys_ok (snd (add_recent_folder now path db)).
Proof.
  intros Hk. unfold add_recent_folder. cbn [snd]. set (id := next_rowid _ _).
  pose proof Hk as (_ & _ & H3 & H4).
  assert (Hold : forall i, In i (map folder_id (recent_folders db)) -> (i < id)%Z).
  { intros i Hi. now apply next_rowid_above. }
  apply keys_ok_folders; [exact Hk| |].
  - unfold trim. apply NoDup_map_filter.
    destruct (upsert_ids id path now (recent_folders db)) as [->| ->]; [assumption|].
    apply List.NoDup_app; repeat split; [assumption|repeat constructor; simpl; tauto|].
    intros i Hi [<-|[]]. specialize (Hold _ Hi). lia.
  - intros i Hi. unfold trim in Hi. apply in_map_iff in Hi as (r & <- & Hr).
    apply filter_In in Hr as [Hr _]. apply (in_map folder_id) in Hr.
    destruct (upsert_ids id path now (recent_folders db)) as [E|E]; rewrite E in Hr.
    + specialize (Hold _ Hr). lia.
    + apply in_app_or in Hr as [Hr|[<-|[]]]; [specialize (Hold _ Hr)|]; lia.
Qed.

Lemma keys_ok_remove_recent path db :
  keys_ok db -> keys_ok (snd (remove_recent_folder path db)).
Proof.
  intros Hk. unfold remove_recent_folder. cbn [snd].
  pose proof Hk as (_ & _ & H3 & H4).
  apply keys_ok_folders; [exact Hk|now apply NoDup_map_filter|].
  intros i Hi. apply in_map_iff in Hi as (r & <- & Hr).
  apply filter_In in Hr as [Hr _]. now apply H4.
Qed.

(** What every store call of the loop body keeps, the walk keeps. *)
Lemma process_files_keeps (I : database -> Prop) now drive existing_files items :
  (forall now m db, I db -> I (snd (add_file_metadata now m db))) ->
  (forall id m db, I db -> I (snd (update_file_metadata id m db))) ->
  forall p, I (db_manager (self p)) ->
            I (db_manager (self (process_files now drive existing_files items p))).
Proof.
  intros Hadd Hupd. induction items as [|item items IH]; intros p Hp; [exact Hp|].
  rewrite process_files_cons. apply IH. unfold process_file.
  destruct (branch _ _ _ _); cbn [self db_manager log processed]; auto.
Qed.

Lemma scan_folder_keeps (I : database -> Prop) date now fs folder_path s :
  (forall now m db, I db -> I (snd (add_file_metadata now m db))) ->
  (forall id m db, I db -> I (snd (update_file_metadata id m db))) ->
  I (db_manager s) -> I (db_manager (snd (scan_folder date now fs folder_path s))).
Proof.
  intros Hadd Hupd Hs. rewrite scan_folder_store. unfold walk_files.
  now apply process_files_keeps.
Qed.

(** X15.  The primary keys are an invariant of the store: every
    writing operation of the store, and a scan, leave the rowids of both
    tables distinct and not above the AUTOINCREMENT counters. *)
Theorem X15_keys_stay_distinct (date : Sqlite.value -> option string) (now path : string)
    (id : Py.value) (m : metadata) (fs : Os.filesystem) (s : scanner) :
  keys_ok (db_manager s) ->
  keys_ok (snd (add_file_metadata now m (db_manager s)))
  /\ keys_ok (snd (update_file_metadata id m (db_manager s)))
  /\ keys_ok (snd (update_file_metadata_by_path path m (db_manager s)))
  /\ keys_ok (snd (add_recent_folder now path (db_manager s)))
  /\ keys_ok (snd (remove_recent_folder path (db_manager s)))
  /\ keys_ok (db_manager (snd (scan_folder date now fs path s))).
Proof.
  intros Hk.
  split; [now apply keys_ok_add|].
  split; [now apply keys_ok_update|].
  split; [now apply keys_ok_update_by_path|].
  split; [now apply keys_ok_add_recent|].
  split; [now apply keys_ok_remove_recent|].
  apply scan_folder_keeps; auto using keys_ok_add, keys_ok_update.
Qed.

Lemma X15_keys_stay_distinct_witness :
  keys_ok Examples.catalog
  /\ keys_ok (db_manager (snd (scan_folder Examples.date "2024-07-01 00:00:00"
                                 Examples.disk "/docs" Examples.tracking))).
Proof.
  assert (Hk : keys_ok Examples.catalog).
  { repeat split; simpl.
    - repeat constructor. simpl. tauto.
    - intros r [<-|[]]. simpl. lia.
    - constructor.
    - intros r []. }
  split; [exact Hk|].
  apply (X15_keys_stay_distinct Examples.date "2024-07-01 00:00:00" "/docs" (Py.Int 1) []
           Examples.disk Examples.tracking Hk).
Defined.

End KeyFacts.

(** ** One row for a path *)

Section UniquePaths.
Import DatabaseManager FileScanner ScanSpec StoreSpec CatalogSpec.

Lemma sapp_inv_head (a x y : string) : a +:+ x = a +:+ y -> x = y.
Proof.
  induction a as [|c a IH]; [now rewrite !sapp_nil_l|].
  rewrite !sapp_cons. intros [= H]. now apply IH.
Qed.

Lemma slashless_head (a b x y : string) :
  Text.all (fun c => negb (Ascii.eqb c "/")) a = true ->
  Text.all (fun c => negb (Ascii.eqb c "/")) b = true ->
  a +:+ String "/" x = b +:+ String "/" y -> a = b.
Proof.
  revert b. induction a as [|c a IH]; intros [|d b] Ha Hb; rewrite ?sapp_nil_l, ?sapp_cons.
  - reflexivity.
  - intros [= <- _]. cbn [Text.all] in Hb. apply andb_true_iff in Hb as [Hb _].
    now rewrite Ascii.eqb_refl in Hb.
  - intros [= -> _]. cbn [Text.all] in Ha. apply andb_true_iff in Ha as [Ha _].
    now rewrite Ascii.eqb_refl in Ha.
  - intros [= <- H]. cbn [Text.all] in Ha, Hb.
    apply andb_true_iff in Ha as [_ Ha]. apply andb_true_iff in Hb as [_ Hb].
    f_equal. now apply IH.
Qed.

Lemma valid_name_all (n : string) :
  Os.valid_name n = true -> Text.all (fun c => negb (Ascii.eqb c "/")) n = true.
Proof. unfold Os.valid_name. intros H. now apply andb_true_iff in H. Qed.

Lemma ends_with_app (c : ascii) (a n : string) :
  n <> "" -> Text.ends_with_char c (a +:+ n) = Text.ends_with_char c n.
Proof.
  intros Hn. induction a as [|d a IH]; [now rewrite sapp_nil_l|].
  rewrite sapp_cons. destruct (a +:+ n) as [|e r] eqn:E.
  - destruct a; [rewrite sapp_nil_l in E; congruence|rewrite sapp_cons in E; discriminate].
  - exact IH.
Qed.

Lemma slashless_end (n : string) :
  Text.all (fun c => negb (Ascii.eqb c "/")) n = true -> Text.ends_with_char "/" n = false.
Proof.
  induction n as [|c n IH]; [reflexivity|]. cbn [Text.all]. intros H.
  apply andb_true_iff in H as [Hc Hn]. apply negb_true_iff in Hc.
  destruct n as [|d n]; [cbn [Text.ends_with_char]; now rewrite Ascii.eqb_sym|].
  now apply IH.
Qed.

Lemma join_prefix (top n : string) :
  Os.valid_name n = true -> PosixPath.join top n = dir_prefix top +:+ n.
Proof.
  intros H. rewrite (join_valid top n H). unfold dir_prefix.
  destruct (_ || _); [reflexivity|]. now rewrite sapp_assoc.
Qed.

Lemma dir_prefix_join (top n : string) :
  Os.valid_name n = true ->
  dir_prefix (PosixPath.join top n) = dir_prefix top +:+ n +:+ "/".
Proof.
  intros H. rewrite (join_prefix top n H).
  destruct (valid_name_slashless n H) as (_ & _ & Hne).
  unfold dir_prefix at 1.
  rewrite (ends_with_app "/" _ n Hne), (slashless_end n (valid_name_all n H)).
  replace (String.eqb (dir_prefix top +:+ n) "") with false.
  - cbn [orb]. now rewrite sapp_assoc.
  - symmetry. apply String.eqb_neq. intros E.
    apply (f_equal String.length) in E. rewrite slength_app in E.
    destruct n; [congruence|]. simpl in E. lia.
Qed.

Lemma walk_paths_directory top children :
  walk_paths top (Os.Directory children)
  = map (fun file => PosixPath.join top (fst file)) (Os.files_of children)
    ++ flat_map (fun c => walk_paths (PosixPath.join top (fst c)) (snd c)) children.
Proof.
  unfold walk_paths. cbn [Os.walk_entry flat_map]. rewrite map_app, map_map.
  cbn [fst snd]. f_equal.
  induction children as [|c children IH]; [reflexivity|].
  cbn [flat_map]. rewrite flat_map_app, map_app. f_equal. exact IH.
Qed.

Lemma walk_paths_shape e : forall top p,
  Os.valid_names e = true -> In p (walk_paths top e) ->
  exists rel, p = dir_prefix top +:+ rel.
Proof.
  induction e as [st|children IH] using Os.entry_induction; intros top p Hv Hp.
  - destruct Hp.
  - rewrite walk_paths_directory in Hp. apply in_app_or in Hp as [Hp|Hp].
    + apply in_map_iff in Hp as ([name st] & <- & Hf). cbn [fst].
      destruct (files_of_In _ _ _ Hf) as (c & Hc & <-).
      destruct (valid_names_children _ _ Hv Hc) as [Hn _].
      exists (fst c). now apply join_prefix.
    + apply in_flat_map in Hp as (c & Hc & Hp).
      destruct (valid_names_children _ _ Hv Hc) as [Hn Hv'].
      rewrite List.Forall_forall in IH.
      destruct (IH c Hc _ _ Hv' Hp) as [rel ->].
      rewrite (dir_prefix_join top _ Hn). exists (fst c +:+ "/" +:+ rel).
      now rewrite !sapp_assoc.
Qed.

Lemma files_of_names children :
  List.NoDup (map fst children) -> List.NoDup (map fst (Os.files_of children)).
Proof.
  induction children as [|c children IH]; simpl; intros H; [constructor|].
  inversion H as [|? ? Hc Hl]; subst.
  destruct (snd c); simpl; [|now apply IH].
  constructor; [|now apply IH]. intros Hin. apply Hc.
  apply in_map_iff in Hin as ([n st'] & <- & Hin).
  destruct (files_of_In _ _ _ Hin) as (c' & Hc' & <-). cbn [fst].
  now apply (in_map fst).
Qed.

Lemma distinct_names_children children c :
  distinct_names (Os.Directory children) -> In c children -> distinct_names (snd c).
Proof.
  simpl. intros [_ H]. induction children as [|x children IH]; intros []; subst.
  - tauto.
  - apply IH; tauto.
Qed.

(** The walk of a tree whose directories list no name twice comes upon
    no path twice. *)
Lemma walk_paths_distinct e : forall top,
  Os.valid_names e = true -> distinct_names e -> List.NoDup (walk_paths top e).
Proof.
  induction e as [st|children IH] using Os.entry_induction; intros top Hv Hd.
  - constructor.
  - rewrite walk_paths_directory. rewrite List.Forall_forall in IH.
    assert (Hnames : List.NoDup (map fst children)) by (destruct Hd; assumption).
    apply List.NoDup_app; repeat split.
    + rewrite <- (map_map fst (PosixPath.join top)).
      apply List.NoDup_map_NoDup_ForallPairs; [|now apply files_of_names].
      intros a b Ha Hb E.
      apply in_map_iff in Ha as ([na sa] & <- & Ha). apply in_map_iff in Hb as ([nb sb] & <- & Hb).
      destruct (files_of_In _ _ _ Ha) as (ca & Hca & Ea).
      destruct (files_of_In _ _ _ Hb) as (cb & Hcb & Eb).
      cbn [fst] in *. subst na nb.
      destruct (valid_names_children _ _ Hv Hca) as [Hna _].
      destruct (valid_names_children _ _ Hv Hcb) as [Hnb _].
      rewrite (join_prefix top _ Hna), (join_prefix top _ Hnb) in E.
      now apply sapp_inv_head in E.
    + assert (Hsub : forall c, In c children ->
                               Os.valid_name (fst c) = true /\ Os.valid_names (snd c) = true
                               /\ distinct_names (snd c)).
      { intros c Hc. destruct (valid_names_children _ _ Hv Hc). repeat split; try assumption.
        now apply (distinct_names_children children). }
      clear Hv Hd. induction children as [|c children IHc]; [constructor|].
      cbn [flat_map]. inversion Hnames as [|? ? Hc Hrest]; subst.
      destruct (Hsub c (or_introl eq_refl)) as (Hn & Hv & Hd).
      apply List.NoDup_app; repeat split.
      * apply IH; [now left|assumption|assumption].
      * apply IHc; [intros; apply IH; now try right|assumption|].
        intros c' Hc'. apply Hsub. now right.
      * intros p Hp Hq. apply in_flat_map in Hq as (c' & Hc' & Hq).
        destruct (Hsub c' (or_intror Hc')) as (Hn' & Hv' & _).
        destruct (walk_paths_shape _ _ _ Hv Hp) as [rel E].
        destruct (walk_paths_shape _ _ _ Hv' Hq) as [rel' E'].
        rewrite (dir_prefix_join top _ Hn) in E. rewrite (dir_prefix_join top _ Hn') in E'.
        rewrite E, !sapp_assoc in E'. apply sapp_inv_head in E'.
        change ("/" +:+ rel) with (String "/" rel) in E'.
        change ("/" +:+ rel') with (String "/" rel') in E'.
        apply slashless_head in E'; [|now apply valid_name_all..].
        apply Hc. rewrite E'. now apply in_map.
    + intros p Hp Hq.
      apply in_map_iff in Hp as ([name st] & <- & Hf). cbn [fst] in *.
      destruct (files_of_In _ _ _ Hf) as (cf & Hcf & <-).
      destruct (valid_names_children _ _ Hv Hcf) as [Hnf _].
      apply in_flat_map in Hq as (c & Hc & Hq).
      destruct (valid_names_children _ _ Hv Hc) as [Hn Hv'].
      destruct (walk_paths_shape _ _ _ Hv' Hq) as [rel E].
      rewrite (dir_prefix_join top _ Hn), (join_prefix top _ Hnf), !sapp_assoc in E.
      apply sapp_inv_head in E.
      apply valid_name_all in Hnf. rewrite E, sall_app in Hnf.
      apply andb_true_iff in Hnf as [_ Hnf].
      change ("/" +:+ rel) with (String "/" rel) in Hnf. cbn [Text.all] in Hnf.
      now rewrite Ascii.eqb_refl in Hnf.
Qed.

Lemma discovered_distinct fs folder_path :
  well_named fs folder_path -> distinctly_named fs folder_path ->
  List.NoDup (map item_path (discovered fs folder_path)).
Proof.
  unfold well_named, distinctly_named, discovered, Os.walk. intros Hw Hd.
  destruct (Os.lookup fs folder_path) as [e|]; [|constructor].
  apply (walk_paths_distinct e folder_path); auto.
Qed.

Lemma describes_paths fs items added :
  List.Forall2 (describes fs) items added -> map file_path added = map item_path items.
Proof.
  induction 1 as [|item r items added (file_stat & _ & Hr) _ IH]; [reflexivity|].
  simpl. f_equal; [|exact IH]. now rewrite Hr.
Qed.

(** X16.  The file table has no UNIQUE constraint on file_path, yet
    on a disk whose directories list no name twice a scan keeps the paths
    of the catalog distinct: it never files a second row for a path. *)
Theorem X16_scan_keeps_paths_unique (date : Sqlite.value -> option string) (now : string)
    (fs : Os.filesystem) (folder_path : string) (s : scanner) :
  well_named fs folder_path ->
  distinctly_named fs folder_path ->
  unique_files (db_manager s) ->
  unique_files (db_manager (snd (scan_folder date now fs folder_path s))).
Proof.
  intros Hw Hd Hu. unfold unique_files in *.
  destruct (scan_folder_rows date now fs folder_path s Hw) as (added & -> & Hrows & _).
  rewrite map_app, (describes_paths _ _ _ Hrows).
  apply List.NoDup_app; repeat split.
  - exact Hu.
  - apply NoDup_map_filter. now apply discovered_distinct.
  - intros p Hp Hq. apply in_map_iff in Hq as (item & <- & Hi).
    apply filter_In in Hi as [_ Hnew]. unfold new_file in Hnew.
    destruct (snd (snd item)); [|discriminate].
    apply andb_true_iff in Hnew as [Hnew _]. apply andb_true_iff in Hnew as [Hnew _].
    apply negb_true_iff in Hnew.
    apply in_map_iff in Hp as (r & Hr & Hin).
    assert (Ht : tracked (db_manager s) (item_path item)) by (exists r; auto).
    apply tracked_existsb in Ht. congruence.
Qed.

Lemma X16_scan_keeps_paths_unique_witness :
  unique_files (db_manager (snd (scan_folder Examples.date "2024-07-01 00:00:00"
                                   Examples.disk "/docs" Examples.tracking))).
Proof.
  apply X16_scan_keeps_paths_unique.
  - intros e He. vm_compute in He. injection He as <-. reflexivity.
  - intros e He. vm_compute in He. injection He as <-. simpl.
    repeat split; repeat constructor; simpl; intuition discriminate.
  - repeat constructor. simpl. tauto.
Defined.

End UniquePaths.

(** ** Counting by key *)

Section CountFacts.
Context {K : Type} `{Countable K} {A : Type} (key : A -> K).

(** The loop [counts[k] = counts.get(k, 0) + 1]. *)
Lemma count_fold (l : list A) : forall (m0 : gmap K nat) (k : K),
  default 0 (fold_left (fun (m : gmap K nat) x =>
                          <[key x := default 0 (m !! key x) + 1]> m) l m0 !! k)
  = default 0 (m0 !! k) + List.length (List.filter (fun x => bool_decide (key x = k)) l).
Proof.
  induction l as [|x l IH]; intros m0 k; simpl; [lia|].
  rewrite IH. destruct (decide (key x = k)) as [E|E].
  - rewrite (bool_decide_eq_true_2 _ E). subst k. rewrite lookup_insert_eq. simpl. lia.
  - rewrite (bool_decide_eq_false_2 _ E). rewrite lookup_insert_ne by assumption. reflexivity.
Qed.

Lemma count_fold_keys (l : list A) : forall (m0 : gmap K nat) (k : K),
  is_Some (fold_left (fun (m : gmap K nat) x =>
                        <[key x := default 0 (m !! key x) + 1]> m) l m0 !! k)
  <-> is_Some (m0 !! k) \/ exists x, In x l /\ key x = k.
Proof.
  induction l as [|x l IH]; intros m0 k; simpl.
  - split; [tauto|]. intros [?|(x & [] & _)]. assumption.
  - rewrite IH. destruct (decide (key x = k)) as [E|E].
    + subst k. rewrite lookup_insert_eq. split; [|intros _; left; eauto].
      intros _. right. eauto.
    + rewrite lookup_insert_ne by assumption.
      split; (intros [?|(y & Hy & Hk)]; [now left|right]).
      * eauto.
      * destruct Hy as [->|Hy]; [congruence|eauto].
Qed.

End CountFacts.

Section SummaryTheorems.
Import DatabaseManager Summary Utilities.

(** X17.  In the summary of a folder the total is the number of
    rows the search for the folder path finds; tagged and untagged files
    add up to the total; the count under a key of type_counts is the
    number of found rows with that file_type cell, NULL being counted
    under None and not under 'OTHER'; and a key is present exactly when
    some found row has it. *)
Theorem X17_scan_summary_counts (date : Sqlite.value -> option string) (folder_path : string)
    (db : database) :
  total_files (get_scan_summary date folder_path db)
  = List.length (search_files date [(Col.text_ Col.file_path, Py.Str folder_path)] db)
  /\ tagged_files (get_scan_summary date folder_path db)
     + untagged_files (get_scan_summary date folder_path db)
     = total_files (get_scan_summary date folder_path db)
  /\ (forall k,
        default 0 (type_counts (get_scan_summary date folder_path db) !! k)
        = List.length
            (List.filter (fun r => bool_decide (file_type r = k))
               (search_files date [(Col.text_ Col.file_path, Py.Str folder_path)] db)))
  /\ (forall k,
        is_Some (type_counts (get_scan_summary date folder_path db) !! k)
        <-> exists r,
              In r (search_files date [(Col.text_ Col.file_path, Py.Str folder_path)] db)
              /\ file_type r = k).
Proof.
  unfold get_scan_summary. cbn [total_files tagged_files untagged_files type_counts].
  set (results := search_files _ _ _).
  split; [reflexivity|]. split; [|split].
  - pose proof (List.filter_length_le tagged results). lia.
  - intros k. rewrite (count_fold file_type results ∅ k). now rewrite lookup_empty.
  - intros k. rewrite (count_fold_keys file_type results ∅ k). rewrite lookup_empty.
    split; [intros [[? [=]]|?]; assumption|now right].
Qed.

(** X18.  [calculate_file_stats] gives the number of paths as the
    total; under each type it gives the number of paths [get_file_type]
    maps to that type, and it has a key for a type exactly when some path
    has it. *)
Theorem X18_file_stats_counts (file_paths : list string) :
  total (calculate_file_stats file_paths) = List.length file_paths
  /\ (forall t,
        default 0 (by_type (calculate_file_stats file_paths) !! t)
        = List.length (List.filter (fun p => bool_decide (get_file_type p = t)) file_paths))
  /\ (forall t,
        is_Some (by_type (calculate_file_stats file_paths) !! t)
        <-> exists p, In p file_paths /\ get_file_type p = t).
Proof.
  unfold calculate_file_stats. cbn [total by_type]. split; [reflexivity|]. split.
  - intros t. rewrite (count_fold get_file_type file_paths ∅ t). now rewrite lookup_empty.
  - intros t. rewrite (count_fold_keys get_file_type file_paths ∅ t). rewrite lookup_empty.
    split; [intros [[? [=]]|?]; assumption|now right].
Qed.

End SummaryTheorems.

(** ** str methods *)

Section StrFacts.
Import NameSpec.

Lemma replace_absent (a b : ascii) (s : string) : absent a s -> PyStr.replace a b s = s.
Proof.
  unfold absent. induction s as [|c s IH]; [reflexivity|]. cbn [Text.all PyStr.replace].
  intros H. apply andb_true_iff in H as [Hc Hs]. apply negb_true_iff in Hc.
  now rewrite Hc, (IH Hs).
Qed.

Lemma replace_clears (a b : ascii) (s : string) : a <> b -> absent a (PyStr.replace a b s).
Proof.
  unfold absent. intros Hab. induction s as [|c s IH]; [reflexivity|].
  cbn [Text.all PyStr.replace]. rewrite IH, andb_true_r.
  destruct (Ascii.eqb_spec c a) as [->|Hc]; apply negb_true_iff, Ascii.eqb_neq; congruence.
Qed.

Lemma replace_keeps (c a b : ascii) (s : string) :
  b <> c -> absent c s -> absent c (PyStr.replace a b s).
Proof.
  unfold absent. intros Hb. induction s as [|d s IH]; [reflexivity|].
  cbn [Text.all PyStr.replace]. intros H. apply andb_true_iff in H as [Hd Hs].
  rewrite (IH Hs), andb_true_r. destruct (Ascii.eqb d a); [|assumption].
  now apply negb_true_iff, Ascii.eqb_neq.
Qed.

Lemma lstrip_all (p : ascii -> bool) (s : string) :
  Text.all p s = true -> Text.all p (PyStr.lstrip s) = true.
Proof.
  induction s as [|c s IH]; [reflexivity|]. cbn [PyStr.lstrip].
  destruct (Text.is_space c); [|tauto]. cbn [Text.all]. intros H.
  apply andb_true_iff in H as [_ H]. now apply IH.
Qed.

Lemma rstrip_all (p : ascii -> bool) (s : string) :
  Text.all p s = true -> Text.all p (PyStr.rstrip s) = true.
Proof.
  induction s as [|c s IH]; [reflexivity|]. cbn [Text.all PyStr.rstrip]. intros H.
  apply andb_true_iff in H as [Hc Hs]. specialize (IH Hs).
  destruct (PyStr.rstrip s) as [|d r].
  - destruct (Text.is_space c); [reflexivity|]. cbn [Text.all]. now rewrite Hc.
  - change (Text.all p (String c (String d r))) with (p c && Text.all p (String d r)).
    now rewrite Hc, IH.
Qed.

Lemma lstrip_length (s : string) : String.length (PyStr.lstrip s) <= String.length s.
Proof.
  induction s as [|c s IH]; [reflexivity|]. cbn [PyStr.lstrip].
  destruct (Text.is_space c); simpl; lia.
Qed.

Lemma rstrip_length (s : string) : String.length (PyStr.rstrip s) <= String.length s.
Proof.
  induction s as [|c s IH]; [reflexivity|]. cbn [PyStr.rstrip].
  destruct (PyStr.rstrip s) as [|d r]; [destruct (Text.is_space c)|]; simpl in *; lia.
Qed.

Lemma replace_length (a b : ascii) (s : string) :
  String.length (PyStr.replace a b s) = String.length s.
Proof. induction s as [|c s IH]; [reflexivity|]. simpl. now rewrite IH. Qed.

(** [lstrip] leaves a text alone exactly when it does not begin with
    white space. *)
Lemma lstrip_fixed (s : string) :
  PyStr.lstrip s = s
  <-> forall c, Text.is_space c = true -> Text.starts_with_char c s = false.
Proof.
  destruct s as [|d s]; [split; reflexivity|]. cbn [PyStr.lstrip Text.starts_with_char].
  destruct (Text.is_space d) eqn:Hd.
  - split.
    + intros E. apply (f_equal String.length) in E.
      pose proof (lstrip_length s). simpl in E. lia.
    + intros H. specialize (H d Hd). now rewrite Ascii.eqb_refl in H.
  - split; [|reflexivity]. intros _ c Hc. apply Ascii.eqb_neq. congruence.
Qed.

Lemma rstrip_fixed (s : string) :
  PyStr.rstrip s = s
  <-> forall c, Text.is_space c = true -> Text.ends_with_char c s = false.
Proof.
  induction s as [|d s IH]; [split; reflexivity|]. cbn [PyStr.rstrip].
  destruct s as [|e s].
  - cbn [PyStr.rstrip Text.ends_with_char]. destruct (Text.is_space d) eqn:Hd.
    + split; [discriminate|]. intros H. specialize (H d Hd).
      now rewrite Ascii.eqb_refl in H.
    + split; [|reflexivity]. intros _ c Hc. apply Ascii.eqb_neq. congruence.
  - change (forall c, Text.is_space c = true ->
                      Text.ends_with_char c (String d (String e s)) = false)
      with (forall c, Text.is_space c = true ->
                      Text.ends_with_char c (String e s) = false).
    rewrite <- IH. destruct (PyStr.rstrip (String e s)) as [|x r] eqn:E.
    + split; [destruct (Text.is_space d); discriminate|discriminate].
    + split; [now intros [= -> ->]|now intros ->].
Qed.

Lemma lstrip_idem (s : string) : PyStr.lstrip (PyStr.lstrip s) = PyStr.lstrip s.
Proof.
  induction s as [|c s IH]; [reflexivity|]. cbn [PyStr.lstrip].
  destruct (Text.is_space c) eqn:Hc; [exact IH|]. cbn [PyStr.lstrip]. now rewrite Hc.
Qed.

Lemma rstrip_cons (c : ascii) (s : string) :
  PyStr.rstrip (String c s)
  = match PyStr.rstrip s with
    | EmptyString => if Text.is_space c then EmptyString else String c EmptyString
    | String d r => String c (String d r)
    end.
Proof. reflexivity. Qed.

Lemma rstrip_idem (s : string) : PyStr.rstrip (PyStr.rstrip s) = PyStr.rstrip s.
Proof.
  induction s as [|c s IH]; [reflexivity|]. rewrite rstrip_cons.
  destruct (PyStr.rstrip s) as [|d r] eqn:E.
  - destruct (Text.is_space c) eqn:Hc; [reflexivity|].
    rewrite rstrip_cons. cbn [PyStr.rstrip]. now rewrite Hc.
  - rewrite rstrip_cons, IH. reflexivity.
Qed.

Lemma strip_commute (s : string) :
  PyStr.rstrip (PyStr.lstrip s) = PyStr.lstrip (PyStr.rstrip s).
Proof.
  induction s as [|c s IH]; [reflexivity|]. rewrite rstrip_cons. cbn [PyStr.lstrip].
  destruct (Text.is_space c) eqn:Hc.
  - rewrite IH. destruct (PyStr.rstrip s) as [|d r]; [reflexivity|].
    cbn [PyStr.lstrip]. now rewrite Hc.
  - rewrite rstrip_cons.
    destruct (PyStr.rstrip s) as [|d r]; rewrite ?Hc; cbn [PyStr.lstrip]; now rewrite Hc.
Qed.

Lemma strip_idem (s : string) : PyStr.strip (PyStr.strip s) = PyStr.strip s.
Proof.
  unfold PyStr.strip.
  now rewrite (strip_commute (PyStr.rstrip s)), rstrip_idem, lstrip_idem.
Qed.

Lemma strip_fixed (s : string) : PyStr.strip s = s <-> trimmed s.
Proof.
  unfold PyStr.strip, trimmed. split.
  - intros E.
    assert (El : PyStr.lstrip s = s) by (rewrite <- E; apply lstrip_idem).
    assert (Er : PyStr.rstrip s = s).
    { rewrite <- E. now rewrite (strip_commute (PyStr.rstrip s)), rstrip_idem. }
    intros c Hc. split; [now apply lstrip_fixed|now apply rstrip_fixed].
  - intros H.
    assert (Er : PyStr.rstrip s = s) by (apply rstrip_fixed; intros c Hc; now apply H).
    rewrite Er. apply lstrip_fixed. intros c Hc. now apply H.
Qed.

Lemma strip_length (s : string) : String.length (PyStr.strip s) <= String.length s.
Proof.
  unfold PyStr.strip. pose proof (lstrip_length (PyStr.rstrip s)).
  pose proof (rstrip_length s). lia.
Qed.

Lemma strip_spaces (s : string) : Text.all Text.is_space s = true -> PyStr.strip s = "".
Proof.
  intros H. unfold PyStr.strip.
  assert (E : PyStr.rstrip s = "").
  { induction s as [|c s IH]; [reflexivity|]. cbn [Text.all] in H.
    apply andb_true_iff in H as [Hc Hs]. rewrite rstrip_cons, (IH Hs). now rewrite Hc. }
  now rewrite E.
Qed.

End StrFacts.

(** ** sanitize_filename *)

Section SanitizeTheorems.
Import NameSpec Utilities.

Lemma underscore_valid : ~ In "_"%char invalid_chars.
Proof. vm_compute. intuition discriminate. Qed.

Lemma replaced_keeps (c : ascii) (chars : list ascii) : forall s,
  c <> "_"%char -> absent c s ->
  absent c (fold_left (fun name char => PyStr.replace char "_" name) chars s).
Proof.
  induction chars as [|a chars IH]; intros s Hc Hs; [exact Hs|]. simpl.
  apply IH; [assumption|]. apply replace_keeps; [congruence|assumption].
Qed.

Lemma replaced_clears (chars : list ascii) : forall s c,
  ~ In "_"%char chars -> In c chars ->
  absent c (fold_left (fun name char => PyStr.replace char "_" name) chars s).
Proof.
  induction chars as [|a chars IH]; intros s c Hu Hc; [destruct Hc|]. simpl.
  destruct (Ascii.eqb_spec a c) as [->|Hac].
  - apply replaced_keeps; [intros ->; apply Hu; now left|].
    apply replace_clears. intros ->. apply Hu. now left.
  - destruct Hc as [->|Hc]; [congruence|]. apply IH; [|assumption].
    intros H. apply Hu. now right.
Qed.

Lemma replaced_fixed (chars : list ascii) : forall s,
  (forall c, In c chars -> absent c s) ->
  fold_left (fun name char => PyStr.replace char "_" name) chars s = s.
Proof.
  induction chars as [|a chars IH]; intros s H; [reflexivity|]. simpl.
  rewrite (replace_absent a "_" s) by (apply H; now left).
  apply IH. intros c Hc. apply H. now right.
Qed.

Lemma replaced_length (chars : list ascii) : forall s,
  String.length (fold_left (fun name char => PyStr.replace char "_" name) chars s)
  = String.length s.
Proof.
  induction chars as [|a chars IH]; intros s; [reflexivity|]. simpl.
  now rewrite IH, replace_length.
Qed.

Lemma sanitize_is_clean (filename : string) : clean (sanitize_filename filename).
Proof.
  unfold clean, sanitize_filename. split.
  - intros c Hc. unfold absent, PyStr.strip. apply lstrip_all, rstrip_all.
    apply replaced_clears; [apply underscore_valid|assumption].
  - apply strip_fixed, strip_idem.
Qed.

Lemma sanitize_of_clean (filename : string) :
  clean filename -> sanitize_filename filename = filename.
Proof.
  intros [Ha Ht]. unfold sanitize_filename.
  rewrite (replaced_fixed _ _ Ha). now apply strip_fixed.
Qed.

(** X19.  The name [sanitize_filename] returns holds none of the
    nine invalid characters, neither begins nor ends with white space,
    and is not longer than the name given. *)
Theorem X19_sanitized_name_is_clean (filename : string) :
  (forall c, In c invalid_chars -> absent c (sanitize_filename filename))
  /\ trimmed (sanitize_filename filename)
  /\ String.length (sanitize_filename filename) <= String.length filename.
Proof.
  destruct (sanitize_is_clean filename) as [Ha Ht]. split; [exact Ha|]. split; [exact Ht|].
  unfold sanitize_filename.
  pose proof (strip_length (fold_left (fun name char => PyStr.replace char "_" name)
                              invalid_chars filename)) as H.
  now rewrite replaced_length in H.
Qed.

(** X20.  [sanitize_filename] returns a name as it is exactly when
    the name is clean, so that sanitizing twice is sanitizing once. *)
Theorem X20_sanitize_fixes_clean_names (filename : string) :
  (sanitize_filename filename = filename <-> clean filename)
  /\ sanitize_filename (sanitize_filename filename) = sanitize_filename filename.
Proof.
  split.
  - split; [|apply sanitize_of_clean]. intros <-. apply sanitize_is_clean.
  - apply sanitize_of_clean, sanitize_is_clean.
Qed.

End SanitizeTheorems.

(** ** validate_metadata *)

Section ValidateTheorems.
Import NameSpec Utilities.

Lemma validate_fold (metadata : gmap string Py.value) (fields : list string) :
  forall (cleaned : gmap string string) (field : string),
  fold_left
    (fun (cleaned : gmap string string) field =>
       match metadata !! field with
       | Some value =>
           if Py.truthy value then <[field := PyStr.strip (Py.str value)]> cleaned
           else cleaned
       | None => cleaned
       end) fields cleaned !! field
  = if bool_decide (field ∈ fields)
    then match metadata !! field with
         | Some value =>
             if Py.truthy value then Some (PyStr.strip (Py.str value))
             else cleaned !! field
         | None => cleaned !! field
         end
    else cleaned !! field.
Proof.
  induction fields as [|a fields IH]; intros cleaned field; [reflexivity|].
  cbn [fold_left]. rewrite IH. destruct (decide (field = a)) as [->|Hne].
  - rewrite (bool_decide_eq_true_2 (a ∈ a :: fields)) by (apply list_elem_of_here).
    destruct (metadata !! a) as [value|]; [|now destruct (bool_decide _)].
    destruct (Py.truthy value); [|now destruct (bool_decide _)].
    rewrite lookup_insert_eq. now destruct (bool_decide _).
  - assert (E : (match metadata !! a with
                 | Some value =>
                     if Py.truthy value then <[a := PyStr.strip (Py.str value)]> cleaned
                     else cleaned
                 | None => cleaned
                 end) !! field = cleaned !! field).
    { destruct (metadata !! a) as [value|]; [|reflexivity].
      destruct (Py.truthy value); [|reflexivity]. now rewrite lookup_insert_ne. }
    rewrite E. destruct (decide (field ∈ fields)) as [Hin|Hin].
    + rewrite !bool_decide_eq_true_2; [reflexivity|now apply list_elem_of_further|assumption].
    + rewrite !bool_decide_eq_false_2; [reflexivity| |assumption].
      intros H. apply elem_of_cons in H as [?|?]; congruence.
Qed.

(** X21.  [validate_metadata] keeps the keys of METADATA_FIELDS that
    the mapping gives a truthy value, each with the text of the value
    stripped of white space at both ends, and nothing else.  A value made
    of white space only is truthy, so it is kept, as the empty text. *)
Theorem X21_validate_metadata_keeps (metadata : gmap string Py.value) :
  (forall field,
      validate_metadata metadata !! field
      = if bool_decide (field ∈ METADATA_FIELDS)
        then match metadata !! field with
             | Some value =>
                 if Py.truthy value then Some (PyStr.strip (Py.str value)) else None
             | None => None
             end
        else None)
  /\ (forall field text,
        validate_metadata metadata !! field = Some text ->
        field ∈ METADATA_FIELDS /\ is_Some (metadata !! field) /\ trimmed text)
  /\ (forall field s,
        field ∈ METADATA_FIELDS -> metadata !! field = Some (Py.Str s) ->
        s <> "" -> Text.all Text.is_space s = true ->
        validate_metadata metadata !! field = Some "").
Proof.
  assert (Hall : forall field,
             validate_metadata metadata !! field
             = if bool_decide (field ∈ METADATA_FIELDS)
               then match metadata !! field with
                    | Some value =>
                        if Py.truthy value then Some (PyStr.strip (Py.str value)) else None
                    | None => None
                    end
               else None).
  { intros field. unfold validate_metadata. rewrite validate_fold, lookup_empty.
    reflexivity. }
  split; [exact Hall|]. split.
  - intros field text. rewrite Hall.
    destruct (bool_decide_reflect (field ∈ METADATA_FIELDS)) as [Hin|_]; [|discriminate].
    destruct (metadata !! field) as [value|]; [|discriminate].
    destruct (Py.truthy value); [|discriminate]. intros [= <-].
    split; [assumption|]. split; [eauto|]. apply strip_fixed, strip_idem.
  - intros field s Hin Hs Hne Hsp. rewrite Hall, (bool_decide_eq_true_2 _ Hin), Hs.
    assert (Ht : Py.truthy (Py.Str s) = true) by (destruct s; [congruence|reflexivity]).
    rewrite Ht. cbn [Py.str]. now rewrite (strip_spaces s Hsp).
Qed.

End ValidateTheorems.

(** ** get_file_type *)

Section FileTypeTheorems.
Import Utilities.

Lemma rfind_map (f : ascii -> ascii) (c : ascii) (s : string) :
  (forall x, Ascii.eqb c (f x) = Ascii.eqb c x) ->
  Text.rfind c (Text.map f s) = Text.rfind c s.
Proof.
  intros Hf. induction s as [|d s IH]; [reflexivity|].
  cbn [Text.map Text.rfind]. now rewrite IH, Hf.
Qed.

Lemma drop_map (f : ascii -> ascii) (s : string) : forall i,
  Text.drop i (Text.map f s) = Text.map f (Text.drop i s).
Proof.
  induction s as [|d s IH]; intros [|i]; try reflexivity. cbn [Text.map].
  change (Text.drop (S i) (String (f d) (Text.map f s))) with (Text.drop i (Text.map f s)).
  change (Text.drop (S i) (String d s)) with (Text.drop i s). apply IH.
Qed.

Lemma take_map (f : ascii -> ascii) (s : string) : forall i,
  Text.take i (Text.map f s) = Text.map f (Text.take i s).
Proof.
  induction s as [|d s IH]; intros [|i]; try reflexivity. cbn [Text.map].
  change (Text.take (S i) (String (f d) (Text.map f s)))
    with (String (f d) (Text.take i (Text.map f s))).
  change (Text.take (S i) (String d s)) with (String d (Text.take i s)).
  cbn [Text.map]. now rewrite IH.
Qed.

Lemma all_map (p : ascii -> bool) (f : ascii -> ascii) (s : string) :
  (forall x, p (f x) = p x) -> Text.all p (Text.map f s) = Text.all p s.
Proof.
  intros Hf. induction s as [|d s IH]; [reflexivity|]. cbn [Text.map Text.all].
  now rewrite IH, Hf.
Qed.

(** Folding the case of a path folds the case of its extension. *)
Lemma splitext_map (f : ascii -> ascii) (p : string) :
  (forall x, Ascii.eqb "/" (f x) = Ascii.eqb "/" x) ->
  (forall x, Ascii.eqb "." (f x) = Ascii.eqb "." x) ->
  PosixPath.splitext_ext (Text.map f p) = Text.map f (PosixPath.splitext_ext p).
Proof.
  intros Hs Hd. unfold PosixPath.splitext_ext.
  rewrite (rfind_map f "/" p Hs), (rfind_map f "." p Hd).
  destruct (Text.rfind "." p) as [dot|]; [|reflexivity].
  destruct (_ <=? dot); [|reflexivity].
  rewrite drop_map, take_map, (all_map _ f _ Hd), drop_map.
  now destruct (Text.all _ _).
Qed.

Lemma upper_slash x : Ascii.eqb "/" (Text.to_upper x) = Ascii.eqb "/" x.
Proof. each_ascii x. Qed.

Lemma upper_dot x : Ascii.eqb "." (Text.to_upper x) = Ascii.eqb "." x.
Proof. each_ascii x. Qed.

Lemma lower_slash x : Ascii.eqb "/" (Text.to_lower x) = Ascii.eqb "/" x.
Proof. each_ascii x. Qed.

Lemma lower_dot x : Ascii.eqb "." (Text.to_lower x) = Ascii.eqb "." x.
Proof. each_ascii x. Qed.

Lemma to_lower_upper x : Text.to_lower (Text.to_upper x) = Text.to_lower x.
Proof. each_ascii x. Qed.

Lemma to_upper_lower x : Text.to_upper (Text.to_lower x) = Text.to_upper x.
Proof. each_ascii x. Qed.

Lemma to_upper_idem x : Text.to_upper (Text.to_upper x) = Text.to_upper x.
Proof. each_ascii x. Qed.

Lemma smap_map (f g h : ascii -> ascii) (s : string) :
  (forall x, f (g x) = h x) -> Text.map f (Text.map g s) = Text.map h s.
Proof.
  intros H. induction s as [|d s IH]; [reflexivity|]. cbn [Text.map]. now rewrite IH, H.
Qed.

Lemma get_in_table (table : list (string * string)) (key default : string) :
  Config.get table key default = default
  \/ In (key, Config.get table key default) table.
Proof.
  induction table as [|[k v] table IH]; [now left|]. cbn [Config.get].
  destruct (String.eqb_spec k key) as [->|_]; [right; now left|].
  destruct IH; [now left|right; now right].
Qed.

(** X22.  The type [get_file_type] gives depends on the extension
    of the last component alone and not on its case: it is the type of
    the path's base name, of the path in capitals and of the path in
    small letters; and it is 'OTHER' or the type FILE_TYPES lists for the
    extension in small letters. *)
Theorem X22_file_type_by_extension (file_path : string) :
  get_file_type (PosixPath.basename file_path) = get_file_type file_path
  /\ get_file_type (Text.upper file_path) = get_file_type file_path
  /\ get_file_type (Text.lower file_path) = get_file_type file_path
  /\ (get_file_type file_path = "OTHER"
      \/ In (Text.lower (PosixPath.splitext_ext file_path), get_file_type file_path)
           Config.FILE_TYPES).
Proof.
  unfold get_file_type. split; [now rewrite splitext_basename|]. split; [|split].
  - unfold Text.upper. rewrite (splitext_map _ _ upper_slash upper_dot).
    unfold Text.lower. now rewrite (smap_map _ _ _ _ to_lower_upper).
  - unfold Text.lower. rewrite (splitext_map _ _ lower_slash lower_dot).
    now rewrite (smap_map _ _ _ _ to_lower_idem).
  - apply get_in_table.
Qed.

End FileTypeTheorems.

(** ** parse_revision, further *)

Section RevisionTheorems.
Import Re Utils RevisionSpec.

Lemma sall_impl (p q : ascii -> bool) (s : string) :
  (forall c, p c = true -> q c = true) -> Text.all p s = true -> Text.all q s = true.
Proof.
  intros Hpq. induction s as [|c s IH]; [reflexivity|]. cbn [Text.all]. intros H.
  apply andb_true_iff in H as [Hc Hs]. now rewrite (Hpq c Hc), (IH Hs).
Qed.

Lemma sapp_nonempty (a b : string) : a <> "" -> a +:+ b <> "".
Proof. destruct a; [congruence|]. rewrite sapp_cons. discriminate. Qed.

(** X23.  A revision [parse_revision] returns is a piece of the
    name in capitals, not empty, made of capital letters, digits and
    dots; and the result does not depend on the case of the name. *)
Theorem X23_parse_revision_shape (filename : string) :
  (forall g,
      parse_revision filename = Some g ->
      g <> ""
      /\ Text.all (fun c => alnum_upper c || Ascii.eqb c ".") g = true
      /\ exists before after, Text.upper filename = before +:+ g +:+ after)
  /\ parse_revision (Text.upper filename) = parse_revision filename
  /\ parse_revision (Text.lower filename) = parse_revision filename.
Proof.
  split; [|split].
  - intros g. unfold parse_revision, patterns. simpl.
    set (text := Text.upper filename).
    assert (Hd : forall x, digits x ->
                           x <> "" /\ Text.all (fun c => alnum_upper c || Ascii.eqb c ".") x
                                      = true).
    { intros x [Hx Ha]. split; [assumption|]. revert Ha. apply sall_impl.
      intros c Hc. unfold alnum_upper. rewrite Hc. now rewrite orb_true_r. }
    destruct (search pattern_rev text) as [c1|] eqn:H1.
    { intros Hg.
      assert (Hin : rev_in text g).
      { apply found_rev. exists c1. split; [now apply search_sound|assumption]. }
      destruct Hin as (before & spaces & after & E & _ & Hne & Ha).
      split; [assumption|]. split.
      - revert Ha. apply sall_impl. intros c Hc. now rewrite Hc.
      - exists (before +:+ "REV" +:+ spaces), after. rewrite E. now rewrite !sapp_assoc. }
    destruct (search pattern_r text) as [c2|] eqn:H2.
    { intros Hg.
      assert (Hin : r_in text g).
      { apply found_r. exists c2. split; [now apply search_sound|assumption]. }
      destruct Hin as (before & after & E & Hdig).
      destruct (Hd g Hdig) as [Hne Ha]. split; [assumption|]. split; [assumption|].
      exists (before +:+ "R"), after. rewrite E. now rewrite !sapp_assoc. }
    destruct (search pattern_v text) as [c3|] eqn:H3; [|discriminate].
    intros Hg.
    assert (Hin : v_in text g).
    { apply found_v. exists c3. split; [now apply search_sound|assumption]. }
    destruct Hin as (before & after & E & Hshape).
    assert (Hg' : g <> "" /\ Text.all (fun c => alnum_upper c || Ascii.eqb c ".") g = true).
    { destruct Hshape as [Hdig|(a & b & -> & Hda & Hdb)]; [now apply Hd|].
      destruct (Hd a Hda) as [Hna Haa]. destruct (Hd b Hdb) as [_ Hab].
      split; [now apply sapp_nonempty|].
      rewrite !sall_app, Haa, Hab. reflexivity. }
    destruct Hg' as [Hne Ha]. split; [assumption|]. split; [assumption|].
    exists (before +:+ "V"), after. rewrite E. now rewrite !sapp_assoc.
  - unfold parse_revision, Text.upper. now rewrite (smap_map _ _ _ _ to_upper_idem).
  - unfold parse_revision, Text.upper, Text.lower.
    now rewrite (smap_map _ _ _ _ to_upper_lower).
Qed.

End RevisionTheorems.

(** ** The folder handlers of the two jobs screens *)

Section ProcessFolder.
Import DatabaseManager FileScanner ScanSpec ScreenSpec.

Lemma add_file_on_recent now m db rows seq :
  add_file_metadata now m (with_folders db rows seq)
  = (fst (add_file_metadata now m db),
     with_folders (snd (add_file_metadata now m db)) rows seq).
Proof.
  unfold add_file_metadata. destruct m as [|f m]; [reflexivity|].
  cbn [with_folders files_metadata files_metadata_seq recent_folders recent_folders_seq].
  now destruct (inserted_row _ _ _).
Qed.

Lemma update_file_on_recent id m db rows seq :
  update_file_metadata id m (with_folders db rows seq)
  = (fst (update_file_metadata id m db),
     with_folders (snd (update_file_metadata id m db)) rows seq).
Proof.
  unfold update_file_metadata. destruct m as [|f m]; [reflexivity|].
  cbn [with_folders files_metadata]. now destruct (update_rows _ _ _) as [[? ?]|].
Qed.

Lemma process_file_on_recent now drive existing_files root p file rows seq :
  process_file now drive existing_files root (on_recent_progress rows seq p) file
  = on_recent_progress rows seq (process_file now drive existing_files root p file).
Proof.
  unfold process_file. destruct (branch _ _ _ _); cbn [on_recent_progress self on_recent
    db_manager logger processed_files].
  - rewrite add_file_on_recent. reflexivity.
  - rewrite update_file_on_recent. reflexivity.
  - reflexivity.
  - reflexivity.
Qed.

Lemma process_files_on_recent now drive existing_files rows seq items : forall p,
  process_files now drive existing_files items (on_recent_progress rows seq p)
  = on_recent_progress rows seq (process_files now drive existing_files items p).
Proof.
  induction items as [|item items IH]; intros p; [reflexivity|].
  rewrite !process_files_cons, process_file_on_recent. apply IH.
Qed.

Lemma handle_removed_on_recent removed rows seq s :
  _handle_removed_files removed (on_recent rows seq s)
  = on_recent rows seq (_handle_removed_files removed s).
Proof.
  unfold _handle_removed_files. revert s.
  induction (elements removed) as [|p l IH]; intros s; [reflexivity|].
  simpl. rewrite <- IH. reflexivity.
Qed.

(** The scan looks at the file table alone: on another recent-folder
    table it gives the same result, the same log and the same file
    table, and hands the recent-folder table back. *)
Lemma scan_folder_on_recent date now fs folder_path rows seq s :
  scan_folder date now fs folder_path (on_recent rows seq s)
  = (fst (scan_folder date now fs folder_path s),
     on_recent rows seq (snd (scan_folder date now fs folder_path s))).
Proof.
  unfold scan_folder. destruct (negb (Os.path_exists fs folder_path)); [reflexivity|].
  change (_get_existing_files date folder_path (db_manager (on_recent rows seq s)))
    with (_get_existing_files date folder_path (db_manager s)).
  set (E := _get_existing_files date folder_path (db_manager s)).
  assert (Hw : walk_files now E fs folder_path (on_recent rows seq s)
               = on_recent_progress rows seq (walk_files now E fs folder_path s)).
  { unfold walk_files. apply (process_files_on_recent now (Os.drive fs) E rows seq _
                                 {| self := s; processed_files := ∅ |}). }
  rewrite Hw. cbn [fst snd].
  change (removed_files E (on_recent_progress rows seq (walk_files now E fs folder_path s)))
    with (removed_files E (walk_files now E fs folder_path s)).
  cbn [on_recent_progress self processed_files].
  destruct (decide (removed_files E (walk_files now E fs folder_path s) = ∅));
    [reflexivity|]. rewrite handle_removed_on_recent. reflexivity.
Qed.

Lemma scan_folder_result date now fs folder_path s :
  fst (scan_folder date now fs folder_path s) = Os.path_exists fs folder_path.
Proof. unfold scan_folder. now destruct (Os.path_exists fs folder_path). Qed.

Lemma process_folder_scanned date now fs folder_path sc :
  snd (scan_folder date now fs folder_path
         {| db_manager := snd (add_recent_folder now folder_path
                                 (db_manager (JobsScreen.controller sc)));
            logger := logger (JobsScreen.controller sc) |})
  = on_recent
      (recent_folders (snd (add_recent_folder now folder_path
                              (db_manager (JobsScreen.controller sc)))))
      (recent_folders_seq (snd (add_recent_folder now folder_path
                                  (db_manager (JobsScreen.controller sc)))))
      (snd (scan_folder date now fs folder_path (JobsScreen.controller sc))).
Proof.
  unfold add_recent_folder. cbn [snd with_folders recent_folders recent_folders_seq].
  set (rows := trim _). set (seq := next_rowid _ _).
  change {| db_manager := with_folders (db_manager (JobsScreen.controller sc)) rows seq;
            logger := logger (JobsScreen.controller sc) |}
    with (on_recent rows seq (JobsScreen.controller sc)).
  now rewrite scan_folder_on_recent.
Qed.

(** X24.  [_process_folder] of jobs_screens.py returns True on
    every folder and shows no message box.  It leaves the recent-folder
    table as [add_recent_folder] makes it and the file table and the
    scanner's log as a scan of the store it was given makes them: the two
    steps do not touch each other's table.  For a folder that does not
    exist this means True with the folder put on the recent list, no
    change of the file table and the scan's error in the log. *)
Theorem X24_process_folder_always_true (date : Sqlite.value -> option string) (now : string)
    (fs : Os.filesystem) (folder_path : string) (sc : JobsScreen.screen) :
  fst (JobsScreen._process_folder date now fs folder_path sc) = true
  /\ JobsScreen.dialogs (snd (JobsScreen._process_folder date now fs folder_path sc))
     = JobsScreen.dialogs sc
  /\ recent_folders
       (db_manager (JobsScreen.controller
                      (snd (JobsScreen._process_folder date now fs folder_path sc))))
     = recent_folders (snd (add_recent_folder now folder_path
                              (db_manager (JobsScreen.controller sc))))
  /\ files_metadata
       (db_manager (JobsScreen.controller
                      (snd (JobsScreen._process_folder date now fs folder_path sc))))
     = files_metadata
         (db_manager (snd (scan_folder date now fs folder_path (JobsScreen.controller sc))))
  /\ logger (JobsScreen.controller
               (snd (JobsScreen._process_folder date now fs folder_path sc)))
     = logger (snd (scan_folder date now fs folder_path (JobsScreen.controller sc)))
  /\ (Os.path_exists fs folder_path = false ->
      files_metadata
        (db_manager (JobsScreen.controller
                       (snd (JobsScreen._process_folder date now fs folder_path sc))))
      = files_metadata (db_manager (JobsScreen.controller sc))
      /\ logger (JobsScreen.controller
                   (snd (JobsScreen._process_folder date now fs folder_path sc)))
         = logger (JobsScreen.controller sc)
           ++ [(ERROR, "Folder not found: " +:+ folder_path)]).
Proof.
  unfold JobsScreen._process_folder.
  cbn [fst snd JobsScreen.controller JobsScreen.dialogs].
  rewrite process_folder_scanned. cbn [on_recent db_manager logger with_folders
                                        recent_folders files_metadata].
  repeat (split; [reflexivity|]).
  intros He. rewrite scan_folder_missing by assumption. cbn [snd db_manager logger].
  split; reflexivity.
Qed.

Lemma X24_process_folder_always_true_witness :
  fst (JobsScreen._process_folder Examples.date "2024-07-01 00:00:00" Examples.disk
         "/archive"
         {| JobsScreen.controller := Examples.tracking;
            JobsScreen.screen_logger := []; JobsScreen.dialogs := [] |}) = true
  /\ map folder_path
       (recent_folders
          (db_manager
             (JobsScreen.controller
                (snd (JobsScreen._process_folder Examples.date "2024-07-01 00:00:00"
                        Examples.disk "/archive"
                        {| JobsScreen.controller := Examples.tracking;
                           JobsScreen.screen_logger := [];
                           JobsScreen.dialogs := [] |})))))
     = ["/archive"]
  /\ logger
       (JobsScreen.controller
          (snd (JobsScreen._process_folder Examples.date "2024-07-01 00:00:00"
                  Examples.disk "/archive"
                  {| JobsScreen.controller := Examples.tracking;
                     JobsScreen.screen_logger := []; JobsScreen.dialogs := [] |})))
     = [(ERROR, "Folder not found: /archive")].
Proof.
  destruct (X24_process_folder_always_true Examples.date "2024-07-01 00:00:00" Examples.disk
              "/archive"
              {| JobsScreen.controller := Examples.tracking;
                 JobsScreen.screen_logger := []; JobsScreen.dialogs := [] |})
    as (Ht & _ & Hr & _ & _ & Hmissing).
  split; [exact Ht|]. split; [now rewrite Hr|].
  destruct (Hmissing eq_refl) as [_ Hl]. exact Hl.
Defined.

(** X25.  [_process_folder] of main.py returns what the scan of
    the folder returns, True exactly when the folder exists.  On a
    folder that exists it does what the handler of jobs_screens.py does;
    on one that does not it leaves the store and the scanner's log as
    they are, the recent-folder list too, and shows one message box. *)
Theorem X25_process_folder_checks_first (date : Sqlite.value -> option string) (now : string)
    (fs : Os.filesystem) (folder_path : string) (sc : JobsScreen.screen) :
  fst (Main._process_folder date now fs folder_path sc)
  = fst (scan_folder date now fs folder_path (JobsScreen.controller sc))
  /\ (Os.path_exists fs folder_path = true ->
      Main._process_folder date now fs folder_path sc
      = JobsScreen._process_folder date now fs folder_path sc)
  /\ (Os.path_exists fs folder_path = false ->
      JobsScreen.controller (snd (Main._process_folder date now fs folder_path sc))
      = JobsScreen.controller sc
      /\ JobsScreen.dialogs (snd (Main._process_folder date now fs folder_path sc))
         = JobsScreen.dialogs sc
           ++ [("Invalid Folder",
                "The folder does not exist:" +:+ String (ascii_of_nat 10) folder_path)]
      /\ JobsScreen.screen_logger (snd (Main._process_folder date now fs folder_path sc))
         = JobsScreen.screen_logger sc
           ++ [(WARNING, "Folder not found: " +:+ folder_path)]).
Proof.
  rewrite scan_folder_result. unfold Main._process_folder, JobsScreen._process_folder.
  destruct (Os.path_exists fs folder_path); cbn [negb fst snd].
  - split; [reflexivity|]. split; [reflexivity|discriminate].
  - split; [reflexivity|]. split; [discriminate|]. intros _. repeat split.
Qed.

Lemma X25_process_folder_checks_first_witness :
  fst (Main._process_folder Examples.date "2024-07-01 00:00:00" Examples.disk "/archive"
         {| JobsScreen.controller := Examples.tracking;
            JobsScreen.screen_logger := []; JobsScreen.dialogs := [] |}) = false
  /\ JobsScreen.controller
       (snd (Main._process_folder Examples.date "2024-07-01 00:00:00" Examples.disk
               "/archive"
               {| JobsScreen.controller := Examples.tracking;
                  JobsScreen.screen_logger := []; JobsScreen.dialogs := [] |}))
     = Examples.tracking
  /\ Main._process_folder Examples.date "2024-07-01 00:00:00" Examples.disk "/docs"
       {| JobsScreen.controller := Examples.tracking;
          JobsScreen.screen_logger := []; JobsScreen.dialogs := [] |}
     = JobsScreen._process_folder Examples.date "2024-07-01 00:00:00" Examples.disk "/docs"
         {| JobsScreen.controller := Examples.tracking;
            JobsScreen.screen_logger := []; JobsScreen.dialogs := [] |}.
Proof.
  split; [reflexivity|]. split.
  - destruct (X25_process_folder_checks_first Examples.date "2024-07-01 00:00:00" Examples.disk
                "/archive"
                {| JobsScreen.controller := Examples.tracking;
                   JobsScreen.screen_logger := []; JobsScreen.dialogs := [] |})
      as (_ & _ & Hmissing).
    destruct (Hmissing eq_refl) as [Hc _]. exact Hc.
  - destruct (X25_process_folder_checks_first Examples.date "2024-07-01 00:00:00" Examples.disk
                "/docs"
                {| JobsScreen.controller := Examples.tracking;
                   JobsScreen.screen_logger := []; JobsScreen.dialogs := [] |})
      as (_ & Hexists & _).
    exact (Hexists eq_refl).
Defined.

End ProcessFolder.

(** ** The update of a selection *)

Section UpdateSelected.
Import DatabaseManager StoreSpec ScreenSpec MetadataScreen.

Lemma of_text_inj (a b : option string) : Sqlite.of_text a = Sqlite.of_text b -> a = b.
Proof. destruct a, b; simpl; congruence. Qed.

(** A row is its cells. *)
Lemma cell_ext (r1 r2 : file_row) : (forall c, cell c r1 = cell c r2) -> r1 = r2.
Proof.
  intros H. destruct r1, r2. f_equal.
  - specialize (H Col.file_id). now injection H.
  - specialize (H (Col.text_ Col.file_path)). now injection H.
  - specialize (H (Col.text_ Col.file_name)). now injection H.
  - exact (of_text_inj _ _ (H (Col.text_ Col.source))).
  - exact (of_text_inj _ _ (H (Col.text_ Col.file_type))).
  - exact (of_text_inj _ _ (H (Col.text_ Col.issue_status))).
  - exact (of_text_inj _ _ (H (Col.text_ Col.revision))).
  - exact (of_text_inj _ _ (H (Col.text_ Col.department))).
  - exact (of_text_inj _ _ (H (Col.text_ Col.drawing_type))).
  - exact (of_text_inj _ _ (H (Col.text_ Col.plant_area))).
  - exact (of_text_inj _ _ (H (Col.text_ Col.equipment_included))).
  - exact (of_text_inj _ _ (H (Col.text_ Col.notes))).
  - exact (of_text_inj _ _ (H (Col.text_ Col.todos))).
  - exact (of_text_inj _ _ (H (Col.time_ Col.last_modified))).
  - exact (of_text_inj _ _ (H (Col.time_ Col.created_date))).
Qed.

(** Assigning the same values a second time changes nothing. *)
Lemma assign_all_again m r r' :
  List.NoDup (map key m) -> forallb keeps_required m = true ->
  assign_all m r = Some r' -> assign_all m r' = Some r'.
Proof.
  intros Hnd Hk Ha. destruct (assign_all_succeeds m r' Hk) as [r2 H2]. rewrite H2.
  f_equal. apply cell_ext. intros c.
  destruct (in_dec Col.eq_dec c (map key m)) as [Hin|Hout].
  - apply in_map_iff in Hin as (f & <- & Hf).
    rewrite (assign_all_named m r' r2 f H2 Hnd Hf).
    now rewrite (assign_all_named m r r' f Ha Hnd Hf).
  - apply (assign_all_unnamed m r' r2 c H2). intros f Hf E. apply Hout.
    rewrite <- E. now apply in_map.
Qed.

Lemma updates_of_keys widgets :
  forall f, In f (updates_of widgets) ->
            exists c v, f = TextField c (Some v) /\ In c metadata_fields.
Proof.
  intros f Hf. unfold updates_of in Hf. apply in_flat_map in Hf as (c & Hc & Hf).
  destruct (String.eqb _ _); [destruct Hf|]. destruct Hf as [<-|[]]. eauto.
Qed.

Lemma updates_of_required widgets : forallb keeps_required (updates_of widgets) = true.
Proof.
  apply forallb_forall. intros f Hf.
  destruct (updates_of_keys widgets f Hf) as (c & v & -> & _). now destruct c.
Qed.

Lemma updates_of_path widgets : unnamed (updates_of widgets) (Col.text_ Col.file_path).
Proof.
  intros f Hf E. destruct (updates_of_keys widgets f Hf) as (c & v & -> & Hc).
  cbn in E. injection E as ->. cbn in Hc. intuition discriminate.
Qed.

Lemma flat_map_keys_distinct (widgets : Col.text -> string) (fields : list Col.text) :
  List.NoDup fields ->
  List.NoDup
    (map key
       (flat_map
          (fun field =>
             let value := PyStr.strip (widgets field) in
             if String.eqb value "" then [] else [TextField field (Some value)])
          fields)).
Proof.
  induction 1 as [|c fields Hc Hnd IH]; [constructor|]. cbn [flat_map].
  rewrite map_app. destruct (String.eqb _ _); [exact IH|]. cbn [map List.app key].
  constructor; [|exact IH]. intros Hin. apply Hc.
  apply in_map_iff in Hin as (f & Hk & Hf). apply in_flat_map in Hf as (c' & Hc' & Hf).
  destruct (String.eqb _ _); [destruct Hf|]. destruct Hf as [<-|[]].
  cbn in Hk. now injection Hk as <-.
Qed.

Lemma updates_of_distinct widgets : List.NoDup (map key (updates_of widgets)).
Proof.
  apply flat_map_keys_distinct. unfold metadata_fields.
  repeat constructor; cbn; intuition discriminate.
Qed.

Lemma updated_path updates selection r r' :
  unnamed updates (Col.text_ Col.file_path) ->
  updated updates selection r r' -> file_path r' = file_path r.
Proof.
  unfold updated. intros Hun H. destruct (selected selection r); [|now subst].
  pose proof (assign_all_unnamed _ _ _ _ H Hun) as Hc. cbn in Hc. now injection Hc.
Qed.

Lemma listed_same updates selection rows rows' p :
  unnamed updates (Col.text_ Col.file_path) ->
  List.Forall2 (updated updates selection) rows rows' ->
  existsb (has_path p) rows' = existsb (has_path p) rows.
Proof.
  intros Hun. induction 1 as [|r r' l l' Hr _ IH]; [reflexivity|]. simpl.
  unfold has_path at 1 3. now rewrite (updated_path _ _ _ _ Hun Hr), IH.
Qed.

Lemma existsb_filter_length {A} (p : A -> bool) (l : list A) :
  (0 <? List.length (List.filter p l)) = existsb p l.
Proof.
  induction l as [|x l IH]; [reflexivity|]. simpl. destruct (p x); [reflexivity|exact IH].
Qed.

(** One call of the loop body's store operation. *)
Lemma update_by_path_step path updates db :
  updates <> [] -> forallb keeps_required updates = true ->
  exists rows',
    update_file_metadata_by_path path updates db = (listed db path, with_files db rows')
    /\ List.Forall2
         (fun r r' => if has_path path r then assign_all updates r = Some r' else r' = r)
         (files_metadata db) rows'.
Proof.
  intros Hne Hk. unfold update_file_metadata_by_path.
  destruct updates as [|f m]; [congruence|].
  destruct (update_rows_succeeds (has_path path) (f :: m) (files_metadata db) Hk)
    as (rows' & n & Hu).
  rewrite Hu. destruct (update_rows_spec _ _ _ _ _ Hu) as [-> Hall].
  exists rows'. split; [|exact Hall]. unfold listed. now rewrite existsb_filter_length.
Qed.

Lemma mem_app x l1 l2 : mem x (l1 ++ l2) = mem x l1 || mem x l2.
Proof. unfold mem. apply existsb_app. Qed.

Lemma update_each_spec updates (db0 : database) :
  updates <> [] -> forallb keeps_required updates = true ->
  List.NoDup (map key updates) -> unnamed updates (Col.text_ Col.file_path) ->
  forall selection done rows success_count error_count,
    List.Forall2 (updated updates done) (files_metadata db0) rows ->
    exists rows',
      update_each updates selection (with_files db0 rows, success_count, error_count)
      = (with_files db0 rows',
         success_count + List.length (List.filter (listed db0) selection),
         error_count + List.length (List.filter (fun p => negb (listed db0 p)) selection))
      /\ List.Forall2 (updated updates (done ++ selection)) (files_metadata db0) rows'.
Proof.
  intros Hne Hk Hnd Hun.
  induction selection as [|p selection IH]; intros done rows s e Hinv.
  - exists rows. cbn. rewrite !Nat.add_0_r, List.app_nil_r. auto.
  - unfold update_each. cbn [fold_left].
    destruct (update_by_path_step p updates (with_files db0 rows) Hne Hk)
      as (rows1 & Hstep & Hall).
    rewrite Hstep.
    assert (Hl : listed (with_files db0 rows) p = listed db0 p).
    { unfold listed. cbn [with_files files_metadata]. eapply listed_same; eassumption. }
    rewrite Hl.
    assert (Hinv1 : List.Forall2 (updated updates (done ++ [p])) (files_metadata db0) rows1).
    { cbn [with_files files_metadata] in Hall. clear -Hinv Hall Hk Hnd Hun.
      revert rows1 Hall. induction Hinv as [|r0 r l0 l Hr _ IHl]; intros rows1 Hall.
      - inversion Hall. constructor.
      - inversion Hall as [|? r1 ? l1 Hr1 Hl1]; subst. constructor; [|now apply IHl].
        pose proof (updated_path _ _ _ _ Hun Hr) as Hp.
        unfold updated, selected in *. rewrite mem_app. unfold has_path in Hr1.
        rewrite Hp in Hr1. cbn [mem existsb]. rewrite orb_false_r.
        destruct (mem (file_path r0) done); cbn [orb].
        + destruct (String.eqb (file_path r0) p); [|now subst].
          rewrite (assign_all_again _ _ _ Hnd Hk Hr) in Hr1. now injection Hr1 as <-.
        + subst r. exact Hr1. }
    destruct (IH (done ++ [p]) rows1
                (if listed db0 p then S s else s) (if listed db0 p then e else S e) Hinv1)
      as (rows' & Hrest & Hfinal).
    exists rows'. rewrite <- List.app_assoc in Hfinal. split; [|exact Hfinal].
    cbn [with_files files_metadata files_metadata_seq recent_folders recent_folders_seq]
      in *.
    change (with_files (with_files db0 rows) rows1) with (with_files db0 rows1).
    cbn [List.filter]. unfold update_each in Hrest.
    destruct (listed db0 p); cbn [negb]; cbv iota; rewrite Hrest; cbn [List.length];
      f_equal; [f_equal|]; lia.
Qed.

(** X26.  With a selection and at least one widget filled in,
    [_update_selected] ends with two counters that add up to the
    selection: the files counted as updated are the selected paths some
    row has, the files counted as failed the selected paths no row has.
    Every row with a selected path gets the stripped widget texts in
    their columns and keeps the rest; every other row, and the
    recent-folder table, is as before. *)
Theorem X26_update_selected_report (selection : list string) (widgets : Col.text -> string)
    (db : database) :
  selection <> [] ->
  updates_of widgets <> [] ->
  exists db',
    _update_selected selection widgets db
    = (UpdateComplete
         (List.length (List.filter (listed db) selection))
         (List.length (List.filter (fun p => negb (listed db p)) selection)),
       db')
    /\ List.length (List.filter (listed db) selection)
       + List.length (List.filter (fun p => negb (listed db p)) selection)
       = List.length selection
    /\ List.Forall2 (updated (updates_of widgets) selection)
         (files_metadata db) (files_metadata db')
    /\ recent_folders db' = recent_folders db.
Proof.
  intros Hs Hu. unfold _update_selected.
  destruct selection as [|p selection]; [congruence|].
  destruct (updates_of widgets) as [|f m] eqn:Em; [congruence|]. rewrite <- Em in *.
  destruct (update_each_spec (updates_of widgets) db Hu (updates_of_required widgets)
              (updates_of_distinct widgets) (updates_of_path widgets)
              (p :: selection) [] (files_metadata db) 0 0) as (rows' & Hrun & Hrows).
  { clear. induction (files_metadata db) as [|r l IH]; constructor; [reflexivity|exact IH]. }
  rewrite with_files_same in Hrun. rewrite Hrun. cbn [Nat.add].
  exists (with_files db rows'). split; [reflexivity|]. split; [|split; [exact Hrows|reflexivity]].
  clear. induction (p :: selection) as [|x l IH]; [reflexivity|].
  cbn [List.filter]. destruct (listed db x); cbn [negb List.length]; lia.
Qed.

Lemma X26_update_selected_report_witness :
  exists db',
    _update_selected ["/docs/a.pdf"; "/docs/zzz.pdf"]
      (fun c => match c with Col.revision => " B " | _ => "" end) Examples.catalog
    = (UpdateComplete 1 1, db')
    /\ map revision (files_metadata db') = [Some "B"].
Proof.
  destruct (X26_update_selected_report ["/docs/a.pdf"; "/docs/zzz.pdf"]
              (fun c => match c with Col.revision => " B " | _ => "" end) Examples.catalog)
    as (db' & Hrun & _ & Hrows & _); [discriminate|discriminate|].
  exists db'. split; [exact Hrun|].
  cbn [Examples.catalog files_metadata] in Hrows.
  inversion Hrows as [|r r' l l' Hr Hl]; subst. inversion Hl; subst.
  cbv in Hr. injection Hr as <-. reflexivity.
Defined.

End UpdateSelected.

(** ** The two search operations *)

Section LoggerStoreTheorems.
Import DatabaseManager.

Lemma lower_percent : Text.to_lower "%" = "%"%char.
Proof. reflexivity. Qed.

(** LIKE does not look at the case of its pattern. *)
Lemma like_lower_pattern p : forall t, Sqlite.like (Text.lower p) t = Sqlite.like p t.
Proof.
  unfold Text.lower. induction p as [|c p IH]; intros t; [reflexivity|].
  cbn [Text.map]. destruct (Ascii.eqb c "%") eqn:Hc.
  - apply Ascii.eqb_eq in Hc as ->. rewrite lower_percent.
    induction t as [|d t IHt].
    + now rewrite !like_percent_nil, IH.
    + now rewrite !like_percent_cons, IH, IHt.
  - rewrite !like_cons; [|assumption|now rewrite to_lower_percent].
    destruct t as [|d t]; [reflexivity|].
    now rewrite to_lower_underscore, to_lower_idem, IH.
Qed.

(** Nor at the case of the text. *)
Lemma like_lower_text p : forall t, Sqlite.like p (Text.lower t) = Sqlite.like p t.
Proof.
  unfold Text.lower. induction p as [|c p IH]; intros t; [now destruct t|].
  destruct (Ascii.eqb c "%") eqn:Hc.
  - apply Ascii.eqb_eq in Hc as ->. induction t as [|d t IHt].
    + cbn [Text.map]. now rewrite !like_percent_nil.
    + change (Text.map Text.to_lower (String d t))
        with (String (Text.to_lower d) (Text.map Text.to_lower t)).
      rewrite !like_percent_cons, IHt.
      change (String (Text.to_lower d) (Text.map Text.to_lower t))
        with (Text.map Text.to_lower (String d t)).
      now rewrite IH.
  - rewrite !like_cons by assumption. destruct t as [|d t]; [reflexivity|].
    cbn [Text.map]. now rewrite to_lower_idem, IH.
Qed.

Lemma holds_matches date r k pattern :
  holds date r (Like k pattern) = LoggerStore.matches r (k, pattern).
Proof.
  unfold holds, LoggerStore.matches. cbn [fst snd].
  destruct (cell k r) as [|z|s]; cbn [sql_lower]; [reflexivity| |].
  - apply like_lower_pattern.
  - now rewrite like_lower_pattern, like_lower_text.
Qed.

Lemma where_clauses_match date r criteria :
  (forall c, In c criteria -> Col.is_date_field (fst c) = false) ->
  forallb (holds date r) (where_clauses criteria)
  = forallb (LoggerStore.matches r) (flat_map LoggerStore.pattern_of criteria).
Proof.
  unfold where_clauses. induction criteria as [|[k v] criteria IH]; intros H; [reflexivity|].
  cbn [flat_map]. rewrite !forallb_app, IH by (intros c Hc; apply H; now right).
  f_equal. specialize (H (k, v) (or_introl eq_refl)). cbn [fst] in H.
  unfold clause_of, LoggerStore.pattern_of. rewrite H.
  destruct (Py.truthy v); cbn [negb]; [|reflexivity].
  cbn [forallb]. now rewrite holds_matches.
Qed.

(** X27.  For criteria on columns other than the two date columns,
    [search_files] of db_manager.py finds the rows [search_files] of
    logger.py finds, and returns them ordered by last_modified, newest
    first: folding the case on both sides of LIKE changes no match. *)
Theorem X27_search_agrees_with_older (date : Sqlite.value -> option string)
    (criteria : list (Col.t * Py.value)) (db : database) :
  (forall c, In c criteria -> Col.is_date_field (fst c) = false) ->
  search_files date criteria db
  = order_by_desc Sqlite.leb last_modified (LoggerStore.search_files criteria db).
Proof.
  intros H. unfold search_files, LoggerStore.search_files. f_equal.
  apply filter_ext. intros r. now apply where_clauses_match.
Qed.

Lemma X27_search_agrees_with_older_witness :
  search_files Examples.date [(Col.text_ Col.department, Py.Str "ELEC")] Examples.catalog
  = order_by_desc Sqlite.leb last_modified
      (LoggerStore.search_files [(Col.text_ Col.department, Py.Str "ELEC")]
         Examples.catalog).
Proof.
  apply X27_search_agrees_with_older. intros c [<-|[]]. reflexivity.
Defined.

End LoggerStoreTheorems.
